(** * AI Model Release Watcher: change detection and notification routing

    A shallow embedding of the watcher service: the release-stage
    classifier and the checks of [watchers/github_watcher.py], the
    leaderboard differ of [watchers/leaderboard_watcher.py], the check of
    [watchers/arxiv_watcher.py], the set-up of the watchers, the
    orchestrator and the router of [main.py], with the parts of
    [utils/config_loader.py] and [notifiers/slack.py] they call.

    Conventions.
    - Python [str] is [string]; [str.lower] is a section variable [lower],
      so that nothing proved here depends on how case folding treats
      characters outside ASCII.  [ascii_lower] instantiates it in examples.
    - A [dict] whose iteration order reaches the output (the rankings of a
      board) is an association list with the update-in-place semantics of
      Python; a [dict] used only through lookups and equality is a [gmap];
      a [set] is a [gset], iterated through [elements].
    - A list that is shared and mutated in place (the mention list of the
      notifier) is an object of a heap, held through its address.
    - A network call is a function of the request: the upstream answer is
      a parameter ([fetch], [post]) of the code that performs the call.
    - [datetime.utcnow()] is a parameter [now], and a timestamp is the
      string that [isoformat] gives; [datetime.fromisoformat] is a
      parameter that answers [None] when it raises.
    - A call that can raise returns an [option], [None] when it raises, or
      a sum with the exception on the left where the exception matters.
    - The differ and the sends are followed twice.  [Leaderboard], [Slack]
      and [WatcherService] follow them on the typed values (integer
      scores, events whose description is a string), on which they run to
      their end.  [LeaderboardApi], [GitHubApi] and [Sends] follow them
      on what the APIs can answer besides (a score or a description that
      is [null]), with the exceptions this raises and the handlers that
      catch them or let them pass.
    - Where the order in which a set is iterated reaches a saved state
      (the identifiers the arXiv watcher keeps), [list(s)] is a parameter
      [listing]: the language does not fix that order. *)

From Stdlib Require Import ZArith String Ascii List Permutation Sorted Lia.
From stdpp Require Import base decidable option list gmap sets strings pretty.

Open Scope string_scope.
Open Scope list_scope.
Open Scope Z_scope.

(** ** Python primitives *)

Module Py.

(** [needle in hay] on strings. *)
Fixpoint str_in (needle hay : string) : bool :=
  match hay with
  | EmptyString => String.prefix needle hay
  | String _ rest => String.prefix needle hay || str_in needle rest
  end.

Definition lower_char (c : ascii) : ascii :=
  let n := nat_of_ascii c in
  if ((65 <=? n)%nat && (n <=? 90)%nat)%bool then ascii_of_nat (n + 32) else c.

Fixpoint ascii_lower (s : string) : string :=
  match s with
  | EmptyString => EmptyString
  | String c rest => String (lower_char c) (ascii_lower rest)
  end.

(** [x or d] for an optional string: [None] and [""] are both falsy. *)
Definition str_or (x : option string) (d : string) : string :=
  match x with
  | Some s => if decide (s = "") then d else s
  | None => d
  end.

(** [float(z)] for an integer, as the integer that the float holds: the
    nearest integer whose significand has 53 bits, a tie going to the even
    significand.  An integer below 2^53 in magnitude is its own float.
    (From 2^1024 - 2^970 on, [float] raises [OverflowError]: the scores
    the differ subtracts are taken below that.) *)
Definition float_of_int (z : Z) : Z :=
  let a := Z.abs z in
  let e := Z.log2 a - 52 in
  if e <=? 0 then z
  else
    let q := Z.shiftr a e in
    let r := Z.land a (Z.ones e) in
    let half := Z.shiftl 1 (e - 1) in
    let q := if (half <? r) || ((r =? half) && Z.odd q) then q + 1 else q in
    Z.sgn z * Z.shiftl q e.

(** [f"{z:.0f}"] for an integer: the integer is converted to a float, and a
    float with an integral value is printed with all its digits. *)
Definition format_0f (z : Z) : string := pretty (float_of_int z).

(** [float(z)] raises [OverflowError] when the nearest float would be
    2^1024 or more. *)
Definition float_overflows (z : Z) : bool := 2 ^ 1024 - 2 ^ 970 <=? Z.abs z.

(** The exceptions met below, all of them subclasses of [Exception];
    [RequestException] stands for [requests.RequestException] and its
    subclasses. *)
Inductive Exception :=
| RequestException
| AttributeError
| TypeError
| ValueError
| OverflowError.

Definition is_RequestException (e : Exception) : bool :=
  match e with RequestException => true | _ => false end.

Section Dict.
Context {V : Type}.

(** An insertion-ordered dictionary with string keys. *)
Definition dict := list (string * V).

Fixpoint dict_get (d : dict) (k : string) : option V :=
  match d with
  | [] => None
  | (k', v) :: rest => if decide (k' = k) then Some v else dict_get rest k
  end.

(** [d[k] = v]: an existing key keeps its position, a new key goes last. *)
Fixpoint dict_set (d : dict) (k : string) (v : V) : dict :=
  match d with
  | [] => [(k, v)]
  | (k', v') :: rest =>
      if decide (k' = k) then (k, v) :: rest else (k', v') :: dict_set rest k v
  end.

Definition dict_keys (d : dict) : list string := map fst d.
End Dict.
Arguments dict : clear implicits.

Section Sort.
Context {A : Type} (key : A → Z).

(** [list.sort(key=...)] is stable: an element is placed before the first
    element whose key is not smaller, and the list is consumed from the
    right. *)
Fixpoint insert_by (x : A) (l : list A) : list A :=
  match l with
  | [] => [x]
  | y :: rest => if key x <=? key y then x :: l else y :: insert_by x rest
  end.

Fixpoint sort_by (l : list A) : list A :=
  match l with
  | [] => []
  | x :: rest => insert_by x (sort_by rest)
  end.

(** The order the sort establishes. *)
Definition key_le (x y : A) : Prop := key x ≤ key y.
End Sort.

End Py.

(** ** watchers/base.py *)

Module Base.

Inductive ReleaseStage := ANNOUNCED | LAUNCHED | UPDATED | UNKNOWN.

#[global] Instance ReleaseStage_eq_dec : EqDecision ReleaseStage.
Proof. solve_decision. Defined.

(** Values stored in [extra_data]. *)
Inductive Value :=
| VNone
| VBool (b : bool)
| VInt (z : Z)
| VStr (s : string)
| VList (l : list string).

#[global] Instance Value_eq_dec : EqDecision Value.
Proof. solve_decision. Defined.

Record WatchEvent := {
  source : string;
  event_type : string;
  model_name : string;
  title : string;
  description : string;
  url : string;
  timestamp : string;
  extra_data : option (gmap string Value);
  release_stage : ReleaseStage;
}.

#[global] Instance WatchEvent_eq_dec : EqDecision WatchEvent.
Proof. solve_decision. Defined.

End Base.

(** ** watchers/github_watcher.py: the release-stage classifier *)

Module GitHub.
Import Base.

Definition ANNOUNCEMENT_KEYWORDS : list string :=
  [ "coming soon"; "announcing"; "preview"; "teaser"; "upcoming";
    "will be released"; "stay tuned"; "sneak peek"; "roadmap";
    "planned"; "expected"; "eta"; "wip"; "work in progress";
    "alpha"; "beta"; "rc"; "release candidate"; "pre-release" ].

Definition LAUNCH_KEYWORDS : list string :=
  [ "released"; "available now"; "v1."; "v2."; "stable";
    "production ready"; "ready to use"; "download now";
    "install"; "pip install"; "weights released" ].

Section Classifier.
Variable lower : string → string.

Definition _detect_release_stage (text : string) (is_prerelease : bool)
  : ReleaseStage :=
  if decide (text = "") then UNKNOWN
  else
    let text_lower := lower text in
    if is_prerelease then ANNOUNCED
    else if existsb (fun keyword => Py.str_in keyword text_lower)
              ANNOUNCEMENT_KEYWORDS then ANNOUNCED
    else if existsb (fun keyword => Py.str_in keyword text_lower)
              LAUNCH_KEYWORDS then LAUNCHED
    else UNKNOWN.
End Classifier.

End GitHub.

(** ** watchers/leaderboard_watcher.py: the leaderboard differ

    This module follows the watcher on the typed answers: the entries of
    the [data] array give integers for the ranks and for the ELO scores,
    the scores such that their differences are floats.  On these the
    differ runs to its end.  [LeaderboardApi] follows the watcher on the
    other answers, with the exceptions that the [try] statement
    catches. *)

Module Leaderboard.
Import Base.

Definition API_BASE := "https://artificialanalysis.ai/api/v2/data/media".

Definition DEFAULT_MAX_RANK : Z := 30.

Definition ENDPOINTS : Py.dict string :=
  [ ("text-to-image", "/text-to-image");
    ("image-editing", "/image-editing");
    ("text-to-video", "/text-to-video");
    ("image-to-video", "/image-to-video");
    ("text-to-speech", "/text-to-speech") ].

(** One element of the [data] array of a response.  A field is [None] when
    the key is missing; ranks and ELO scores are integers, and the
    difference of two scores is one that [float] converts
    ([Py.float_overflows]). *)
Record RawModel := {
  raw_name : option string;
  raw_rank : option Z;
  raw_elo : option Z;
  raw_id : option string;
  raw_creator : option string;
}.

(** What [requests.get] does: it raises, or it answers with a status code
    and a body.  The body is the [data] array, [[]] when the key is
    missing; it is [None] when an exception is raised before the first
    event is built: by [response.json()] on a body that is not JSON, by
    [data.get] on a body that is not an object, or by the first loop on an
    array whose elements are not entries. *)
Inductive Response :=
| RequestException
| Http (status_code : Z) (body : option (list RawModel)).

(** The value stored for a model in [rankings]. *)
Record Info := {
  rank : Z;
  elo : Z;
  model_id : option string;
  creator : string;
}.

#[global] Instance Info_eq_dec : EqDecision Info.
Proof. solve_decision. Defined.

(** The snapshot of a board, stored under ["leaderboard_" ++ board_name]. *)
Record Snapshot := {
  rankings : Py.dict Info;
  models : list string;
  top3 : list string;
  last_checked : string;
  total_models : nat;
}.

#[global] Instance Snapshot_eq_dec : EqDecision Snapshot.
Proof. solve_decision. Defined.

(** [state.get(state_key, {})] followed by [.get(field, default)]. *)
Definition previous_rankings_of (previous_data : option Snapshot) : Py.dict Info :=
  match previous_data with Some s => rankings s | None => [] end.
Definition previous_models_of (previous_data : option Snapshot) : list string :=
  match previous_data with Some s => models s | None => [] end.
Definition previous_top3_of (previous_data : option Snapshot) : list string :=
  match previous_data with Some s => top3 s | None => [] end.

Record LeaderboardWatcher := {
  name : string;
  api_key : string;
  leaderboards_to_watch : list string;
  max_rank : Z;
}.

(** [__init__]: the keys of the configuration that are missing get their
    defaults, and the key of the environment stands in for a missing API
    key. *)
Definition init (config_name : option string)
    (config_leaderboards : option (list string)) (config_max_rank : option Z)
    (api_key environment_key : option string) : LeaderboardWatcher :=
  {| name := default "Unknown" config_name;
     api_key := Py.str_or api_key (default "" environment_key);
     leaderboards_to_watch := default (Py.dict_keys ENDPOINTS) config_leaderboards;
     max_rank := default DEFAULT_MAX_RANK config_max_rank |}.

Definition board_url (board_name : string) : string :=
  "https://artificialanalysis.ai/image/leaderboard/" +:+ board_name.

(** The first loop of the differ: the rankings and the model list of the
    entries whose rank is at most [max_rank]. *)
Definition track (max_rank : Z) (acc : Py.dict Info * list string)
    (model : RawModel) : Py.dict Info * list string :=
  let model_name := default "Unknown" (raw_name model) in
  let rank := default 0 (raw_rank model) in
  let elo := default 0 (raw_elo model) in
  if rank >? max_rank then acc
  else (Py.dict_set acc.1 model_name
          {| rank := rank; elo := elo; model_id := raw_id model;
             creator := default "Unknown" (raw_creator model) |},
        acc.2 ++ [model_name]).

Definition build_current (max_rank : Z) (models_data : list RawModel)
  : Py.dict Info * list string :=
  fold_left (track max_rank) models_data ([], []).

(** [current_rankings.get(m, {}).get('rank', 99)] *)
Definition rank_or_99 (current_rankings : Py.dict Info) (m : string) : Z :=
  match Py.dict_get current_rankings m with Some i => rank i | None => 99 end.

Definition show_opt (f : Info → string) (d : string) (i : option Info) : string :=
  match i with Some i => f i | None => d end.

Definition new_entry_event (now board_name : string)
    (current_rankings : Py.dict Info) (model_name : string) : WatchEvent :=
  let model_info := Py.dict_get current_rankings model_name in
  {| source := "leaderboard";
     event_type := "leaderboard_new_entry";
     model_name := model_name;
     title := "New model on " +:+ board_name +:+ ": " +:+ model_name;
     description :=
       "Rank: #" +:+ show_opt (λ i, pretty (rank i)) "N/A" model_info
       +:+ " | ELO: " +:+ show_opt (λ i, pretty (elo i)) "N/A" model_info
       +:+ " | Creator: " +:+ show_opt creator "Unknown" model_info;
     url := board_url board_name;
     timestamp := now;
     extra_data := Some (list_to_map
       [ ("leaderboard", VStr board_name);
         ("rank", from_option (λ i, VInt (rank i)) VNone model_info);
         ("elo", from_option (λ i, VInt (elo i)) VNone model_info);
         ("creator", from_option (λ i, VStr (creator i)) VNone model_info);
         ("action", VStr "new_entry") ]);
     release_stage := UNKNOWN |}.

(** The event of a rank change.  The description prints the ranks and
    the scores as they are, and the difference of the scores with [.0f],
    through a float. *)
Definition rank_change_event (now board_name model_name : string)
    (prev_rank curr_rank prev_elo curr_elo : Z) : WatchEvent :=
  let direction := if curr_rank <? prev_rank then "up" else "down" in
  let change := Z.abs (prev_rank - curr_rank) in
  let elo_change := curr_elo - prev_elo in
  let up := bool_decide (direction = "up") in
  {| source := "leaderboard";
     event_type := "leaderboard_rank_change";
     model_name := model_name;
     title := model_name +:+ " moved " +:+ direction +:+ " on " +:+ board_name;
     description :=
       "Rank: #" +:+ pretty prev_rank +:+ " → #" +:+ pretty curr_rank
       +:+ " (" +:+ (if up then "+" else "")
       +:+ pretty (if up then - change else change) +:+ ")"
       +:+ " | ELO: " +:+ pretty prev_elo +:+ " → " +:+ pretty curr_elo
       +:+ " (" +:+ (if elo_change >=? 0 then "+" else "")
       +:+ Py.format_0f elo_change +:+ ")";
     url := board_url board_name;
     timestamp := now;
     extra_data := Some (list_to_map
       [ ("leaderboard", VStr board_name);
         ("previous_rank", VInt prev_rank);
         ("current_rank", VInt curr_rank);
         ("previous_elo", VInt prev_elo);
         ("current_elo", VInt curr_elo);
         ("direction", VStr direction);
         ("change", VInt change) ]);
     release_stage := UNKNOWN |}.

(** The body of the loop over [current_rankings.items()]. *)
Definition rank_change_of (now board_name : string)
    (previous_rankings : Py.dict Info) (item : string * Info)
  : list WatchEvent :=
  match Py.dict_get previous_rankings item.1 with
  | Some prev =>
      if decide (rank item.2 = rank prev) then []
      else [rank_change_event now board_name item.1
              (rank prev) (rank item.2) (elo prev) (elo item.2)]
  | None => []
  end.

Definition rank_change_events (now board_name : string)
    (previous_rankings current_rankings : Py.dict Info) : list WatchEvent :=
  match previous_rankings with
  | [] => []
  | _ => concat (map (rank_change_of now board_name previous_rankings)
                   current_rankings)
  end.

(** [current_top3] before it is cut to three elements. *)
Definition current_top3_of (current_rankings : Py.dict Info)
    (current_models : list string) : list string :=
  Py.sort_by (rank_or_99 current_rankings)
    (filter (λ m, rank_or_99 current_rankings m ≤ 3) current_models).

Definition top3_change_event (now board_name : string)
    (current_rankings : Py.dict Info)
    (previous_top3 current_top3 : list string) : WatchEvent :=
  let top3_info :=
    String.concat ", "
      (map (λ m, "#" +:+ pretty (rank_or_99 current_rankings m) +:+ " " +:+ m)
         (take 3 current_top3)) in
  {| source := "leaderboard";
     event_type := "leaderboard_top3_change";
     model_name := "Top 3";
     title := "Top 3 changed on " +:+ board_name +:+ " leaderboard";
     description := "New Top 3: " +:+ top3_info;
     url := board_url board_name;
     timestamp := now;
     extra_data := Some (list_to_map
       [ ("leaderboard", VStr board_name);
         ("previous_top3", VList previous_top3);
         ("current_top3", VList (take 3 current_top3)) ]);
     release_stage := UNKNOWN |}.

Definition top3_change_events (now board_name : string)
    (current_rankings : Py.dict Info)
    (previous_top3 current_top3 : list string) : list WatchEvent :=
  match previous_top3 with
  | [] => []
  | _ => if decide (current_top3 = previous_top3) then []
         else [top3_change_event now board_name current_rankings
                 previous_top3 current_top3]
  end.

Definition state_key_of (board_name : string) : string :=
  "leaderboard_" +:+ board_name.

(** The differ proper: what [_check_leaderboard_api] does with a non-empty
    [data] array.  The new models are a Python set; the order in which its
    elements are visited is the order of [elements]. *)
Definition diff_board (max_rank : Z) (now board_name : string)
    (models_data : list RawModel) (state : gmap string Snapshot)
  : list WatchEvent * gmap string Snapshot :=
  let state_key := state_key_of board_name in
  let '(current_rankings, current_models) := build_current max_rank models_data in
  let previous_data := state !! state_key in
  let previous_rankings := previous_rankings_of previous_data in
  let previous_models : gset string := list_to_set (previous_models_of previous_data) in
  let current_models_set : gset string := list_to_set current_models in
  let new_models := current_models_set ∖ previous_models in
  let current_top3 := current_top3_of current_rankings current_models in
  let previous_top3 := previous_top3_of previous_data in
  let events :=
    map (new_entry_event now board_name current_rankings) (elements new_models)
    ++ rank_change_events now board_name previous_rankings current_rankings
    ++ top3_change_events now board_name current_rankings previous_top3 current_top3 in
  (events,
   <[state_key := {| rankings := current_rankings;
                     models := current_models;
                     top3 := take 3 current_top3;
                     last_checked := now;
                     total_models := length current_models |}]> state).

Section Watcher.
Variable self : LeaderboardWatcher.
(** The upstream answer for a URL, and the clock. *)
Variable fetch : string → Response.
Variable now : string.

(** [_check_leaderboard_api] on the typed answers.  Both handlers of the
    [try] statement print and fall through to [return events, state];
    where they are reached here no event has been appended. *)
Definition _check_leaderboard_api (board_name endpoint : string)
    (state : gmap string Snapshot) : list WatchEvent * gmap string Snapshot :=
  match fetch (API_BASE +:+ endpoint) with
  | Http status_code body =>
      if decide (status_code = 200) then
        match body with
        | Some (model :: rest) =>
            diff_board (max_rank self) now board_name (model :: rest) state
        | Some [] => ([], state)
        | None => ([], state)
        end
      else ([], state)
  | RequestException => ([], state)
  end.

(** The body of the loop over the boards; the pause between two requests
    has no effect on the result. *)
Definition check_board (acc : list WatchEvent * gmap string Snapshot)
    (board_name : string) : list WatchEvent * gmap string Snapshot :=
  match Py.dict_get ENDPOINTS board_name with
  | None => acc
  | Some endpoint =>
      let r := _check_leaderboard_api board_name endpoint acc.2 in
      (acc.1 ++ r.1, r.2)
  end.

Definition check_updates (last_check_state : option (gmap string Snapshot))
  : list WatchEvent * gmap string Snapshot :=
  let new_state := default ∅ last_check_state in
  if decide (api_key self = "") then ([], new_state)
  else fold_left check_board (leaderboards_to_watch self) ([], new_state).
End Watcher.

End Leaderboard.

(** ** utils/config_loader.py *)

Module ModelConfig.
Record t := {
  name : string;
  github : option string;
  huggingface : option string;
  modelscope : option string;
  arxiv_query : option string;
  news_keywords : option string;
  priority : string;
  always_notify : list string;
}.
End ModelConfig.

Module PriorityModelConfig.
Record t := {
  name : string;
  notify_all_commits : bool;
  notify_all_hf_changes : bool;
  mention_channel : bool;
}.
End PriorityModelConfig.

(** A Python list that is shared and mutated lives in a heap of list
    objects and is held through its address. *)
Definition loc := positive.

Module Config.

Record t := {
  models : list ModelConfig.t;
  priority_models : list PriorityModelConfig.t;
  (** [notifications.mention_channel_for], a list object *)
  mention_channel_for : loc;
  include_icons : bool;
  include_timestamp : bool;
  slack_webhook_url : string;
  slack_channels : gmap string string;
}.

Section Lower.
Variable lower : string → string.

Definition is_high_priority (m : ModelConfig.t) : bool :=
  bool_decide (lower (ModelConfig.priority m) = "high").

Fixpoint find_priority (pms : list PriorityModelConfig.t) (model_name : string)
  : option PriorityModelConfig.t :=
  match pms with
  | [] => None
  | pm :: rest =>
      if decide (lower (PriorityModelConfig.name pm) = lower model_name)
      then Some pm else find_priority rest model_name
  end.

Definition get_priority_config (self : t) (model_name : string)
  : option PriorityModelConfig.t :=
  find_priority (priority_models self) model_name.

Definition is_priority_model (self : t) (model_name : string) : bool :=
  match get_priority_config self model_name with
  | Some _ => true
  | None =>
      existsb (λ model,
                 bool_decide (lower (ModelConfig.name model) = lower model_name)
                 && is_high_priority model)
        (models self)
  end.

Definition get_priority_model_names (self : t) : gset string :=
  list_to_set (map (λ pm, lower (PriorityModelConfig.name pm)) (priority_models self))
  ∪ list_to_set (map (λ model, lower (ModelConfig.name model))
                   (filter (λ model, is_high_priority model = true) (models self))).
End Lower.

End Config.

(** ** notifiers/slack.py *)

Module Slack.
Import Base.

Definition SOURCE_CONFIG : Py.dict (string * string) :=
  [ ("github", (":octocat:", "#24292e"));
    ("huggingface", (":hugging_face:", "#ffcc00"));
    ("modelscope", (":microscope:", "#1890ff"));
    ("arxiv", (":page_facing_up:", "#b31b1b"));
    ("news", (":newspaper:", "#4a90d9"));
    ("leaderboard", (":trophy:", "#ffd700")) ].

Definition EVENT_LABELS : Py.dict string :=
  [ ("new_repo", "New Repository");
    ("new_commit", "New Commit");
    ("new_release", "New Release");
    ("new_model", "New Model");
    ("new_paper", "New Paper");
    ("new_article", "News Article");
    ("leaderboard_new_entry", "Leaderboard: New Entry");
    ("leaderboard_rank_change", "Leaderboard: Rank Change");
    ("leaderboard_top3_change", "Leaderboard: Top 3 Change");
    ("release_announced", "Release Announced");
    ("release_launched", "Model Launched") ].

(** The payload of a webhook call: its [text] and the colour of its
    attachment.  The layout blocks of the attachment are left out.
    Building them reads [event.description[:500]], which raises when the
    description is not a string, and joins the [current_top3] of an event
    of the leaderboard, a list of names as the differ builds it.  In this
    module and in [WatcherService] the description of an event is a
    string and building the message returns; [Sends] follows the sends of
    an event as a watcher builds it. *)
Record Message := {
  text : string;
  color : string;
}.

Record SlackNotifier := {
  webhook_url : string;
  include_icons : bool;
  include_timestamp : bool;
  (** the attribute holds a list object *)
  mention_channel_for : loc;
  channel_webhooks : gmap string string;
}.

(** What a send can touch: the list objects and the requests made so far. *)
Record World := {
  heap : gmap loc (list string);
  outbox : list (string * Message);
}.

Definition deref (w : World) (l : loc) : list string := default [] (heap w !! l).

Definition DEFAULT_MENTION : list string :=
  ["new_release"; "new_model"; "release_launched"].

(** [SlackNotifier.__init__]: [mention_channel_for or [...]] keeps the
    caller's list object when it is non-empty. *)
Definition init (webhook_url : string) (include_icons include_timestamp : bool)
    (mention_channel_for : loc) (channel_webhooks : gmap string string)
    (w : World) : SlackNotifier * World :=
  match deref w mention_channel_for with
  | [] =>
      let l := fresh (dom (heap w)) in
      ({| webhook_url := webhook_url; include_icons := include_icons;
          include_timestamp := include_timestamp; mention_channel_for := l;
          channel_webhooks := channel_webhooks |},
       {| heap := <[l := DEFAULT_MENTION]> (heap w); outbox := outbox w |})
  | _ =>
      ({| webhook_url := webhook_url; include_icons := include_icons;
          include_timestamp := include_timestamp;
          mention_channel_for := mention_channel_for;
          channel_webhooks := channel_webhooks |}, w)
  end.

Definition get_webhook_for_event (self : SlackNotifier) (event : WatchEvent) : string :=
  match (if decide (source event = "leaderboard")
         then channel_webhooks self !! "leaderboard" else None) with
  | Some u => u
  | None =>
      match channel_webhooks self !! event_type event with
      | Some u => u
      | None => default (webhook_url self) (channel_webhooks self !! source event)
      end
  end.

Definition _build_message (self : SlackNotifier) (w : World) (event : WatchEvent)
  : Message :=
  let source_config := default (":bell:", "#808080")
                         (Py.dict_get SOURCE_CONFIG (source event)) in
  let event_label := default (event_type event)
                       (Py.dict_get EVENT_LABELS (event_type event)) in
  let header := event_label +:+ ": " +:+ model_name event in
  let header := if include_icons self then source_config.1 +:+ " " +:+ header
                else header in
  let text := if bool_decide (event_type event ∈ deref w (mention_channel_for self))
              then "<!channel> " else "" in
  {| text := text +:+ header; color := source_config.2 |}.

Definition _build_leaderboard_combined_message (events : list WatchEvent) : Message :=
  let source_config := default (":trophy:", "#ffd700")
                         (Py.dict_get SOURCE_CONFIG "leaderboard") in
  let total_changes := length events in
  {| text := source_config.1 +:+ " Leaderboard Update - "
             +:+ pretty total_changes +:+ " Changes";
     color := source_config.2 |}.

Section Net.
(** The answer of the webhook endpoint: a status code, or [None] when
    [requests.post] raises. *)
Variable post : string → Message → option Z.

Definition _send_webhook (self : SlackNotifier) (message : Message)
    (webhook_url' : option string) (w : World) : bool * World :=
  let url := Py.str_or webhook_url' (webhook_url self) in
  if bool_decide (url = "")
     || String.prefix "https://hooks.slack.com/services/YOUR" url
  then (false, w)
  else
    let w' := {| heap := heap w; outbox := outbox w ++ [(url, message)] |} in
    match post url message with
    | Some status_code => (bool_decide (status_code = 200), w')
    | None => (false, w')
    end.

Definition send_event (self : SlackNotifier) (event : WatchEvent)
    (webhook_url' : option string) (w : World) : bool * World :=
  let url := Py.str_or webhook_url' (get_webhook_for_event self event) in
  let message := _build_message self w event in
  _send_webhook self message (Some url) w.

(** The loops of [send_events] and [send_to_channel]. *)
Definition send_counting (self : SlackNotifier) (webhook_url' : option string)
    (acc : Z * World) (event : WatchEvent) : Z * World :=
  let r := send_event self event webhook_url' acc.2 in
  (if r.1 then acc.1 + 1 else acc.1, r.2).

Definition send_events (self : SlackNotifier) (events : list WatchEvent)
    (w : World) : Z * World :=
  fold_left (send_counting self None) events (0, w).

Definition send_to_channel (self : SlackNotifier) (channel_name : string)
    (events : list WatchEvent) (w : World) : Z * World :=
  let webhook_url' := default (webhook_url self)
                        (channel_webhooks self !! channel_name) in
  fold_left (send_counting self (Some webhook_url')) events (0, w).

Definition send_leaderboard_combined (self : SlackNotifier)
    (events : list WatchEvent) (w : World) : bool * World :=
  match events with
  | [] => (true, w)
  | _ =>
      let url := default (webhook_url self) (channel_webhooks self !! "leaderboard") in
      _send_webhook self (_build_leaderboard_combined_message events) (Some url) w
  end.
End Net.

End Slack.

(** ** main.py: the orchestrator and the router *)

Module BaseWatcher.
(** A watcher as the orchestrator sees it.  [check_updates] answers
    [None] when the call raises. *)
Record t (State : Type) := {
  source_name : string;
  model_name : string;
  check_updates : option State → option (list Base.WatchEvent * State);
}.
Arguments source_name {State}.
Arguments model_name {State}.
Arguments check_updates {State}.

Definition get_state_key {State} (self : t State) : string :=
  source_name self +:+ ":" +:+ model_name self.
End BaseWatcher.

Module WatcherService.
Import Base.

Section CheckAll.
Context {State : Type}.

(** The body of the loop of [check_all]; the state manager is the map
    from keys to saved states. *)
Definition check_one (acc : list WatchEvent * gmap string State)
    (watcher : BaseWatcher.t State) : list WatchEvent * gmap string State :=
  let state_key := BaseWatcher.get_state_key watcher in
  let last_state := acc.2 !! state_key in
  let is_first_run := bool_decide (last_state = None) in
  match BaseWatcher.check_updates watcher last_state with
  | Some (events, new_state) =>
      (if is_first_run then acc.1
       else match events with [] => acc.1 | _ => acc.1 ++ events end,
       <[state_key := new_state]> acc.2)
  | None => acc
  end.

Definition check_all (watchers : list (BaseWatcher.t State))
    (state_manager : gmap string State)
  : list WatchEvent * gmap string State :=
  fold_left check_one watchers ([], state_manager).
End CheckAll.

Record Buckets := {
  priority_events : list WatchEvent;
  announcements : list WatchEvent;
  launches : list WatchEvent;
  leaderboard_events : list WatchEvent;
  other_events : list WatchEvent;
}.

(** The mutable part of the service during a run: the notifier object,
    the list objects, the requests made. *)
Record Run := {
  notifier : Slack.SlackNotifier;
  world : Slack.World;
  sent : Z;
}.

Section Router.
Variable lower : string → string.
Variable config : Config.t.

Definition _is_priority_event (event : WatchEvent) : bool :=
  Config.is_priority_model lower config (model_name event).

Definition mark_priority (priority_names : gset string) (event : WatchEvent)
  : WatchEvent :=
  if bool_decide (lower (model_name event) ∈ priority_names) then
    {| source := source event; event_type := event_type event;
       model_name := model_name event; title := title event;
       description := description event; url := url event;
       timestamp := timestamp event;
       extra_data :=
         Some (<["priority_model" := VBool true]>
                 (<["is_priority" := VBool true]>
                    (default ∅ (extra_data event))));
       release_stage := release_stage event |}
  else event.

Definition _mark_priority_events (events : list WatchEvent) : list WatchEvent :=
  let priority_names := Config.get_priority_model_names lower config in
  map (mark_priority priority_names) events.

(** Lines 193 to 200 of [run_once]. *)
Definition partition_events (events : list WatchEvent) : Buckets :=
  let priority_events := filter (λ e, _is_priority_event e = true) events in
  let normal_events := filter (λ e, _is_priority_event e ≠ true) events in
  let announcements := filter (λ e, release_stage e = ANNOUNCED) normal_events in
  let launches := filter (λ e, release_stage e = LAUNCHED) normal_events in
  let leaderboard_events := filter (λ e, source e = "leaderboard") normal_events in
  let other_events :=
    filter (λ e, e ∉ announcements ++ launches ++ leaderboard_events)
      normal_events in
  {| priority_events := priority_events; announcements := announcements;
     launches := launches; leaderboard_events := leaderboard_events;
     other_events := other_events |}.

Variable post : string → Slack.Message → option Z.

Definition count (ok : bool) (sent : Z) : Z := if ok then sent + 1 else sent.

(** [list.copy()] and [list.append(x)] on the heap of list objects. *)
Definition copy_list (w : Slack.World) (l : loc) : loc * Slack.World :=
  let l' := fresh (dom (Slack.heap w)) in
  (l', {| Slack.heap := <[l' := Slack.deref w l]> (Slack.heap w);
          Slack.outbox := Slack.outbox w |}).

Definition append_list (w : Slack.World) (l : loc) (x : string) : Slack.World :=
  {| Slack.heap := <[l := Slack.deref w l ++ [x]]> (Slack.heap w);
     Slack.outbox := Slack.outbox w |}.

Definition set_mention_channel_for (self : Slack.SlackNotifier) (l : loc)
  : Slack.SlackNotifier :=
  {| Slack.webhook_url := Slack.webhook_url self;
     Slack.include_icons := Slack.include_icons self;
     Slack.include_timestamp := Slack.include_timestamp self;
     Slack.mention_channel_for := l;
     Slack.channel_webhooks := Slack.channel_webhooks self |}.

(** The body of the loop over [priority_events]. *)
Definition send_priority (r : Run) (event : WatchEvent) : Run :=
  let priority_config := Config.get_priority_config lower config (model_name event) in
  if from_option PriorityModelConfig.mention_channel false priority_config then
    let '(original_mention_list, w1) :=
      copy_list (world r) (Slack.mention_channel_for (notifier r)) in
    let w2 :=
      if bool_decide (event_type event
                        ∈ Slack.deref w1 (Slack.mention_channel_for (notifier r)))
      then w1
      else append_list w1 (Slack.mention_channel_for (notifier r)) (event_type event) in
    let s := Slack.send_event post (notifier r) event None w2 in
    {| notifier := set_mention_channel_for (notifier r) original_mention_list;
       world := s.2;
       sent := count s.1 (sent r) |}
  else
    let s := Slack.send_event post (notifier r) event None (world r) in
    {| notifier := notifier r; world := s.2; sent := count s.1 (sent r) |}.

(** The sends of [run_once], after [check_all] has returned a non-empty
    list of events. *)
Definition dispatch (b : Buckets) (r : Run) : Run :=
  let r := fold_left send_priority (priority_events b) r in
  let r :=
    match leaderboard_events b with
    | [] => r
    | _ =>
        let s := Slack.send_leaderboard_combined post (notifier r)
                   (leaderboard_events b) (world r) in
        {| notifier := notifier r; world := s.2; sent := count s.1 (sent r) |}
    end in
  let r :=
    match announcements b with
    | [] => r
    | _ =>
        let s := Slack.send_to_channel post (notifier r) "announcements"
                   (announcements b) (world r) in
        {| notifier := notifier r; world := s.2; sent := sent r + s.1 |}
    end in
  let r :=
    match launches b with
    | [] => r
    | _ =>
        let s := Slack.send_to_channel post (notifier r) "launches"
                   (launches b) (world r) in
        {| notifier := notifier r; world := s.2; sent := sent r + s.1 |}
    end in
  match other_events b with
  | [] => r
  | _ =>
      let s := Slack.send_events post (notifier r) (other_events b) (world r) in
      {| notifier := notifier r; world := s.2; sent := sent r + s.1 |}
  end.

Context {State : Type}.

(** [run_once]: the events it returns, the saved states, and the
    notifier, list objects and requests after the sends. *)
Definition run_once (watchers : list (BaseWatcher.t State))
    (state_manager : gmap string State) (self_notifier : Slack.SlackNotifier)
    (w : Slack.World) : list WatchEvent * gmap string State * Run :=
  let '(events, state_manager') := check_all watchers state_manager in
  let r0 := {| notifier := self_notifier; world := w; sent := 0 |} in
  match events with
  | [] => (events, state_manager', r0)
  | _ =>
      let events := _mark_priority_events events in
      (events, state_manager', dispatch (partition_events events) r0)
  end.
End Router.

End WatcherService.

(** The leaderboard watcher as the orchestrator sees it: its source name
    is ["leaderboard"], its model name the name of its configuration, and
    on the typed answers its [check_updates] returns. *)
Definition leaderboard_watcher (self : Leaderboard.LeaderboardWatcher)
    (fetch : string → Leaderboard.Response) (now : string)
  : BaseWatcher.t (gmap string Leaderboard.Snapshot) :=
  {| BaseWatcher.source_name := "leaderboard";
     BaseWatcher.model_name := Leaderboard.name self;
     BaseWatcher.check_updates := λ last_check_state,
       Some (Leaderboard.check_updates self fetch now last_check_state) |}.

(** ** Notions used to state the properties *)

Module Spec.
Import Base Leaderboard.

(** The name and the rank under which an entry of the [data] array is
    read. *)
Definition name_of (model : RawModel) : string := default "Unknown" (raw_name model).
Definition rank_of (model : RawModel) : Z := default 0 (raw_rank model).

(** The names of the entries whose rank is at most [max_rank], in the
    order of the response. *)
Definition tracked (max_rank : Z) (models_data : list RawModel) : list string :=
  map name_of (filter (λ model, rank_of model ≤ max_rank) models_data).

(** What the first loop of the differ maintains: the keys of the rankings
    are distinct, they are the models of the list, and no rank exceeds
    [max_rank]. *)
Definition tracking_inv (max_rank : Z) (acc : Py.dict Info * list string) : Prop :=
  NoDup (Py.dict_keys acc.1)
  ∧ (∀ m, m ∈ Py.dict_keys acc.1 ↔ m ∈ acc.2)
  ∧ (∀ m i, Py.dict_get acc.1 m = Some i → rank i ≤ max_rank).


(** An answer of the upstream from which no snapshot is built: the call
    raised, the status is not 200, the body cannot be read, or the [data]
    array is empty. *)
Definition failed (r : Response) : bool :=
  match r with
  | Http status_code (Some (_ :: _)) => bool_decide (status_code ≠ 200)
  | _ => true
  end.

(** A watched board that is skipped: it has no endpoint, or its fetch
    failed. *)
Definition skipped (fetch : string → Response) (board_name : string) : bool :=
  match Py.dict_get ENDPOINTS board_name with
  | Some endpoint => failed (fetch (API_BASE +:+ endpoint))
  | None => true
  end.

(** The [data] array from which the snapshot of a watched board is
    built, when one is. *)
Definition answered (fetch : string → Response) (board_name : string)
  : option (list RawModel) :=
  match Py.dict_get ENDPOINTS board_name with
  | Some endpoint =>
      match fetch (API_BASE +:+ endpoint) with
      | Http status_code (Some (model :: rest)) =>
          if decide (status_code = 200) then Some (model :: rest) else None
      | _ => None
      end
  | None => None
  end.

(** At most three tracked entries of an array have a rank of at most 3. *)
Definition at_most_three (max_rank : Z) (data : list RawModel) : Prop :=
  let cur := build_current max_rank data in
  (length (current_top3_of cur.1 cur.2) ≤ 3)%nat.


(** The same watcher, watching other boards. *)
Definition watching (self : LeaderboardWatcher) (boards : list string)
  : LeaderboardWatcher :=
  {| name := name self; api_key := api_key self;
     leaderboards_to_watch := boards; max_rank := max_rank self |}.


(** The top-3 events in a list of events. *)
Definition top3_changes (events : list WatchEvent) : list WatchEvent :=
  filter (λ e, event_type e = "leaderboard_top3_change") events.

(** A key of the extra data of an event. *)
Definition extra (e : WatchEvent) (k : string) : option Value :=
  extra_data e ≫= (.!! k).

(** The five lists of the router, one after the other. *)
Definition all_buckets (b : WatcherService.Buckets) : list WatchEvent :=
  WatcherService.priority_events b ++ WatcherService.announcements b
  ++ WatcherService.launches b ++ WatcherService.leaderboard_events b
  ++ WatcherService.other_events b.

(** An event that the stage filters and the leaderboard filter both
    accept. *)
Definition staged_leaderboard_event (e : WatchEvent) : Prop :=
  source e = "leaderboard"
  ∧ (release_stage e = ANNOUNCED ∨ release_stage e = LAUNCHED).

(** What a watcher adds to the list handed to the router. *)
Definition contribution {State : Type} (last_state : option State)
    (events : list WatchEvent) : list WatchEvent :=
  match last_state with Some _ => events | None => [] end.

(** The mention list the notifier holds, as a value. *)
Definition mention_list (r : WatcherService.Run) : list string :=
  Slack.deref (WatcherService.world r)
    (Slack.mention_channel_for (WatcherService.notifier r)).

(** The list object the notifier holds exists. *)
Definition allocated (r : WatcherService.Run) : Prop :=
  is_Some (Slack.heap (WatcherService.world r)
             !! Slack.mention_channel_for (WatcherService.notifier r)).

End Spec.

(** ** Inputs used in the examples *)

Module Examples.
Import Base Leaderboard.

Definition entry (n : string) (r e : Z) : RawModel :=
  {| raw_name := Some n; raw_rank := Some r; raw_elo := Some e;
     raw_id := None; raw_creator := Some "lab" |}.

Definition one_board : LeaderboardWatcher :=
  {| name := "AI Image Generation"; api_key := "key";
     leaderboards_to_watch := ["text-to-image"]; max_rank := 30 |}.

Definition two_boards : LeaderboardWatcher :=
  {| name := "AI Image Generation"; api_key := "key";
     leaderboards_to_watch := ["text-to-image"; "image-editing"];
     max_rank := 30 |}.

(** Every answer is the same array. *)
Definition always (data : list RawModel) (url : string) : Response :=
  Http 200 (Some data).


(** The board before and after model M climbs from rank 5 to rank 2. *)
Definition before_climb : list RawModel :=
  [entry "A" 1 1200; entry "B" 2 1100; entry "C" 3 1050; entry "M" 5 1000].
Definition after_climb : list RawModel :=
  [entry "A" 1 1200; entry "M" 2 1050; entry "B" 3 1100; entry "C" 4 1050].

(** Four models of rank at most 3: two share the third place. *)
Definition tie_for_third : list RawModel :=
  [entry "A" 1 1200; entry "B" 2 1100; entry "C" 3 1000; entry "D" 3 1000].

(** The first board cannot be reached, the second answers. *)
Definition first_board_down (url : string) : Response :=
  if decide (url = API_BASE +:+ "/text-to-image") then RequestException
  else Http 200 (Some after_climb).

Definition snapshot_of (data : list RawModel) (board_name : string)
  : gmap string Snapshot :=
  (diff_board 30 "2024-01-01T00:00:00" board_name data ∅).2.

(** The snapshot built from an array. *)
Definition snapshot (data : list RawModel) : Snapshot :=
  let cur := build_current 30 data in
  {| rankings := cur.1; models := cur.2;
     top3 := take 3 (current_top3_of cur.1 cur.2);
     last_checked := "2024-01-01T00:00:00";
     total_models := length cur.2 |}.

(** A service with one priority model that asks for a channel mention. *)
Definition z_image : PriorityModelConfig.t :=
  {| PriorityModelConfig.name := "Z-Image";
     PriorityModelConfig.notify_all_commits := true;
     PriorityModelConfig.notify_all_hf_changes := true;
     PriorityModelConfig.mention_channel := true |}.

Definition config : Config.t :=
  {| Config.models := [];
     Config.priority_models := [z_image];
     Config.mention_channel_for := 1%positive;
     Config.include_icons := true;
     Config.include_timestamp := true;
     Config.slack_webhook_url := "https://hooks.slack.com/services/T/B/main";
     Config.slack_channels := ∅ |}.

Definition world : Slack.World :=
  {| Slack.heap := {[ 1%positive := ["new_release"; "new_model"] ]};
     Slack.outbox := [] |}.

Definition notifier : Slack.SlackNotifier :=
  (Slack.init (Config.slack_webhook_url config) (Config.include_icons config)
     (Config.include_timestamp config) (Config.mention_channel_for config)
     (Config.slack_channels config) world).1.

Definition event (source event_type model_name : string) (stage : ReleaseStage)
  : WatchEvent :=
  {| source := source; event_type := event_type; model_name := model_name;
     title := event_type +:+ " of " +:+ model_name; description := "";
     url := ""; timestamp := "2024-01-02T00:00:00"; extra_data := None;
     release_stage := stage |}.

Definition z_commit : WatchEvent := event "github" "new_commit" "z-image" UNKNOWN.

(** An event of the leaderboard with a release stage: no watcher builds
    one, the record allows it. *)
Definition staged : WatchEvent :=
  event "leaderboard" "leaderboard_new_entry" "Flux" ANNOUNCED.

(** Watchers with a state of one counter: [loud] always reports one
    commit and counts its runs, [broken] raises. *)
Definition bump (last_state : option (gmap string Value)) : gmap string Value :=
  <["runs" := VInt (match default ∅ last_state !! "runs" with
                    | Some (VInt n) => n + 1
                    | _ => 1
                    end)]> (default ∅ last_state).

Definition loud (model_name : string) : BaseWatcher.t (gmap string Value) :=
  {| BaseWatcher.source_name := "github";
     BaseWatcher.model_name := model_name;
     BaseWatcher.check_updates := λ last_state,
       Some ([event "github" "new_commit" model_name UNKNOWN], bump last_state) |}.

Definition broken (model_name : string) : BaseWatcher.t (gmap string Value) :=
  {| BaseWatcher.source_name := "arxiv";
     BaseWatcher.model_name := model_name;
     BaseWatcher.check_updates := λ _, None |}.

Definition run : WatcherService.Run :=
  {| WatcherService.notifier := notifier; WatcherService.world := world;
     WatcherService.sent := 0 |}.

(** A webhook that refuses every request. *)
Definition refuse (url : string) (message : Slack.Message) : option Z := Some 500.

End Examples.

(** ** Further notions about the leaderboard watcher *)

Module LeaderboardNotions.
Import Base Leaderboard.

(** The snapshot that the differ stores for an array. *)
Definition new_snapshot (max_rank : Z) (now : string) (data : list RawModel)
  : Snapshot :=
  let cur := build_current max_rank data in
  {| rankings := cur.1; models := cur.2;
     top3 := take 3 (current_top3_of cur.1 cur.2);
     last_checked := now; total_models := length cur.2 |}.

(** A snapshot as the differ leaves one: the keys of [rankings] are
    distinct and are the names of [models], no rank exceeds [max_rank],
    [total_models] counts [models], and [top3] holds at most three of the
    models, all of rank at most 3. *)
Definition tidy (max_rank : Z) (snap : Snapshot) : Prop :=
  NoDup (Py.dict_keys (rankings snap))
  ∧ (∀ m, m ∈ Py.dict_keys (rankings snap) ↔ m ∈ models snap)
  ∧ (∀ m i, Py.dict_get (rankings snap) m = Some i → rank i ≤ max_rank)
  ∧ total_models snap = length (models snap)
  ∧ (length (top3 snap) ≤ 3)%nat
  ∧ Forall (λ m, m ∈ models snap ∧ rank_or_99 (rankings snap) m ≤ 3) (top3 snap).

(** Cycle after cycle of one watcher, each with its own upstream and clock,
    the state of a cycle being the one the cycle before returned. *)
Definition run_cycles (self : LeaderboardWatcher)
    (cycles : list ((string → Response) * string))
    (state : option (gmap string Snapshot)) : option (gmap string Snapshot) :=
  fold_left (λ state cycle, Some (check_updates self cycle.1 cycle.2 state).2)
    cycles state.



End LeaderboardNotions.

(** ** Further notions about the service *)

Module WatcherServiceNotions.
Import Base WatcherService.

(** The requests of a list that the webhook answers with status 200. *)
Definition delivered (post : string → Slack.Message → option Z)
    (requests : list (string * Slack.Message)) : Z :=
  Z.of_nat (length (filter (λ request, post request.1 request.2 = Some 200)
                      requests)).

(** A URL for which [_send_webhook] makes no request: it is empty, or it is
    the placeholder of the sample configuration. *)
Definition unconfigured (url : string) : bool :=
  bool_decide (url = "")
  || String.prefix "https://hooks.slack.com/services/YOUR" url.

(** The webhooks a notifier knows: its default one and those of its
    channels. *)
Definition known (self : Slack.SlackNotifier) (url : string) : Prop :=
  url = Slack.webhook_url self
  ∨ ∃ channel, Slack.channel_webhooks self !! channel = Some url.

(** What a watcher adds to the aggregated list in a cycle that starts from
    [store], when no other watcher has its key. *)
Definition events_of {State : Type} (store : gmap string State)
    (watcher : BaseWatcher.t State) : list WatchEvent :=
  match store !! BaseWatcher.get_state_key watcher with
  | Some last_state =>
      match BaseWatcher.check_updates watcher (Some last_state) with
      | Some (events, _) => events
      | None => []
      end
  | None => []
  end.

(** From one world to a later one, the requests made and how many of them
    were answered with 200. *)
Definition tally (post : string → Slack.Message → option Z)
    (w w' : Slack.World) (n : Z) : Prop :=
  ∃ added, Slack.outbox w' = Slack.outbox w ++ added ∧ n = delivered post added.

(** The requests of a list go to webhooks the notifier knows, none of
    them empty or the placeholder. *)
Definition configured (self : Slack.SlackNotifier)
    (requests : list (string * Slack.Message)) : Prop :=
  Forall (λ request, known self request.1 ∧ unconfigured request.1 = false)
    requests.

(** The priority configuration of the model of an event asks for a mention
    of the channel. *)
Definition mentions (lower : string → string) (config : Config.t)
    (event : WatchEvent) : bool :=
  from_option PriorityModelConfig.mention_channel false
    (Config.get_priority_config lower config (model_name event)).

(** The list that [send_priority] leaves in the object the notifier held. *)
Definition with_type (mention_list : list string) (event_type : string)
  : list string :=
  if bool_decide (event_type ∈ mention_list) then mention_list
  else mention_list ++ [event_type].

(** What the state manager holds for a watcher after a cycle that starts
    from [store], when no other watcher has its key. *)
Definition saved_by {State : Type} (store : gmap string State)
    (watcher : BaseWatcher.t State) : option State :=
  let last_state := store !! BaseWatcher.get_state_key watcher in
  match BaseWatcher.check_updates watcher last_state with
  | Some (_, new_state) => Some new_state
  | None => last_state
  end.

End WatcherServiceNotions.

(** ** main.py: the watchers of a configuration *)

Module Setup.
Import Base.

(** The dictionary [model_dict] that [_setup_watchers] hands to the
    watchers of a model. *)
Record ModelDict := {
  name : string;
  github : option string;
  huggingface : option string;
  modelscope : option string;
  arxiv_query : option string;
  news_keywords : option string;
}.

(** The watcher classes, each with the arguments of its constructor. *)
Inductive Watcher :=
| GitHubWatcher (model_dict : ModelDict) (github_token : option string)
| HuggingFaceWatcher (model_dict : ModelDict) (huggingface_token : option string)
| ModelScopeWatcher (model_dict : ModelDict)
| ArxivWatcher (model_dict : ModelDict)
| NewsWatcher (model_dict : ModelDict)
| LeaderboardWatcher (self : Leaderboard.LeaderboardWatcher).

(** The property [source_name] of each class. *)
Definition source_name (self : Watcher) : string :=
  match self with
  | GitHubWatcher _ _ => "github"
  | HuggingFaceWatcher _ _ => "huggingface"
  | ModelScopeWatcher _ => "modelscope"
  | ArxivWatcher _ => "arxiv"
  | NewsWatcher _ => "news"
  | LeaderboardWatcher _ => "leaderboard"
  end.

(** [BaseWatcher.__init__]: the name of the dictionary it is given. *)
Definition model_name (self : Watcher) : string :=
  match self with
  | GitHubWatcher model_dict _ | HuggingFaceWatcher model_dict _
  | ModelScopeWatcher model_dict | ArxivWatcher model_dict
  | NewsWatcher model_dict => name model_dict
  | LeaderboardWatcher self => Leaderboard.name self
  end.

Definition get_state_key (self : Watcher) : string :=
  source_name self +:+ ":" +:+ model_name self.

(** The truth value of an optional string: [None] and [""] are falsy. *)
Definition truthy (x : option string) : bool :=
  match x with
  | Some s => negb (bool_decide (s = ""))
  | None => false
  end.

(** The fields of [config.leaderboards] that [_setup_watchers] reads. *)
Record LeaderboardConfig := {
  enabled : bool;
  boards : list string;
  max_rank : Z;
}.

(** The body of the loop over [config.models]. *)
Definition model_watchers (github_token huggingface_token : option string)
    (model_config : ModelConfig.t) : list Watcher :=
  let model_dict :=
    {| name := ModelConfig.name model_config;
       github := ModelConfig.github model_config;
       huggingface := ModelConfig.huggingface model_config;
       modelscope := ModelConfig.modelscope model_config;
       arxiv_query := ModelConfig.arxiv_query model_config;
       news_keywords := ModelConfig.news_keywords model_config |} in
  (if truthy (ModelConfig.github model_config)
   then [GitHubWatcher model_dict github_token] else [])
  ++ (if truthy (ModelConfig.huggingface model_config)
      then [HuggingFaceWatcher model_dict huggingface_token] else [])
  ++ (if truthy (ModelConfig.modelscope model_config)
      then [ModelScopeWatcher model_dict] else [])
  ++ (if truthy (ModelConfig.arxiv_query model_config)
      then [ArxivWatcher model_dict] else [])
  ++ (if truthy (ModelConfig.news_keywords model_config)
      then [NewsWatcher model_dict] else []).

(** [_setup_watchers]: the list [self.watchers] it builds.  The tokens and
    the API key are those of the configuration, [environment_key] the
    variable the leaderboard watcher falls back to. *)
Definition _setup_watchers (config : Config.t) (leaderboards : LeaderboardConfig)
    (github_token huggingface_token artificial_analysis_api_key
       environment_key : option string) : list Watcher :=
  flat_map (model_watchers github_token huggingface_token) (Config.models config)
  ++ (if enabled leaderboards
      then [LeaderboardWatcher
              (Leaderboard.init (Some "AI Image Generation")
                 (Some (boards leaderboards)) (Some (max_rank leaderboards))
                 artificial_analysis_api_key environment_key)]
      else []).

End Setup.

(** ** watchers/github_watcher.py: commits, releases and the repository *)

Module GitHubWatcher.
Import Base.

Definition API_BASE : string := "https://api.github.com".

(** The elements of the answers of the GitHub API.  A field is [None] when
    the key is missing; a key that is present holds a value of the type
    the API documents, and the keys the code reads with [x['key']]
    ([sha], [id]) are present. *)
Record Commit := {
  sha : string;
  commit_html_url : option string;
  (** [commit.commit.message], [commit.commit.author.name] and
      [commit.commit.author.date] *)
  message : option string;
  author_name : option string;
  author_date : option string;
}.

Record Release := {
  id : Z;
  published_at : option string;
  created_at : option string;
  prerelease : option bool;
  name : option string;
  body : option string;
  assets : option (list string);
  tag_name : option string;
  release_html_url : option string;
}.

(** A repository whose description is a string, or is missing from the
    answer.  [GitHubApi] reads the answer in which it is [null]. *)
Record Repo := {
  repo_created_at : option string;
  repo_description : option string;
  repo_html_url : option string;
  stargazers_count : option Z;
  forks_count : option Z;
  language : option string;
}.

(** What [requests.get] does: it raises [RequestException], or it answers
    with a status code and a body, read as JSON. *)
Inductive Response (A : Type) :=
| RequestException
| Http (status_code : Z) (body : A).
Arguments RequestException {A}.
Arguments Http {A}.

(** The upstream: the answer to a request for the commits or the releases
    of a URL with a [per_page] parameter, and for a repository. *)
Record Api := {
  get_commits : string → Z → Response (list Commit);
  get_releases : string → Z → Response (list Release);
  get_repo : string → Response Repo;
}.

(** The fields of the watcher that [check_updates] reads. *)
Record t := {
  model_name : string;
  repo : option string;
}.

(** [__init__]: the name and the [github] entry of the dictionary. *)
Definition init (model_dict : Setup.ModelDict) : t :=
  {| model_name := Setup.name model_dict; repo := Setup.github model_dict |}.

(** The saved state is a dictionary of JSON values. *)
Abbreviation State := (gmap string Value).

(** The truth value of [state.get(key)]. *)
Definition truthy (v : option Value) : bool :=
  match v with
  | None | Some VNone => false
  | Some (VBool b) => b
  | Some (VInt z) => negb (bool_decide (z = 0))
  | Some (VStr s) => negb (bool_decide (s = ""))
  | Some (VList l) => negb (bool_decide (l = []))
  end.

(** [x == v] and [s == v] for an integer, a string and a JSON value: an
    integer equals the integers and the Booleans of its value ([True] is
    1), a string equals the strings. *)
Definition int_eq (x : Z) (v : option Value) : bool :=
  match v with
  | Some (VInt z) => bool_decide (x = z)
  | Some (VBool b) => bool_decide (x = if b then 1 else 0)
  | _ => false
  end.

Definition str_eq (x : string) (v : option Value) : bool :=
  bool_decide (v = Some (VStr x)).

(** [s.replace('Z', '+00:00')]. *)
Fixpoint replace_Z (s : string) : string :=
  match s with
  | EmptyString => EmptyString
  | String c rest =>
      if Ascii.eqb c "Z" then "+00:00" +:+ replace_Z rest
      else String c (replace_Z rest)
  end.

(** [s.split('\n')[0]]. *)
Fixpoint first_line (s : string) : string :=
  match s with
  | EmptyString => EmptyString
  | String c rest =>
      if Ascii.eqb c "010" then EmptyString else String c (first_line rest)
  end.

(** The repository in an f-string. *)
Definition repo_str (self : t) : string := default "None" (repo self).

Section Watcher.
Variable lower : string → string.
(** [datetime.fromisoformat], [None] when it raises [ValueError], and the
    [isoformat] of [datetime.utcnow()]. *)
Variable fromisoformat : string → option string.
Variable now : string.
Variable api : Api.

(** The event of one new commit; [None] when building it raises. *)
Definition commit_event (self : t) (commit : Commit) : option WatchEvent :=
  let message := default "No message" (message commit) in
  let release_stage := GitHub._detect_release_stage lower message false in
  timestamp ← fromisoformat (replace_Z (default now (author_date commit)));
  Some {| source := "github";
          event_type := "new_commit";
          Base.model_name := model_name self;
          title := String.substring 0 100 (first_line message);
          description := "Author: " +:+ default "Unknown" (author_name commit);
          url := default "" (commit_html_url commit);
          timestamp := timestamp;
          extra_data := Some {[ "sha" := VStr (String.substring 0 7 (sha commit));
                                "full_sha" := VStr (sha commit) ]};
          release_stage := release_stage |}.

(** The loop that collects the commits in front of the last one seen. *)
Fixpoint new_commits (last_commit_sha : option Value) (commits : list Commit)
  : list Commit :=
  match commits with
  | [] => []
  | commit :: rest =>
      if str_eq (sha commit) last_commit_sha then []
      else commit :: new_commits last_commit_sha rest
  end.

Definition commits_url (self : t) : string :=
  API_BASE +:+ "/repos/" +:+ repo_str self +:+ "/commits".

Definition releases_url (self : t) : string :=
  API_BASE +:+ "/repos/" +:+ repo_str self +:+ "/releases".

Definition repo_url (self : t) : string :=
  API_BASE +:+ "/repos/" +:+ repo_str self.

(** The events of [_check_commits] for a page that is not empty. *)
Definition commit_events (self : t) (last_commit_sha : option Value)
    (commits : list Commit) (latest_sha : string) : option (list WatchEvent) :=
  if truthy last_commit_sha && negb (str_eq latest_sha last_commit_sha)
  then mapM (commit_event self) (take 5 (new_commits last_commit_sha commits))
  else Some [].

(** [_check_commits]; [None] when it raises. *)
Definition _check_commits (self : t) (state : State)
  : option (list WatchEvent * State) :=
  let last_commit_sha := state !! "last_commit_sha" in
  match get_commits api (commits_url self) 10 with
  | Http status_code commits =>
      if decide (status_code = 200) then
        match commits with
        | latest_commit :: _ =>
            let latest_sha := sha latest_commit in
            events ← commit_events self last_commit_sha commits latest_sha;
            Some (events, <["last_commit_sha" := VStr latest_sha]> state)
        | [] => Some ([], state)
        end
      else Some ([], state)
  | RequestException => Some ([], state)
  end.

(** The event of one new release; [None] when building it raises. *)
Definition release_event (self : t) (release : Release) : option WatchEvent :=
  let published_at :=
    match published_at release with
    | Some s => if decide (s = "") then created_at release else Some s
    | None => created_at release
    end in
  let is_prerelease := default false (prerelease release) in
  let release_text :=
    default "" (name release) +:+ " " +:+ default "" (body release) in
  let release_stage :=
    GitHub._detect_release_stage lower release_text is_prerelease in
  let has_assets := negb (bool_decide (default [] (assets release) = [])) in
  let release_stage :=
    if has_assets && negb is_prerelease then LAUNCHED else release_stage in
  let event_type :=
    if decide (release_stage = LAUNCHED) then "release_launched"
    else "release_announced" in
  published_at ← published_at;
  timestamp ← fromisoformat (replace_Z published_at);
  Some {| source := "github";
          event_type := event_type;
          Base.model_name := model_name self;
          title := (if decide (release_stage = LAUNCHED) then "Release"
                    else "Pre-release")
                   +:+ ": " +:+ default "Unknown" (tag_name release);
          description := Py.str_or (name release)
                           (String.substring 0 200 (default "" (body release)));
          url := default "" (release_html_url release);
          timestamp := timestamp;
          extra_data := Some {[ "tag" := from_option VStr VNone (tag_name release);
                                "prerelease" := VBool is_prerelease;
                                "has_assets" := VBool has_assets ]};
          release_stage := release_stage |}.

(** The loop of [_check_releases]: it stops at the last release seen. *)
Fixpoint new_releases (last_release_id : option Value) (releases : list Release)
  : list Release :=
  match releases with
  | [] => []
  | release :: rest =>
      if int_eq (id release) last_release_id then []
      else release :: new_releases last_release_id rest
  end.

Definition release_events (self : t) (last_release_id : option Value)
    (releases : list Release) (latest_id : Z) : option (list WatchEvent) :=
  if truthy last_release_id && negb (int_eq latest_id last_release_id)
  then mapM (release_event self) (new_releases last_release_id releases)
  else Some [].

(** [_check_releases]; [None] when it raises. *)
Definition _check_releases (self : t) (state : State)
  : option (list WatchEvent * State) :=
  let last_release_id := state !! "last_release_id" in
  match get_releases api (releases_url self) 5 with
  | Http status_code releases =>
      if decide (status_code = 200) then
        match releases with
        | latest_release :: _ =>
            let latest_id := id latest_release in
            events ← release_events self last_release_id releases latest_id;
            Some (events, <["last_release_id" := VInt latest_id]> state)
        | [] => Some ([], state)
        end
      else Some ([], state)
  | RequestException => Some ([], state)
  end.

Definition _has_releases (self : t) : bool :=
  match get_releases api (releases_url self) 1 with
  | Http status_code releases =>
      if decide (status_code = 200) then negb (bool_decide (releases = []))
      else false
  | RequestException => false
  end.

(** [_check_repo_exists] on a repository whose description is a string or
    is missing; [None] when it raises. *)
Definition _check_repo_exists (self : t) (state : State)
  : option (option WatchEvent * State) :=
  if truthy (state !! "repo_known") then Some (None, state)
  else
    match get_repo api (repo_url self) with
    | Http status_code repo_data =>
        if decide (status_code = 200) then
          let state := <["repo_known" := VBool true]> state in
          let state :=
            <["repo_created_at" :=
                from_option VStr VNone (repo_created_at repo_data)]> state in
          let description := default "" (repo_description repo_data) in
          let release_stage :=
            GitHub._detect_release_stage lower description false in
          let has_releases := _has_releases self in
          let release_stage :=
            if has_releases then LAUNCHED
            else if decide (release_stage = UNKNOWN) then ANNOUNCED
            else release_stage in
          created_at ← repo_created_at repo_data;
          created_at ← fromisoformat (replace_Z created_at);
          let event_type :=
            if decide (release_stage = LAUNCHED) then "release_launched"
            else "release_announced" in
          Some (Some {| source := "github";
                        event_type := event_type;
                        Base.model_name := model_name self;
                        title := "Repository discovered: " +:+ repo_str self;
                        description := default "No description"
                                         (repo_description repo_data);
                        url := default ("https://github.com/" +:+ repo_str self)
                                 (repo_html_url repo_data);
                        timestamp := created_at;
                        extra_data :=
                          Some {[ "stars" := VInt (default 0 (stargazers_count repo_data));
                                  "forks" := VInt (default 0 (forks_count repo_data));
                                  "language" := from_option VStr VNone
                                                  (language repo_data) ]};
                        release_stage := release_stage |},
                state)
        else Some (None, state)
    | RequestException => Some (None, state)
    end.

(** [check_updates]; [None] when it raises. *)
Definition check_updates (self : t) (last_check_state : option State)
  : option (list WatchEvent * State) :=
  if negb (Setup.truthy (repo self)) then Some ([], default ∅ last_check_state)
  else
    let new_state := default ∅ last_check_state in
    '(commit_events, new_state) ← _check_commits self new_state;
    '(release_events, new_state) ← _check_releases self new_state;
    '(repo_event, new_state) ← _check_repo_exists self new_state;
    Some (commit_events ++ release_events ++ option_list repo_event, new_state).

(** The watcher as the orchestrator sees it. *)
Definition watcher (self : t) : BaseWatcher.t State :=
  {| BaseWatcher.source_name := "github";
     BaseWatcher.model_name := model_name self;
     BaseWatcher.check_updates := check_updates self |}.
End Watcher.

End GitHubWatcher.

(** ** Notions used to state the properties of the GitHub watcher *)

Module GitHubNotions.
Import Base GitHubWatcher.

Section Parts.
Variable lower : string → string.
Variable fromisoformat : string → option string.
Variable now : string.
Variable api : Api.

(** The date of a commit can be read. *)
Definition dated (commit : Commit) : Prop :=
  is_Some (fromisoformat (replace_Z (default now (author_date commit)))).

(** What [_check_commits] reports, as a function of the value it finds
    under its key, and what it saves. *)
Definition commits_part (self : t) (last_commit_sha : option Value)
  : option (list WatchEvent) :=
  match get_commits api (commits_url self) 10 with
  | Http status_code (latest_commit :: rest) =>
      if decide (status_code = 200)
      then commit_events lower fromisoformat now self last_commit_sha
             (latest_commit :: rest) (sha latest_commit)
      else Some []
  | _ => Some []
  end.

Definition commits_saved (self : t) (state : State) : State :=
  match get_commits api (commits_url self) 10 with
  | Http status_code (latest_commit :: _) =>
      if decide (status_code = 200)
      then <["last_commit_sha" := VStr (sha latest_commit)]> state
      else state
  | _ => state
  end.

(** The same for [_check_releases]. *)
Definition releases_part (self : t) (last_release_id : option Value)
  : option (list WatchEvent) :=
  match get_releases api (releases_url self) 5 with
  | Http status_code (latest_release :: rest) =>
      if decide (status_code = 200)
      then release_events lower fromisoformat self last_release_id
             (latest_release :: rest) (id latest_release)
      else Some []
  | _ => Some []
  end.

Definition releases_saved (self : t) (state : State) : State :=
  match get_releases api (releases_url self) 5 with
  | Http status_code (latest_release :: _) =>
      if decide (status_code = 200)
      then <["last_release_id" := VInt (id latest_release)]> state
      else state
  | _ => state
  end.

(** The same for [_check_repo_exists]. *)
Definition repo_part (self : t) (repo_known : option Value)
  : option (option WatchEvent) :=
  fst <$> _check_repo_exists lower fromisoformat api self
            (from_option (λ v, {[ "repo_known" := v ]}) ∅ repo_known).

Definition repo_saved (self : t) (state : State) : State :=
  if truthy (state !! "repo_known") then state
  else
    match get_repo api (repo_url self) with
    | Http status_code repo_data =>
        if decide (status_code = 200)
        then <["repo_created_at" :=
                 from_option VStr VNone (repo_created_at repo_data)]>
               (<["repo_known" := VBool true]> state)
        else state
    | RequestException => state
    end.
End Parts.

End GitHubNotions.

(** ** watchers/arxiv_watcher.py: new papers *)

Module ArxivWatcher.
Import Base.

Definition API_BASE : string := "http://export.arxiv.org/api/query".

(** A paper as [_parse_arxiv_response] returns it; [published] is the
    date it read, or the time of the call. *)
Record Paper := {
  id : string;
  arxiv_id : string;
  title : string;
  summary : string;
  published : string;
  authors : list string;
  categories : list string;
  url : string;
}.

(** What [requests.get] does: it raises [RequestException], or it answers
    with a status code and a body.  The body is given by what
    [_parse_arxiv_response] makes of it: a list of papers ([[]] when the
    body is not XML), or [None] when reading an entry raises. *)
Inductive Response :=
| RequestException
| Http (status_code : Z) (papers : option (list Paper)).

(** The fields of the watcher that [check_updates] reads. *)
Record t := {
  model_name : string;
  search_query : option string;
}.

(** [__init__]: the name and the [arxiv_query] entry of the dictionary. *)
Definition init (model_dict : Setup.ModelDict) : t :=
  {| model_name := Setup.name model_dict;
     search_query := Setup.arxiv_query model_dict |}.

(** The saved state: lists of identifiers under their keys. *)
Abbreviation State := (gmap string (list string)).

(** [l[-n:]]. *)
Definition last_n {A : Type} (n : nat) (l : list A) : list A :=
  drop (length l - n) l.

(** The query parameter, [all:] and the search query between double
    quotes. *)
Definition query_of (self : t) : string :=
  let quote := String (ascii_of_nat 34) EmptyString in
  "all:" +:+ quote +:+ default "None" (search_query self) +:+ quote.

Section Watcher.
(** The answer to a request for a URL with a [search_query] parameter. *)
Variable get : string → string → Response.
(** [list(s)] for a set: its elements in the order of the iteration. *)
Variable listing : gset string → list string.

Definition paper_event (self : t) (paper : Paper) : WatchEvent :=
  {| source := "arxiv";
     event_type := "new_paper";
     Base.model_name := model_name self;
     Base.title := title paper;
     description := if (400 <? String.length (summary paper))%nat
                    then String.substring 0 400 (summary paper) +:+ "..."
                    else summary paper;
     Base.url := url paper;
     timestamp := published paper;
     extra_data := Some {[ "arxiv_id" := VStr (arxiv_id paper);
                           "authors" := VList (take 5 (authors paper));
                           "categories" := VList (categories paper) ]};
     release_stage := UNKNOWN |}.

(** The body of the loop over the papers. *)
Definition add_paper (self : t) (acc : gset string * list WatchEvent)
    (paper : Paper) : gset string * list WatchEvent :=
  let paper_id := id paper in
  if decide (paper_id ∈ acc.1) then acc
  else ({[ paper_id ]} ∪ acc.1, acc.2 ++ [paper_event self paper]).

(** [check_updates]; [None] when it raises. *)
Definition check_updates (self : t) (last_check_state : option State)
  : option (list WatchEvent * State) :=
  if negb (Setup.truthy (search_query self))
  then Some ([], default ∅ last_check_state)
  else
    let new_state := default ∅ last_check_state in
    let seen_ids : gset string :=
      list_to_set (default [] (new_state !! "seen_paper_ids")) in
    match get API_BASE (query_of self) with
    | Http status_code body =>
        if decide (status_code = 200) then
          papers ← body;
          let r := fold_left (add_paper self) papers (seen_ids, []) in
          Some (r.2, <["seen_paper_ids" := last_n 100 (listing r.1)]> new_state)
        else Some ([], new_state)
    | RequestException => Some ([], new_state)
    end.

(** The watcher as the orchestrator sees it. *)
Definition watcher (self : t) : BaseWatcher.t State :=
  {| BaseWatcher.source_name := "arxiv";
     BaseWatcher.model_name := model_name self;
     BaseWatcher.check_updates := check_updates self |}.
End Watcher.

End ArxivWatcher.

(** ** Notions used to state the properties of the arXiv watcher *)

Module ArxivNotions.
Import Base ArxivWatcher.

(** The identifiers saved in a state. *)
Definition seen_of (state : option State) : list string :=
  default [] (default ∅ state !! "seen_paper_ids").

(** The papers of a page whose identifier is not in a set, each
    identifier at its first place. *)
Fixpoint unseen (seen_ids : gset string) (papers : list Paper) : list Paper :=
  match papers with
  | [] => []
  | paper :: rest =>
      if decide (id paper ∈ seen_ids) then unseen seen_ids rest
      else paper :: unseen ({[ id paper ]} ∪ seen_ids) rest
  end.

(** An order of iteration lists the elements of the set, each once. *)
Definition lists_the_set (listing : gset string → list string) : Prop :=
  ∀ X, listing X ≡ₚ elements X.

End ArxivNotions.

(** ** utils/config_loader.py: the webhooks of the channels *)

Module ConfigLoader.

Section FromDict.
(** [os.environ.get]. *)
Variable environ : string → option string.

(** [os.environ.get(name) or channels.get(key, '')], where [channels] is
    the [slack_channels] entry of the file, empty when it is missing. *)
Definition env_or (name : string) (channels : gmap string string)
    (key : string) : string :=
  Py.str_or (environ name) (default "" (channels !! key)).

(** The dictionary [slack_channels] of [Config.from_dict], after the empty
    webhooks have been removed. *)
Definition slack_channels (channels : gmap string string) : gmap string string :=
  let slack_channels : gmap string string :=
    <["launches" := env_or "SLACK_WEBHOOK_LAUNCHES" channels "launches"]>
      (<["announcements" :=
           env_or "SLACK_WEBHOOK_ANNOUNCEMENTS" channels "announcements"]>
         (<["leaderboard" :=
              env_or "SLACK_WEBHOOK_LEADERBOARD" channels "leaderboard"]> ∅)) in
  filter (λ item, item.2 ≠ "") slack_channels.

(** The body of the loop over [notifications.event_routing]. *)
Definition route (slack_channels channel_webhooks : gmap string string)
    (item : string * string) : gmap string string :=
  let '(event_type, channel_name) := item in
  match slack_channels !! channel_name with
  | Some url => <[event_type := url]> channel_webhooks
  | None => channel_webhooks
  end.

(** The dictionary that [Config.from_dict] stores as [slack_channels]. *)
Definition channel_webhooks (channels : gmap string string)
    (event_routing : Py.dict string) : gmap string string :=
  let slack_channels := slack_channels channels in
  fold_left (route slack_channels) event_routing slack_channels.

(** The default webhook. *)
Definition slack_webhook_url (file_url : option string) : string :=
  Py.str_or (environ "SLACK_WEBHOOK_URL") (default "" file_url).
End FromDict.

End ConfigLoader.

(** ** utils/config_loader.py: the boards of the leaderboard watcher *)

Module LeaderboardConfig.

Definition DEFAULT_BOARD_SETTINGS : Py.dict bool :=
  [ ("text-to-image", true); ("image-editing", true);
    ("text-to-video", true); ("image-to-video", true);
    ("text-to-speech", true) ].

(** The [boards] entry of the file: a dictionary from boards to switches,
    a list of boards, or a value of another type. *)
Inductive Boards :=
| BoardsDict (settings : Py.dict bool)
| BoardsList (boards : list string)
| BoardsOther.

(** The [leaderboards] entry of the file; a field is [None] when the key
    is missing. *)
Record Data := {
  enabled : option bool;
  boards : option Boards;
  max_rank : option Z;
}.

(** [{**a, **b}]: the keys of [a] keep their places and take the values
    of [b], the other keys of [b] follow in their order. *)
Definition merge (a b : Py.dict bool) : Py.dict bool :=
  fold_left (λ d item, Py.dict_set d item.1 item.2) b a.

(** [from_dict], with the fields that [_setup_watchers] reads; [data] is
    [None] when the entry is missing or empty. *)
Definition from_dict (data : option Data) : Setup.LeaderboardConfig :=
  match data with
  | None =>
      {| Setup.enabled := true;
         Setup.boards := Py.dict_keys DEFAULT_BOARD_SETTINGS;
         Setup.max_rank := 30 |}
  | Some data =>
      let boards_config :=
        default (BoardsDict DEFAULT_BOARD_SETTINGS) (boards data) in
      let enabled_boards :=
        match boards_config with
        | BoardsDict boards_config =>
            let board_settings := merge DEFAULT_BOARD_SETTINGS boards_config in
            map fst (filter (λ item, item.2 = true) board_settings)
        | BoardsList boards_config => boards_config
        | BoardsOther => Py.dict_keys DEFAULT_BOARD_SETTINGS
        end in
      {| Setup.enabled := default true (enabled data);
         Setup.boards := enabled_boards;
         Setup.max_rank := default 30 (max_rank data) |}
  end.

(** The leaderboard watcher that [_setup_watchers] builds from the
    entry, when the leaderboards are enabled. *)
Definition watcher_of (data : option Data)
    (artificial_analysis_api_key environment_key : option string)
  : Leaderboard.LeaderboardWatcher :=
  let leaderboards := from_dict data in
  Leaderboard.init (Some "AI Image Generation")
    (Some (Setup.boards leaderboards)) (Some (Setup.max_rank leaderboards))
    artificial_analysis_api_key environment_key.

End LeaderboardConfig.

(** ** watchers/leaderboard_watcher.py: the check of a board, with its
    exceptions

    [Leaderboard] follows the differ on the answers whose ELO scores are
    integers that a float holds, on which it runs to its end.  This module
    follows [_check_leaderboard_api] on the other answers too: a score can
    be [null], the difference of two scores can be more than a float
    holds, and what the [try] statement catches is explicit. *)

Module LeaderboardApi.
Import Base.

(** An ELO score as the API gives it: [null] or an integer. *)
Inductive Elo := Null | Score (z : Z).

#[global] Instance Elo_eq_dec : EqDecision Elo.
Proof. solve_decision. Defined.

(** One element of the [data] array; a field is [None] when the key is
    missing. *)
Record Entry := {
  entry_name : option string;
  entry_rank : option Z;
  entry_elo : option Elo;
  entry_id : option string;
  entry_creator : option string;
}.

(** What [requests.get] does: it raises, or it answers with a status code
    and a body.  The body is the [data] array ([[]] when the key is
    missing), or the exception raised before the first event is built: by
    [response.json()] on a body that is not JSON, by [data.get] on a body
    that is not an object, or by the first loop on an array whose
    elements are not entries. *)
Inductive Response :=
| Raises (e : Py.Exception)
| Http (status_code : Z) (body : Py.Exception + list Entry).

Record Info := {
  rank : Z;
  elo : Elo;
  model_id : option string;
  creator : string;
}.

#[global] Instance Info_eq_dec : EqDecision Info.
Proof. solve_decision. Defined.

Record Snapshot := {
  rankings : Py.dict Info;
  models : list string;
  top3 : list string;
  last_checked : string;
  total_models : nat;
}.

#[global] Instance Snapshot_eq_dec : EqDecision Snapshot.
Proof. solve_decision. Defined.

Definition previous_rankings_of (previous_data : option Snapshot) : Py.dict Info :=
  match previous_data with Some s => rankings s | None => [] end.
Definition previous_models_of (previous_data : option Snapshot) : list string :=
  match previous_data with Some s => models s | None => [] end.
Definition previous_top3_of (previous_data : option Snapshot) : list string :=
  match previous_data with Some s => top3 s | None => [] end.

(** A score in an f-string and in the extra data. *)
Definition str (elo : Elo) : string :=
  match elo with Null => "None" | Score z => pretty z end.
Definition value (elo : Elo) : Value :=
  match elo with Null => VNone | Score z => VInt z end.

Definition track (max_rank : Z) (acc : Py.dict Info * list string)
    (model : Entry) : Py.dict Info * list string :=
  let model_name := default "Unknown" (entry_name model) in
  let rank := default 0 (entry_rank model) in
  let elo := default (Score 0) (entry_elo model) in
  if rank >? max_rank then acc
  else (Py.dict_set acc.1 model_name
          {| rank := rank; elo := elo; model_id := entry_id model;
             creator := default "Unknown" (entry_creator model) |},
        acc.2 ++ [model_name]).

Definition build_current (max_rank : Z) (models_data : list Entry)
  : Py.dict Info * list string :=
  fold_left (track max_rank) models_data ([], []).

Definition rank_or_99 (current_rankings : Py.dict Info) (m : string) : Z :=
  match Py.dict_get current_rankings m with Some i => rank i | None => 99 end.

Definition show_opt (f : Info → string) (d : string) (i : option Info) : string :=
  match i with Some i => f i | None => d end.

Definition new_entry_event (now board_name : string)
    (current_rankings : Py.dict Info) (model_name : string) : WatchEvent :=
  let model_info := Py.dict_get current_rankings model_name in
  {| source := "leaderboard";
     event_type := "leaderboard_new_entry";
     model_name := model_name;
     title := "New model on " +:+ board_name +:+ ": " +:+ model_name;
     description :=
       "Rank: #" +:+ show_opt (λ i, pretty (rank i)) "N/A" model_info
       +:+ " | ELO: " +:+ show_opt (λ i, str (elo i)) "N/A" model_info
       +:+ " | Creator: " +:+ show_opt creator "Unknown" model_info;
     url := Leaderboard.board_url board_name;
     timestamp := now;
     extra_data := Some (list_to_map
       [ ("leaderboard", VStr board_name);
         ("rank", from_option (λ i, VInt (rank i)) VNone model_info);
         ("elo", from_option (λ i, value (elo i)) VNone model_info);
         ("creator", from_option (λ i, VStr (creator i)) VNone model_info);
         ("action", VStr "new_entry") ]);
     release_stage := UNKNOWN |}.

(** The body of the loop over [current_rankings.items()]: the events it
    appends, or the exception it raises.  [curr_elo - prev_elo] raises
    [TypeError] unless both are numbers, and [.0f] raises [OverflowError]
    on a difference that no float holds. *)
Definition rank_change_of (now board_name : string)
    (previous_rankings : Py.dict Info) (item : string * Info)
  : Py.Exception + list WatchEvent :=
  match Py.dict_get previous_rankings item.1 with
  | Some prev =>
      if decide (rank item.2 = rank prev) then inr []
      else
        match elo item.2, elo prev with
        | Score curr_elo, Score prev_elo =>
            if Py.float_overflows (curr_elo - prev_elo)
            then inl Py.OverflowError
            else inr [Leaderboard.rank_change_event now board_name item.1
                        (rank prev) (rank item.2) prev_elo curr_elo]
        | _, _ => inl Py.TypeError
        end
  | None => inr []
  end.

(** A loop that appends to [events] until its body raises: the list as
    the loop leaves it, and the exception, if any. *)
Fixpoint appending {A : Type} (body : A → Py.Exception + list WatchEvent)
    (items : list A) (events : list WatchEvent)
  : list WatchEvent * option Py.Exception :=
  match items with
  | [] => (events, None)
  | item :: rest =>
      match body item with
      | inl e => (events, Some e)
      | inr new => appending body rest (events ++ new)
      end
  end.

Definition current_top3_of (current_rankings : Py.dict Info)
    (current_models : list string) : list string :=
  Py.sort_by (rank_or_99 current_rankings)
    (filter (λ m, rank_or_99 current_rankings m ≤ 3) current_models).

Definition top3_change_event (now board_name : string)
    (current_rankings : Py.dict Info)
    (previous_top3 current_top3 : list string) : WatchEvent :=
  let top3_info :=
    String.concat ", "
      (map (λ m, "#" +:+ pretty (rank_or_99 current_rankings m) +:+ " " +:+ m)
         (take 3 current_top3)) in
  {| source := "leaderboard";
     event_type := "leaderboard_top3_change";
     model_name := "Top 3";
     title := "Top 3 changed on " +:+ board_name +:+ " leaderboard";
     description := "New Top 3: " +:+ top3_info;
     url := Leaderboard.board_url board_name;
     timestamp := now;
     extra_data := Some (list_to_map
       [ ("leaderboard", VStr board_name);
         ("previous_top3", VList previous_top3);
         ("current_top3", VList (take 3 current_top3)) ]);
     release_stage := UNKNOWN |}.

Definition top3_change_events (now board_name : string)
    (current_rankings : Py.dict Info)
    (previous_top3 current_top3 : list string) : list WatchEvent :=
  match previous_top3 with
  | [] => []
  | _ => if decide (current_top3 = previous_top3) then []
         else [top3_change_event now board_name current_rankings
                 previous_top3 current_top3]
  end.

(** The statements of the [try] block that follow [if models_data:]: the
    events appended, and the snapshot to save when the block runs to its
    end or the exception that ends it. *)
Definition diff_board (max_rank : Z) (now board_name : string)
    (models_data : list Entry) (state : gmap string Snapshot)
  : list WatchEvent * (Py.Exception + Snapshot) :=
  let state_key := Leaderboard.state_key_of board_name in
  let '(current_rankings, current_models) := build_current max_rank models_data in
  let previous_data := state !! state_key in
  let previous_rankings := previous_rankings_of previous_data in
  let previous_models : gset string := list_to_set (previous_models_of previous_data) in
  let current_models_set : gset string := list_to_set current_models in
  let new_models := current_models_set ∖ previous_models in
  let events :=
    map (new_entry_event now board_name current_rankings) (elements new_models) in
  let '(events, raised) :=
    match previous_rankings with
    | [] => (events, None)
    | _ => appending (rank_change_of now board_name previous_rankings)
             current_rankings events
    end in
  match raised with
  | Some e => (events, inl e)
  | None =>
      let current_top3 := current_top3_of current_rankings current_models in
      let previous_top3 := previous_top3_of previous_data in
      (events ++ top3_change_events now board_name current_rankings
                   previous_top3 current_top3,
       inr {| rankings := current_rankings;
              models := current_models;
              top3 := take 3 current_top3;
              last_checked := now;
              total_models := length current_models |})
  end.

Section Watcher.
Variable self : Leaderboard.LeaderboardWatcher.
Variable fetch : string → Response.
Variable now : string.

(** The [try] block: the events appended, and how the block ends: with
    an exception, with a snapshot to save, or with nothing to save. *)
Definition try_block (board_name endpoint : string)
    (state : gmap string Snapshot)
  : list WatchEvent * (Py.Exception + option Snapshot) :=
  match fetch (Leaderboard.API_BASE +:+ endpoint) with
  | Raises e => ([], inl e)
  | Http status_code body =>
      if decide (status_code = 200) then
        match body with
        | inl e => ([], inl e)
        | inr [] => ([], inr None)
        | inr (model :: rest) =>
            let r := diff_board (Leaderboard.max_rank self) now board_name
                       (model :: rest) state in
            (r.1, match r.2 with
                  | inl e => inl e
                  | inr snapshot => inr (Some snapshot)
                  end)
        end
      else ([], inr None)
  end.

(** [_check_leaderboard_api]: the two handlers print and fall through to
    the [return] that follows the [try] statement. *)
Definition _check_leaderboard_api (board_name endpoint : string)
    (state : gmap string Snapshot)
  : Py.Exception + list WatchEvent * gmap string Snapshot :=
  let '(events, outcome) := try_block board_name endpoint state in
  match outcome with
  | inr (Some snapshot) =>
      inr (events, <[Leaderboard.state_key_of board_name := snapshot]> state)
  | inr None => inr (events, state)
  | inl e =>
      if Py.is_RequestException e then inr (events, state)
      else inr (events, state)
  end.

(** The body of the loop over the boards, and [check_updates]. *)
Definition check_board
    (acc : Py.Exception + list WatchEvent * gmap string Snapshot)
    (board_name : string)
  : Py.Exception + list WatchEvent * gmap string Snapshot :=
  match acc with
  | inl e => inl e
  | inr acc =>
      match Py.dict_get Leaderboard.ENDPOINTS board_name with
      | None => inr acc
      | Some endpoint =>
          match _check_leaderboard_api board_name endpoint acc.2 with
          | inl e => inl e
          | inr r => inr (acc.1 ++ r.1, r.2)
          end
      end
  end.

Definition check_updates (last_check_state : option (gmap string Snapshot))
  : Py.Exception + list WatchEvent * gmap string Snapshot :=
  let new_state := default ∅ last_check_state in
  if decide (Leaderboard.api_key self = "") then inr ([], new_state)
  else fold_left check_board (Leaderboard.leaderboards_to_watch self)
         (inr ([], new_state)).

(** The watcher as the orchestrator sees it. *)
Definition watcher : BaseWatcher.t (gmap string Snapshot) :=
  {| BaseWatcher.source_name := "leaderboard";
     BaseWatcher.model_name := Leaderboard.name self;
     BaseWatcher.check_updates := λ last_check_state,
       match check_updates last_check_state with
       | inr r => Some r
       | inl _ => None
       end |}.
End Watcher.

(** The typed answers among these. *)
Definition of_model (model : Leaderboard.RawModel) : Entry :=
  {| entry_name := Leaderboard.raw_name model;
     entry_rank := Leaderboard.raw_rank model;
     entry_elo := Score <$> Leaderboard.raw_elo model;
     entry_id := Leaderboard.raw_id model;
     entry_creator := Leaderboard.raw_creator model |}.

Definition of_response (r : Leaderboard.Response) : Response :=
  match r with
  | Leaderboard.RequestException => Raises Py.RequestException
  | Leaderboard.Http status_code (Some models_data) =>
      Http status_code (inr (of_model <$> models_data))
  | Leaderboard.Http status_code None => Http status_code (inl Py.ValueError)
  end.

Definition of_info (i : Leaderboard.Info) : Info :=
  {| rank := Leaderboard.rank i; elo := Score (Leaderboard.elo i);
     model_id := Leaderboard.model_id i; creator := Leaderboard.creator i |}.

Definition of_rankings (d : Py.dict Leaderboard.Info) : Py.dict Info :=
  map (λ item, (item.1, of_info item.2)) d.

Definition of_snapshot (s : Leaderboard.Snapshot) : Snapshot :=
  {| rankings := of_rankings (Leaderboard.rankings s);
     models := Leaderboard.models s;
     top3 := Leaderboard.top3 s;
     last_checked := Leaderboard.last_checked s;
     total_models := Leaderboard.total_models s |}.

Definition of_state (state : gmap string Leaderboard.Snapshot)
  : gmap string Snapshot :=
  of_snapshot <$> state.

End LeaderboardApi.

(** ** Notions used to state how failures are handled *)

Module FailureNotions.
Import Base.

(** An answer on which the [try] block leaves before it reads an entry:
    the request raises, the status is not 200, the body cannot be read,
    or the [data] array is empty. *)
Definition unanswered (r : LeaderboardApi.Response) : bool :=
  match r with
  | LeaderboardApi.Http status_code (inr (_ :: _)) =>
      bool_decide (status_code ≠ 200)
  | _ => true
  end.

(** A watched board from which nothing is read: it has no endpoint, or
    its request is not answered. *)
Definition unread (fetch : string → LeaderboardApi.Response)
    (board_name : string) : bool :=
  match Py.dict_get Leaderboard.ENDPOINTS board_name with
  | Some endpoint => unanswered (fetch (Leaderboard.API_BASE +:+ endpoint))
  | None => true
  end.

(** A request of the GitHub watcher that is not answered: it raises
    [RequestException], or the status is not 200. *)
Definition refused {A : Type} (r : GitHubWatcher.Response A) : bool :=
  match r with
  | GitHubWatcher.RequestException => true
  | GitHubWatcher.Http status_code _ => bool_decide (status_code ≠ 200)
  end.

(** The three requests of a call of the GitHub watcher are refused. *)
Definition all_refused (api : GitHubWatcher.Api) (self : GitHubWatcher.t)
  : Prop :=
  refused (GitHubWatcher.get_commits api (GitHubWatcher.commits_url self) 10)
    = true
  ∧ refused (GitHubWatcher.get_releases api (GitHubWatcher.releases_url self) 5)
      = true
  ∧ refused (GitHubWatcher.get_repo api (GitHubWatcher.repo_url self)) = true.

(** A score small enough for the difference of two such scores to be a
    float, and the typed states and answers whose scores are. *)
Definition float_sized (z : Z) : Prop := Z.abs z < 2 ^ 1000.

Definition sized (d : Py.dict Leaderboard.Info) : Prop :=
  Forall (λ item, float_sized (Leaderboard.elo item.2)) d.

Definition sized_state (state : gmap string Leaderboard.Snapshot) : Prop :=
  ∀ key snapshot, state !! key = Some snapshot →
    sized (Leaderboard.rankings snapshot).

Definition sized_answers (fetch : string → Leaderboard.Response) : Prop :=
  ∀ url status_code models_data,
    fetch url = Leaderboard.Http status_code (Some models_data) →
    Forall (λ model, float_sized (default 0 (Leaderboard.raw_elo model)))
      models_data.

End FailureNotions.


(** ** watchers/base.py: an event as it is built

    The dataclass does not check the annotations of its fields.  The
    watchers followed here pass a string for [description], with one
    exception: the GitHub watcher passes the description of a discovered
    repository as the API gives it, and that is [null] for a repository
    that has none.
    [Emitted.t] is an event as a watcher builds it; a [WatchEvent] is an
    event whose description is a string. *)

Module Emitted.
Import Base.

Record t := {
  source : string;
  event_type : string;
  model_name : string;
  title : string;
  description : option string;
  url : string;
  timestamp : string;
  extra_data : option (gmap string Value);
  release_stage : ReleaseStage;
}.

Definition described (event : t) : option WatchEvent :=
  description ← description event;
  Some {| Base.source := source event;
          Base.event_type := event_type event;
          Base.model_name := model_name event;
          Base.title := title event;
          Base.description := description;
          Base.url := url event;
          Base.timestamp := timestamp event;
          Base.extra_data := extra_data event;
          Base.release_stage := release_stage event |}.

Definition of_event (event : WatchEvent) : t :=
  {| source := Base.source event;
     event_type := Base.event_type event;
     model_name := Base.model_name event;
     title := Base.title event;
     description := Some (Base.description event);
     url := Base.url event;
     timestamp := Base.timestamp event;
     extra_data := Base.extra_data event;
     release_stage := Base.release_stage event |}.

End Emitted.

(** ** watchers/github_watcher.py: the discovery of a repository, on the
    answers of the API

    [GitHubWatcher._check_repo_exists] reads the answers in which the
    description is a string or is missing.  The API answers with the key
    present and [null] for a repository without description. *)

Module GitHubApi.
Import Base GitHubWatcher.

(** The [description] of a repository: the key is missing, or it holds
    [null] or a string. *)
Inductive Description := Missing | Null | Text (s : string).

Record Repo := {
  repo_created_at : option string;
  repo_description : Description;
  repo_html_url : option string;
  stargazers_count : option Z;
  forks_count : option Z;
  language : option string;
}.

(** [repo_data.get('description', d)]. *)
Definition get_description (repo_data : Repo) (d : string) : option string :=
  match repo_description repo_data with
  | Missing => Some d
  | Null => None
  | Text s => Some s
  end.

Section Watcher.
Variable lower : string → string.
Variable fromisoformat : string → option string.
(** The upstream of the typed checks, and the answer for a repository. *)
Variable api : Api.
Variable get_repo : string → Response Repo.

(** [_check_repo_exists]; [None] when it raises. *)
Definition _check_repo_exists (self : GitHubWatcher.t) (state : State)
  : option (option Emitted.t * State) :=
  if truthy (state !! "repo_known") then Some (None, state)
  else
    match get_repo (repo_url self) with
    | Http status_code repo_data =>
        if decide (status_code = 200) then
          let state := <["repo_known" := VBool true]> state in
          let state :=
            <["repo_created_at" :=
                from_option VStr VNone (repo_created_at repo_data)]> state in
          let description := get_description repo_data "" in
          let release_stage :=
            match description with
            | Some text => GitHub._detect_release_stage lower text false
            | None => UNKNOWN
            end in
          let has_releases := _has_releases api self in
          let release_stage :=
            if has_releases then LAUNCHED
            else if decide (release_stage = UNKNOWN) then ANNOUNCED
            else release_stage in
          created_at ← repo_created_at repo_data;
          created_at ← fromisoformat (replace_Z created_at);
          let event_type :=
            if decide (release_stage = LAUNCHED) then "release_launched"
            else "release_announced" in
          Some (Some {| Emitted.source := "github";
                        Emitted.event_type := event_type;
                        Emitted.model_name := GitHubWatcher.model_name self;
                        Emitted.title :=
                          "Repository discovered: " +:+ repo_str self;
                        Emitted.description :=
                          get_description repo_data "No description";
                        Emitted.url :=
                          default ("https://github.com/" +:+ repo_str self)
                            (repo_html_url repo_data);
                        Emitted.timestamp := created_at;
                        Emitted.extra_data :=
                          Some {[ "stars" := VInt (default 0 (stargazers_count repo_data));
                                  "forks" := VInt (default 0 (forks_count repo_data));
                                  "language" := from_option VStr VNone
                                                  (language repo_data) ]};
                        Emitted.release_stage := release_stage |},
                state)
        else Some (None, state)
    | RequestException => Some (None, state)
    end.
End Watcher.

(** The answers that [GitHubWatcher] reads. *)
Definition of_repo (repo_data : GitHubWatcher.Repo) : Repo :=
  {| repo_created_at := GitHubWatcher.repo_created_at repo_data;
     repo_description :=
       from_option Text Missing (GitHubWatcher.repo_description repo_data);
     repo_html_url := GitHubWatcher.repo_html_url repo_data;
     stargazers_count := GitHubWatcher.stargazers_count repo_data;
     forks_count := GitHubWatcher.forks_count repo_data;
     language := GitHubWatcher.language repo_data |}.

Definition of_response (r : Response GitHubWatcher.Repo) : Response Repo :=
  match r with
  | RequestException => RequestException
  | Http status_code repo_data => Http status_code (of_repo repo_data)
  end.

Definition of_result (r : option WatchEvent * State)
  : option Emitted.t * State :=
  (Emitted.of_event <$> r.1, r.2).

End GitHubApi.

(** ** notifiers/slack.py and main.py: the sends of a priority event as it
    is built

    [Slack] and [WatcherService] follow the sends of the events whose
    description is a string, for which building the message returns.
    Here the event is one as a watcher builds it. *)

Module Sends.
Import Base.

Definition get_webhook_for_event (self : Slack.SlackNotifier) (event : Emitted.t)
  : string :=
  match (if decide (Emitted.source event = "leaderboard")
         then Slack.channel_webhooks self !! "leaderboard" else None) with
  | Some u => u
  | None =>
      match Slack.channel_webhooks self !! Emitted.event_type event with
      | Some u => u
      | None => default (Slack.webhook_url self)
                  (Slack.channel_webhooks self !! Emitted.source event)
      end
  end.

(** [_build_message]: the section block reads [event.description[:500]],
    which raises [TypeError] when the description is [None]. *)
Definition _build_message (self : Slack.SlackNotifier) (w : Slack.World)
    (event : Emitted.t) : Py.Exception + Slack.Message :=
  match Emitted.described event with
  | Some event => inr (Slack._build_message self w event)
  | None => inl Py.TypeError
  end.

(** The state of the service when a statement of [run_once] returns, or
    when an exception leaves it. *)
Inductive Outcome :=
| Returns (r : WatcherService.Run)
| Raises (e : Py.Exception) (r : WatcherService.Run).

Section Router.
Variable lower : string → string.
Variable config : Config.t.
Variable post : string → Slack.Message → option Z.

Definition send_event (self : Slack.SlackNotifier) (event : Emitted.t)
    (webhook_url' : option string) (w : Slack.World)
  : Py.Exception + bool * Slack.World :=
  let url := Py.str_or webhook_url' (get_webhook_for_event self event) in
  match _build_message self w event with
  | inl e => inl e
  | inr message => inr (Slack._send_webhook post self message (Some url) w)
  end.

(** The body of the loop over [priority_events], lines 207 to 225 of
    [main.py]: no statement of it catches what [send_event] raises. *)
Definition send_priority (r : WatcherService.Run) (event : Emitted.t)
  : Outcome :=
  let priority_config :=
    Config.get_priority_config lower config (Emitted.model_name event) in
  let self := WatcherService.notifier r in
  if from_option PriorityModelConfig.mention_channel false priority_config then
    let '(original_mention_list, w1) :=
      WatcherService.copy_list (WatcherService.world r)
        (Slack.mention_channel_for self) in
    let w2 :=
      if bool_decide (Emitted.event_type event
                        ∈ Slack.deref w1 (Slack.mention_channel_for self))
      then w1
      else WatcherService.append_list w1 (Slack.mention_channel_for self)
             (Emitted.event_type event) in
    match send_event self event None w2 with
    | inl e =>
        Raises e {| WatcherService.notifier := self;
                    WatcherService.world := w2;
                    WatcherService.sent := WatcherService.sent r |}
    | inr s =>
        Returns
          {| WatcherService.notifier :=
               WatcherService.set_mention_channel_for self original_mention_list;
             WatcherService.world := s.2;
             WatcherService.sent :=
               WatcherService.count s.1 (WatcherService.sent r) |}
    end
  else
    match send_event self event None (WatcherService.world r) with
    | inl e => Raises e r
    | inr s =>
        Returns {| WatcherService.notifier := self;
                   WatcherService.world := s.2;
                   WatcherService.sent :=
                     WatcherService.count s.1 (WatcherService.sent r) |}
    end.

(** The loop over [priority_events]: an exception ends it. *)
Fixpoint send_priority_events (r : WatcherService.Run) (events : list Emitted.t)
  : Outcome :=
  match events with
  | [] => Returns r
  | event :: rest =>
      match send_priority r event with
      | Returns r => send_priority_events r rest
      | Raises e r => Raises e r
      end
  end.

Definition mark_priority (priority_names : gset string) (event : Emitted.t)
  : Emitted.t :=
  if bool_decide (lower (Emitted.model_name event) ∈ priority_names) then
    {| Emitted.source := Emitted.source event;
       Emitted.event_type := Emitted.event_type event;
       Emitted.model_name := Emitted.model_name event;
       Emitted.title := Emitted.title event;
       Emitted.description := Emitted.description event;
       Emitted.url := Emitted.url event;
       Emitted.timestamp := Emitted.timestamp event;
       Emitted.extra_data :=
         Some (<["priority_model" := VBool true]>
                 (<["is_priority" := VBool true]>
                    (default ∅ (Emitted.extra_data event))));
       Emitted.release_stage := Emitted.release_stage event |}
  else event.

(** [run_once] from line 190 to line 225, on the events that [check_all]
    returned: they are marked, and the priority events among them are
    sent first.  The sends of the other buckets follow when this part
    returns. *)
Definition send_priority_part (events : list Emitted.t)
    (r : WatcherService.Run) : Outcome :=
  let events :=
    map (mark_priority (Config.get_priority_model_names lower config)) events in
  let priority_events :=
    filter (λ e, Config.is_priority_model lower config (Emitted.model_name e)
                 = true) events in
  send_priority_events r priority_events.
End Router.

(** The priority configuration of the model of an event asks for a mention
    of the channel. *)
Definition mentions_emitted (lower : string → string) (config : Config.t)
    (event : Emitted.t) : bool :=
  from_option PriorityModelConfig.mention_channel false
    (Config.get_priority_config lower config (Emitted.model_name event)).

End Sends.

(** ** Notions used to state what the router is given *)

Module RouterNotions.
Import Base WatcherService.

(** A watcher that gives no release stage to an event of the leaderboard:
    whatever its call returns, no event has the source ["leaderboard"]
    together with the stage ANNOUNCED or LAUNCHED. *)
Definition unstaged {State : Type} (watcher : BaseWatcher.t State) : Prop :=
  ∀ last_state events new_state,
    BaseWatcher.check_updates watcher last_state = Some (events, new_state) →
    Forall (λ e, ¬ Spec.staged_leaderboard_event e) events.

(** The buckets that hold an event. *)
Definition holders (b : Buckets) (e : WatchEvent) : list (list WatchEvent) :=
  filter (λ bucket, e ∈ bucket)
    [ priority_events b; announcements b; launches b; leaderboard_events b;
      other_events b ].

End RouterNotions.

(** ** Further inputs used in the examples *)

Module Samples.
Import Base Leaderboard.

(** Three cycles of a watcher of two boards: both boards answer, then the
    first one is down, then both answer a tie for the third place. *)
Definition three_cycles : list ((string → Response) * string) :=
  [ (Examples.always Examples.before_climb, "2024-01-01T00:00:00");
    (Examples.first_board_down, "2024-01-01T01:00:00");
    (Examples.always Examples.tie_for_third, "2024-01-01T02:00:00") ].



Definition model (name : string) (github arxiv_query : option string)
  : ModelConfig.t :=
  {| ModelConfig.name := name; ModelConfig.github := github;
     ModelConfig.huggingface := None; ModelConfig.modelscope := None;
     ModelConfig.arxiv_query := arxiv_query; ModelConfig.news_keywords := None;
     ModelConfig.priority := "normal"; ModelConfig.always_notify := [] |}.

(** A configuration of two models, the second without a repository. *)
Definition two_models : Config.t :=
  {| Config.models := [ model "Flux" (Some "black-forest-labs/flux") (Some "FLUX");
                        model "Z-Image" (Some "") (Some "Z-Image") ];
     Config.priority_models := [Examples.z_image];
     Config.mention_channel_for := 1%positive;
     Config.include_icons := true;
     Config.include_timestamp := true;
     Config.slack_webhook_url := "https://hooks.slack.com/services/T/B/main";
     Config.slack_channels := ∅ |}.

Definition all_boards : Setup.LeaderboardConfig :=
  {| Setup.enabled := true; Setup.boards := ["text-to-image"];
     Setup.max_rank := 30 |}.

(** A watcher of a repository, and an upstream with three commits and
    three releases. *)
Definition flux : GitHubWatcher.t :=
  {| GitHubWatcher.model_name := "Flux";
     GitHubWatcher.repo := Some "black-forest-labs/flux" |}.

Definition commit (sha message : string) : GitHubWatcher.Commit :=
  {| GitHubWatcher.sha := sha;
     GitHubWatcher.commit_html_url := None;
     GitHubWatcher.message := Some message;
     GitHubWatcher.author_name := Some "dev";
     GitHubWatcher.author_date := Some "2024-01-02T03:04:05Z" |}.

Definition release (id : Z) (tag : string) (prerelease : bool)
    (assets : list string) : GitHubWatcher.Release :=
  {| GitHubWatcher.id := id;
     GitHubWatcher.published_at := Some "2024-01-02T03:04:05Z";
     GitHubWatcher.created_at := None;
     GitHubWatcher.prerelease := Some prerelease;
     GitHubWatcher.name := None;
     GitHubWatcher.body := Some "stable, weights released";
     GitHubWatcher.assets := Some assets;
     GitHubWatcher.tag_name := Some tag;
     GitHubWatcher.release_html_url := None |}.

Definition commits : list GitHubWatcher.Commit :=
  [ commit "ccc3333cc" "Add weights"; commit "bbb2222bb" "Fix typo";
    commit "aaa1111aa" "Initial commit" ].

Definition github : GitHubWatcher.Api :=
  {| GitHubWatcher.get_commits := λ _ _, GitHubWatcher.Http 200 commits;
     GitHubWatcher.get_releases := λ _ per_page,
       GitHubWatcher.Http 200
         (take (Z.to_nat per_page)
            [ release 12 "v1.1-rc1" true ["weights.bin"];
              release 11 "v1.0" false ["weights.bin"];
              release 10 "v0.9" false [] ]);
     GitHubWatcher.get_repo := λ _,
       GitHubWatcher.Http 200
         {| GitHubWatcher.repo_created_at := Some "2023-12-01T00:00:00Z";
            GitHubWatcher.repo_description := None;
            GitHubWatcher.repo_html_url := None;
            GitHubWatcher.stargazers_count := Some 7;
            GitHubWatcher.forks_count := None;
            GitHubWatcher.language := Some "Python" |} |}.

(** A reader of dates that refuses the empty string. *)
Definition isoformat (s : string) : option string :=
  if decide (s = "") then None else Some s.

(** The state of a watcher that has seen the oldest commit and the oldest
    release. *)
Definition seen : gmap string Value :=
  {[ "last_commit_sha" := VStr "aaa1111aa"; "last_release_id" := VInt 10 ]}.

(** A watcher of arXiv, and an upstream whose page lists a paper twice. *)
Definition flux_papers : ArxivWatcher.t :=
  {| ArxivWatcher.model_name := "Flux";
     ArxivWatcher.search_query := Some "FLUX" |}.

Definition paper (id title : string) : ArxivWatcher.Paper :=
  {| ArxivWatcher.id := id;
     ArxivWatcher.arxiv_id := "2401." +:+ id;
     ArxivWatcher.title := title;
     ArxivWatcher.summary := "We study " +:+ title;
     ArxivWatcher.published := "2024-01-02T03:04:05+00:00";
     ArxivWatcher.authors := ["A. Author"];
     ArxivWatcher.categories := ["cs.CV"];
     ArxivWatcher.url := "https://arxiv.org/abs/2401." +:+ id |}.

Definition page : list ArxivWatcher.Paper :=
  [ paper "00003" "Flow matching"; paper "00002" "Rectified flows";
    paper "00003" "Flow matching"; paper "00001" "Diffusion" ].

Definition arxiv (url query : string) : ArxivWatcher.Response :=
  ArxivWatcher.Http 200 (Some page).

(** The state of a watcher that has seen the oldest paper. *)
Definition read : gmap string (list string) :=
  {[ "seen_paper_ids" := ["00001"] ]}.

(** An environment that gives the webhook of the launches, a file that
    gives the one of the leaderboard and an empty one for the
    announcements, and two routed event types. *)
Definition environ (name : string) : option string :=
  if decide (name = "SLACK_WEBHOOK_LAUNCHES")
  then Some "https://hooks.slack.com/services/T/B/launches" else None.

Definition file_channels : gmap string string :=
  {[ "leaderboard" := "https://hooks.slack.com/services/T/B/board";
     "announcements" := "" ]}.

Definition event_routing : Py.dict string :=
  [ ("new_release", "launches"); ("new_paper", "announcements") ].


(** A [leaderboards] entry that switches one board off and names a board
    of its own. *)
Definition switches : LeaderboardConfig.Data :=
  {| LeaderboardConfig.enabled := None;
     LeaderboardConfig.boards :=
       Some (LeaderboardConfig.BoardsDict
               [("text-to-image", false); ("text-to-3d", true)]);
     LeaderboardConfig.max_rank := Some 10 |}.

(** A board on which model M has climbed and has no score, and model N is
    new. *)
Definition scored (name : string) (rank : Z) (elo : LeaderboardApi.Elo)
  : LeaderboardApi.Entry :=
  {| LeaderboardApi.entry_name := Some name;
     LeaderboardApi.entry_rank := Some rank;
     LeaderboardApi.entry_elo := Some elo;
     LeaderboardApi.entry_id := None;
     LeaderboardApi.entry_creator := Some "lab" |}.

Definition unscored_climb : list LeaderboardApi.Entry :=
  [ scored "A" 1 (LeaderboardApi.Score 1200);
    scored "M" 2 LeaderboardApi.Null;
    scored "B" 3 (LeaderboardApi.Score 1100);
    scored "C" 4 (LeaderboardApi.Score 1050);
    scored "N" 6 (LeaderboardApi.Score 900) ].

(** An upstream whose newest release has no date. *)
Definition undated : GitHubWatcher.Api :=
  {| GitHubWatcher.get_commits := GitHubWatcher.get_commits github;
     GitHubWatcher.get_releases := λ _ _,
       GitHubWatcher.Http 200
         [ {| GitHubWatcher.id := 11;
              GitHubWatcher.published_at := None;
              GitHubWatcher.created_at := None;
              GitHubWatcher.prerelease := Some false;
              GitHubWatcher.name := Some "v1.0";
              GitHubWatcher.body := None;
              GitHubWatcher.assets := None;
              GitHubWatcher.tag_name := Some "v1.0";
              GitHubWatcher.release_html_url := None |} ];
     GitHubWatcher.get_repo := GitHubWatcher.get_repo github |}.

(** The watcher of the priority model, and the answer of the API for its
    repository, which has no description. *)
Definition z_image_repo : GitHubWatcher.t :=
  {| GitHubWatcher.model_name := "Z-Image";
     GitHubWatcher.repo := Some "Tongyi-MAI/Z-Image" |}.

Definition undescribed : GitHubApi.Repo :=
  {| GitHubApi.repo_created_at := Some "2023-12-01T00:00:00Z";
     GitHubApi.repo_description := GitHubApi.Null;
     GitHubApi.repo_html_url := Some "https://github.com/Tongyi-MAI/Z-Image";
     GitHubApi.stargazers_count := Some 7;
     GitHubApi.forks_count := Some 0;
     GitHubApi.language := Some "Python" |}.

(** The event of its discovery. *)
Definition discovery : Emitted.t :=
  {| Emitted.source := "github";
     Emitted.event_type := "release_launched";
     Emitted.model_name := "Z-Image";
     Emitted.title := "Repository discovered: Tongyi-MAI/Z-Image";
     Emitted.description := None;
     Emitted.url := "https://github.com/Tongyi-MAI/Z-Image";
     Emitted.timestamp := "2023-12-01T00:00:00+00:00";
     Emitted.extra_data := Some {[ "stars" := VInt 7; "forks" := VInt 0;
                                   "language" := VStr "Python" ]};
     Emitted.release_stage := LAUNCHED |}.

(** The events of a cycle: one of a priority model, one of the
    leaderboard, an announcement and a plain commit. *)
Definition cycle_events : list WatchEvent :=
  [ Examples.z_commit;
    Examples.event "leaderboard" "leaderboard_top3_change" "Top 3" UNKNOWN;
    Examples.event "github" "release_announced" "Flux" ANNOUNCED;
    Examples.event "github" "new_commit" "Flux" UNKNOWN ].

(** A webhook that accepts every request. *)
Definition accept (url : string) (message : Slack.Message) : option Z := Some 200.

Definition cycle_buckets : WatcherService.Buckets :=
  WatcherService.partition_events Py.ascii_lower Examples.config
    (WatcherService._mark_priority_events Py.ascii_lower Examples.config
       cycle_events).

End Samples.

(** * Properties *)

(** ** Dictionaries and sorting *)

Module PyFacts.
Import Py.



(** Beyond 2^53 the float is the nearest one, a tie going to the even
    significand. *)
Example float_of_int_rounds :
  Py.float_of_int 9007199254740993 = 9007199254740992
  ∧ Py.float_of_int 9007199254740995 = 9007199254740996
  ∧ Py.float_of_int (- 9007199254740993) = - 9007199254740992
  ∧ Py.format_0f 1050 = "1050"
  ∧ Py.format_0f (- 7) = "-7".
Proof. by vm_compute. Qed.

Section Dict.
Context {V : Type}.
Implicit Types (d : dict V) (k : string) (v : V).

Lemma dict_get_set_eq d k v : dict_get (dict_set d k v) k = Some v.
Proof.
  induction d as [|[k' v'] d IH]; simpl.
  - by rewrite decide_True.
  - destruct (decide (k' = k)) as [->|Hne]; simpl.
    + by rewrite decide_True.
    + by rewrite decide_False.
Qed.

Lemma dict_get_set_ne d k k' v :
  k ≠ k' → dict_get (dict_set d k v) k' = dict_get d k'.
Proof.
  intros Hne. induction d as [|[k0 v0] d IH]; simpl.
  - by rewrite decide_False.
  - destruct (decide (k0 = k)) as [->|Hne0]; simpl.
    + by rewrite !decide_False.
    + by rewrite IH.
Qed.

Lemma dict_keys_set d k v :
  dict_keys (dict_set d k v) = dict_keys d
  ∨ ((k ∉ dict_keys d) ∧ dict_keys (dict_set d k v) = dict_keys d ++ [k]).
Proof.
  unfold dict_keys. induction d as [|[k' v'] d IH]; simpl.
  - right. split; [apply not_elem_of_nil | done].
  - destruct (decide (k' = k)) as [->|Hne]; simpl; [by left|].
    destruct IH as [->|[Hk ->]]; [by left|right].
    split; [|done]. rewrite not_elem_of_cons. by split.
Qed.

Lemma dict_keys_set_NoDup d k v :
  NoDup (dict_keys d) → NoDup (dict_keys (dict_set d k v)).
Proof.
  intros Hd. destruct (dict_keys_set d k v) as [->|[Hk ->]]; [done|].
  apply NoDup_app. split_and!; [done| |apply NoDup_singleton].
  intros x Hx ->%list_elem_of_singleton. done.
Qed.

Lemma dict_get_Some_elem d k v : dict_get d k = Some v → (k, v) ∈ d.
Proof.
  induction d as [|[k' v'] d IH]; simpl; [done|].
  destruct (decide (k' = k)) as [->|Hne].
  - intros [= ->]. apply list_elem_of_here.
  - intros H. apply list_elem_of_further. by apply IH.
Qed.

Lemma dict_get_None_keys d k : dict_get d k = None ↔ k ∉ dict_keys d.
Proof.
  unfold dict_keys. induction d as [|[k' v'] d IH]; simpl.
  - split; [intros _; apply not_elem_of_nil | done].
  - rewrite not_elem_of_cons. destruct (decide (k' = k)) as [->|Hne].
    + split; [done | by intros [? _]].
    + rewrite IH. split; [by intros ?; split | by intros [_ ?]].
Qed.

Lemma dict_get_is_Some_keys d k : is_Some (dict_get d k) ↔ k ∈ dict_keys d.
Proof.
  rewrite <- not_eq_None_Some, dict_get_None_keys.
  split; [apply dec_stable | by intros ? ?].
Qed.

(** With distinct keys, a key's item is the one [dict_get] returns. *)
Lemma dict_elem_get d k v :
  NoDup (dict_keys d) → (k, v) ∈ d → dict_get d k = Some v.
Proof.
  unfold dict_keys. induction d as [|[k' v'] d IH]; simpl.
  - by intros _ ?%elem_of_nil.
  - intros [Hk' Hd]%NoDup_cons [[= -> ->]|Hin]%elem_of_cons.
    + by rewrite decide_True.
    + rewrite decide_False; [by apply IH|].
      intros ->. apply Hk'. apply list_elem_of_fmap. by exists (k, v).
Qed.
End Dict.

Section Sort.
Context {A : Type} (key : A → Z).

Lemma insert_by_Permutation x l : insert_by key x l ≡ₚ x :: l.
Proof.
  induction l as [|y l IH]; simpl; [done|].
  destruct (key x <=? key y); [done|].
  rewrite IH. apply Permutation_swap.
Qed.

Lemma sort_by_Permutation l : sort_by key l ≡ₚ l.
Proof.
  induction l as [|x l IH]; simpl; [done|].
  by rewrite insert_by_Permutation, IH.
Qed.

Lemma sort_by_length l : length (sort_by key l) = length l.
Proof. by rewrite sort_by_Permutation. Qed.

Lemma elem_of_sort_by x l : x ∈ sort_by key l ↔ x ∈ l.
Proof. by rewrite sort_by_Permutation. Qed.



(** Sorting leaves a sorted list as it is: the sort is stable. *)
Lemma sort_by_id l : StronglySorted (key_le key) l → sort_by key l = l.
Proof.
  induction 1 as [|x l Hl IH Hx]; simpl; [done|].
  rewrite IH. destruct Hx as [|y l Hxy _]; simpl; [done|].
  unfold key_le in Hxy. by destruct (Z.leb_spec (key x) (key y)); [|lia].
Qed.
End Sort.

Lemma filter_none {A} (P : A → Prop) `{!∀ x, Decision (P x)} (l : list A) :
  Forall (λ x, ¬ P x) l → filter P l = [].
Proof.
  induction 1 as [|x l Hx _ IH]; [done|]. by rewrite filter_cons, decide_False.
Qed.

Lemma concat_map_nil {A B} (f : A → list B) (l : list A) :
  Forall (λ x, f x = []) l → concat (map f l) = [].
Proof. induction 1 as [|x l Hx _ IH]; [done|]. simpl. by rewrite Hx. Qed.

End PyFacts.

(** ** The release-stage classifier *)

Module GitHubFacts.
Import Base GitHub.

(** C2, as the code has it.  Called with the prerelease flag on a text
    that is not empty, the classifier answers ANNOUNCED whatever the text
    says and however it is lowered; on the empty text it answers
    UNKNOWN. *)
Theorem prerelease_is_announced (lower : string → string) (text : string) :
  text ≠ "" →
  _detect_release_stage lower text true = ANNOUNCED
  ∧ _detect_release_stage lower "" true = UNKNOWN.
Proof.
  intros Htext. unfold _detect_release_stage. by rewrite decide_False.
Qed.

Lemma prerelease_is_announced_witness :
  _detect_release_stage Py.ascii_lower "v1.0 stable, weights released" true
  = ANNOUNCED.
Proof. apply (prerelease_is_announced Py.ascii_lower). discriminate. Defined.

(** C2 fails on the empty text: the test for an empty text comes before
    the test of the flag and answers UNKNOWN. *)
Lemma prerelease_of_empty_text_is_unknown :
  _detect_release_stage Py.ascii_lower "" true = UNKNOWN
  ∧ _detect_release_stage Py.ascii_lower "" true ≠ ANNOUNCED.
Proof. split; [reflexivity | discriminate]. Qed.

(** Without the flag the text decides. *)
Example announcement_keyword_wins :
  _detect_release_stage Py.ascii_lower "Coming SOON: weights released" false
  = ANNOUNCED.
Proof. reflexivity. Qed.

Example launch_keyword :
  _detect_release_stage Py.ascii_lower "Now Available Now on the hub" false
  = LAUNCHED.
Proof. reflexivity. Qed.

Example no_keyword :
  _detect_release_stage Py.ascii_lower "Fix typo" false = UNKNOWN.
Proof. reflexivity. Qed.

End GitHubFacts.

(** ** The leaderboard differ *)

Module LeaderboardFacts.
Import Base Py PyFacts Leaderboard Spec.

Lemma track_inv max_rank acc model :
  tracking_inv max_rank acc → tracking_inv max_rank (track max_rank acc model).
Proof.
  intros (Hnd & Hkeys & Hrank). unfold track.
  destruct (Z.gtb_spec (default 0 (raw_rank model)) max_rank) as [Hgt|Hle];
    [done|].
  set (n := default "Unknown" (raw_name model)).
  set (i := {| rank := _ |}).
  split_and!; simpl.
  - by apply dict_keys_set_NoDup.
  - intros m. rewrite elem_of_app, list_elem_of_singleton, <- Hkeys.
    rewrite <- !dict_get_is_Some_keys.
    destruct (decide (n = m)) as [->|Hne].
    + rewrite dict_get_set_eq. split; [by right | by eexists].
    + rewrite dict_get_set_ne by done.
      split; [by left | by intros [?|?]; [|congruence]].
  - intros m i'. destruct (decide (n = m)) as [->|Hne].
    + rewrite dict_get_set_eq. intros [= <-]. simpl. lia.
    + rewrite dict_get_set_ne by done. apply Hrank.
Qed.

Lemma track_models max_rank acc model :
  (track max_rank acc model).2
  = acc.2 ++ tracked max_rank [model].
Proof.
  unfold track, tracked, rank_of, name_of.
  rewrite filter_cons, filter_nil.
  destruct (Z.gtb_spec (default 0 (raw_rank model)) max_rank) as [Hgt|Hle].
  - rewrite decide_False by lia. simpl. by rewrite app_nil_r.
  - by rewrite decide_True by lia.
Qed.

Lemma fold_track_inv max_rank data acc :
  tracking_inv max_rank acc →
  tracking_inv max_rank (fold_left (track max_rank) data acc).
Proof.
  revert acc. induction data as [|model data IH]; intros acc Hacc; simpl;
    [done|]. by apply IH, track_inv.
Qed.

Lemma fold_track_models max_rank data acc :
  (fold_left (track max_rank) data acc).2 = acc.2 ++ tracked max_rank data.
Proof.
  revert acc. induction data as [|model data IH]; intros acc; simpl.
  - by rewrite app_nil_r.
  - rewrite IH, track_models. unfold tracked.
    rewrite <- app_assoc, <- fmap_app. f_equal.
    by rewrite <- filter_app.
Qed.

Lemma build_current_inv max_rank data :
  tracking_inv max_rank (build_current max_rank data).
Proof.
  apply fold_track_inv. split_and!; simpl; [constructor|done|done].
Qed.

Lemma build_current_models max_rank data :
  (build_current max_rank data).2 = tracked max_rank data.
Proof. unfold build_current. by rewrite fold_track_models. Qed.

Lemma build_current_get_None max_rank data m :
  m ∉ tracked max_rank data → dict_get (build_current max_rank data).1 m = None.
Proof.
  intros Hm. apply dict_get_None_keys.
  destruct (build_current_inv max_rank data) as (_ & Hkeys & _).
  by rewrite Hkeys, build_current_models.
Qed.


(** [current_top3] holds tracked models of rank at most 3, in ascending
    order of rank. *)
Lemma elem_of_current_top3 rk ms m :
  m ∈ current_top3_of rk ms ↔ rank_or_99 rk m ≤ 3 ∧ m ∈ ms.
Proof. unfold current_top3_of. by rewrite elem_of_sort_by, list_elem_of_filter. Qed.


Lemma elem_of_take_elem {A} (x : A) n l : x ∈ take n l → x ∈ l.
Proof.
  rewrite elem_of_take. intros (i & Hi & _). by eapply list_elem_of_lookup_2.
Qed.


Lemma diff_board_unfold max_rank now board_name data state :
  diff_board max_rank now board_name data state
  = let cur := build_current max_rank data in
    let previous_data := state !! state_key_of board_name in
    let current_top3 := current_top3_of cur.1 cur.2 in
    (map (new_entry_event now board_name cur.1)
       (elements ((list_to_set cur.2 : gset string)
                  ∖ list_to_set (previous_models_of previous_data)))
     ++ rank_change_events now board_name (previous_rankings_of previous_data) cur.1
     ++ top3_change_events now board_name cur.1
          (previous_top3_of previous_data) current_top3,
     <[state_key_of board_name :=
         {| rankings := cur.1; models := cur.2; top3 := take 3 current_top3;
            last_checked := now; total_models := length cur.2 |}]> state).
Proof. unfold diff_board. by destruct (build_current max_rank data). Qed.

Lemma diff_board_snapshot max_rank now board_name data state :
  (diff_board max_rank now board_name data state).2 !! state_key_of board_name
  = Some {| rankings := (build_current max_rank data).1;
            models := (build_current max_rank data).2;
            top3 := take 3 (current_top3_of (build_current max_rank data).1
                              (build_current max_rank data).2);
            last_checked := now;
            total_models := length (build_current max_rank data).2 |}.
Proof. rewrite diff_board_unfold. simpl. apply lookup_insert_eq. Qed.

Lemma check_api_answered self fetch now board_name endpoint state data :
  fetch (API_BASE +:+ endpoint) = Http 200 (Some data) →
  data ≠ [] →
  _check_leaderboard_api self fetch now board_name endpoint state
  = diff_board (max_rank self) now board_name data state.
Proof.
  intros Hfetch Hdata. unfold _check_leaderboard_api.
  rewrite Hfetch, decide_True by done. by destruct data.
Qed.

Lemma check_api_failed self fetch now board_name endpoint state :
  failed (fetch (API_BASE +:+ endpoint)) = true →
  _check_leaderboard_api self fetch now board_name endpoint state = ([], state).
Proof.
  unfold _check_leaderboard_api, failed.
  destruct (fetch _) as [|code [[|model rest]|]]; try done;
    try (by case_decide).
  intros Hcode%bool_decide_eq_true. by rewrite decide_False.
Qed.









(** The events of the differ, by kind. *)
Lemma elem_of_diff_board_events max_rank now board_name data state e :
  e ∈ (diff_board max_rank now board_name data state).1 →
  let cur := build_current max_rank data in
  let previous_data := state !! state_key_of board_name in
  (∃ m, m ∈ cur.2 ∧ (m ∉ previous_models_of previous_data)
        ∧ e = new_entry_event now board_name cur.1 m)
  ∨ (∃ m prev i, dict_get (previous_rankings_of previous_data) m = Some prev
        ∧ dict_get cur.1 m = Some i ∧ rank i ≠ rank prev
        ∧ e = rank_change_event now board_name m (rank prev) (rank i)
                (elo prev) (elo i))
  ∨ (previous_top3_of previous_data ≠ []
     ∧ current_top3_of cur.1 cur.2 ≠ previous_top3_of previous_data
     ∧ e = top3_change_event now board_name cur.1
             (previous_top3_of previous_data) (current_top3_of cur.1 cur.2)).
Proof.
  rewrite diff_board_unfold. simpl. rewrite !elem_of_app.
  intros [Hnew|[Hrc|Htop]].
  - left. apply list_elem_of_fmap in Hnew as (m & -> & Hm).
    apply elem_of_elements, elem_of_difference in Hm as [Hcur Hprev].
    rewrite elem_of_list_to_set in Hcur, Hprev. by exists m.
  - right; left. unfold rank_change_events in Hrc.
    destruct (previous_rankings_of _) eqn:Hprevs; [by apply elem_of_nil in Hrc|].
    rewrite <- Hprevs in *.
    apply list_elem_of_In, in_concat in Hrc as (evs & Hevs & He).
    apply in_map_iff in Hevs as ([m i] & <- & Hitem).
    unfold rank_change_of in He. simpl in He.
    destruct (dict_get _ m) as [prev|] eqn:Hprev; [|done].
    case_decide; [done|]. destruct He as [<-|[]].
    exists m, prev, i. split_and!; [done| |done..].
    apply dict_elem_get; [apply build_current_inv | by apply list_elem_of_In].
  - right; right. unfold top3_change_events in Htop.
    destruct (previous_top3_of _) eqn:Hprev; [by apply elem_of_nil in Htop|].
    rewrite <- Hprev in *. case_decide; [by apply elem_of_nil in Htop|].
    apply list_elem_of_singleton in Htop. split_and!; [|done..].
    by rewrite Hprev.
Qed.




(** ** The comparison of the top three *)

(** C6 at a tie for the third place.  The previous snapshot was built from
    the same four entries, so its [top3] and the new one are both
    [A; B; C]; the differ still emits a [leaderboard_top3_change] event,
    which carries that sequence twice: the comparison is made with the
    four-element list of the models of rank at most 3. *)
Theorem top3_change_reported_without_change :
  let state := Examples.snapshot_of Examples.tie_for_third "text-to-image" in
  let r := diff_board 30 "2024-01-02T00:00:00" "text-to-image"
             Examples.tie_for_third state in
  top3 <$> state !! state_key_of "text-to-image" = Some ["A"; "B"; "C"]
  ∧ top3 <$> r.2 !! state_key_of "text-to-image" = Some ["A"; "B"; "C"]
  ∧ ∃ e, top3_changes r.1 = [e]
         ∧ extra e "previous_top3" = Some (VList ["A"; "B"; "C"])
         ∧ extra e "current_top3" = Some (VList ["A"; "B"; "C"]).
Proof.
  split_and!; [by vm_compute..|].
  eexists. split_and!; [by vm_compute| |]; by vm_compute.
Qed.

(** C9 at the same tie.  The watcher is run on an absent state and then
    again on the state it returned, the upstream answering the same array
    both times: the second run reports a top-3 change. *)
Theorem second_check_reports_again :
  let first := check_updates Examples.one_board
                 (Examples.always Examples.tie_for_third)
                 "2024-01-01T00:00:00" None in
  let second := check_updates Examples.one_board
                  (Examples.always Examples.tie_for_third)
                  "2024-01-01T01:00:00" (Some first.2) in
  map event_type second.1 = ["leaderboard_top3_change"] ∧ second.1 ≠ [].
Proof. split; [by vm_compute|]. vm_compute. discriminate. Qed.



(** Under the same condition the differ has nothing to report on a state
    that holds the snapshot of the array it is given. *)
Lemma diff_board_settled max_rank now board_name data state snap :
  let cur := build_current max_rank data in
  state !! state_key_of board_name = Some snap →
  rankings snap = cur.1 →
  models snap = cur.2 →
  top3 snap = take 3 (current_top3_of cur.1 cur.2) →
  at_most_three max_rank data →
  (diff_board max_rank now board_name data state).1 = [].
Proof.
  intros cur Hstate Hrankings Hmodels Htop3 Hlen. unfold at_most_three in Hlen.
  rewrite diff_board_unfold. simpl. rewrite Hstate. simpl. fold cur in Hlen |- *.
  rewrite Hrankings, Hmodels, Htop3.
  rewrite difference_diag_L, elements_empty. simpl.
  rewrite take_ge by done.
  assert (rank_change_events now board_name cur.1 cur.1 = []) as ->.
  { unfold rank_change_events. destruct cur.1 as [|p ps] eqn:Hcur; [done|].
    rewrite <- Hcur. clear Hcur. apply concat_map_nil.
    apply Forall_forall. intros [k v] Hkv. unfold rank_change_of. simpl.
    rewrite (dict_elem_get cur.1 k v); [by rewrite decide_True| |done].
    apply build_current_inv. }
  unfold top3_change_events.
  destruct (current_top3_of cur.1 cur.2); [done|]. by rewrite decide_True.
Qed.

Lemma diff_board_idempotent_at_most_three max_rank now now' board_name data state :
  at_most_three max_rank data →
  (diff_board max_rank now' board_name data
     (diff_board max_rank now board_name data state).2).1 = [].
Proof.
  intros Hlen. eapply diff_board_settled; [apply diff_board_snapshot|done..].
Qed.

(** ** Failed fetches *)

Lemma check_board_skipped self fetch now acc board_name :
  skipped fetch board_name = true →
  check_board self fetch now acc board_name = acc.
Proof.
  unfold skipped, check_board.
  destruct (dict_get ENDPOINTS board_name) as [endpoint|]; [|done].
  intros Hfailed. rewrite check_api_failed by done. simpl.
  rewrite app_nil_r. by destruct acc.
Qed.

Lemma fold_check_board_skipped self fetch now boards acc :
  fold_left (check_board self fetch now) boards acc
  = fold_left (check_board self fetch now)
      (filter (λ b, skipped fetch b = false) boards) acc.
Proof.
  revert acc. induction boards as [|b boards IH]; intros acc; [done|].
  rewrite filter_cons. simpl. destruct (skipped fetch b) eqn:Hb.
  - rewrite decide_False by done. by rewrite check_board_skipped.
  - rewrite decide_True by done. simpl. apply IH.
Qed.

(** On the typed answers a failure stays with the board it hits: the call
    returns what it returns when only the boards that were fetched are
    watched, so a board whose fetch failed adds no event and keeps its
    snapshot.  When every watched board is skipped the call returns no
    event and the prior state, the empty one if there is none. *)
Lemma skipped_boards_are_left_out (self : LeaderboardWatcher)
    (fetch : string → Response) (now : string)
    (prior : option (gmap string Snapshot)) :
  check_updates self fetch now prior
  = check_updates
      (watching self (filter (λ b, skipped fetch b = false)
                        (leaderboards_to_watch self)))
      fetch now prior
  ∧ (Forall (λ b, skipped fetch b = true) (leaderboards_to_watch self) →
     check_updates self fetch now prior = ([], default ∅ prior)).
Proof.
  unfold check_updates. simpl. split.
  - case_decide; [done|].
    rewrite fold_check_board_skipped.
    induction (filter _ _) as [|b boards IH] using rev_ind; [done|].
    rewrite !fold_left_app. simpl. by rewrite IH.
  - intros Hall. case_decide; [done|].
    rewrite fold_check_board_skipped.
    replace (filter _ _) with (@nil string); [done|].
    symmetry. apply filter_none.
    eapply Forall_impl; [exact Hall|]. simpl. intros b ->. done.
Qed.

(** Every event of the watcher comes from the leaderboard and has no
    release stage. *)
Lemma diff_board_events_unknown max_rank now board_name data state e :
  e ∈ (diff_board max_rank now board_name data state).1 →
  source e = "leaderboard" ∧ release_stage e = UNKNOWN.
Proof.
  intros [(m & _ & _ & ->)|[(m & prev & i & _ & _ & _ & ->)|(_ & _ & ->)]]
    %elem_of_diff_board_events; done.
Qed.

Lemma check_updates_events_unknown self fetch now prior e :
  e ∈ (check_updates self fetch now prior).1 →
  source e = "leaderboard" ∧ release_stage e = UNKNOWN.
Proof.
  unfold check_updates. case_decide; [by intros ?%elem_of_nil|].
  generalize (default (∅ : gmap string Snapshot) prior).
  induction (leaderboards_to_watch self) as [|b boards IH] using rev_ind;
    intros state; [by intros ?%elem_of_nil|].
  rewrite fold_left_app. simpl. unfold check_board at 1.
  destruct (dict_get ENDPOINTS b) as [endpoint|]; [|apply IH].
  simpl. rewrite elem_of_app. intros [He|He]; [by eapply IH|].
  unfold _check_leaderboard_api in He.
  destruct (fetch _) as [|code [[|model rest]|]];
    try (by apply elem_of_nil in He);
    case_decide; try (by apply elem_of_nil in He).
  by eapply diff_board_events_unknown.
Qed.

(** ** Running the watcher twice *)

Lemma check_board_answered self fetch now acc board_name :
  check_board self fetch now acc board_name
  = match answered fetch board_name with
    | Some data =>
        (acc.1 ++ (diff_board (max_rank self) now board_name data acc.2).1,
         (diff_board (max_rank self) now board_name data acc.2).2)
    | None => acc
    end.
Proof.
  unfold check_board, answered, _check_leaderboard_api.
  destruct (dict_get ENDPOINTS board_name) as [endpoint|]; [|done].
  destruct (fetch _) as [|code [[|model rest]|]]; simpl;
    try case_decide; try done; rewrite app_nil_r; by destruct acc.
Qed.

Lemma state_key_of_inj b b' : state_key_of b = state_key_of b' → b = b'.
Proof. unfold state_key_of. intros H. by simplify_eq/=. Qed.






End LeaderboardFacts.

(** ** The orchestrator *)

Module WatcherServiceFacts.
Import Base WatcherService Spec.

Section CheckAll.
Context {State : Type}.
Implicit Types (watcher w : BaseWatcher.t State) (store : gmap string State).
Implicit Types (watchers ws : list (BaseWatcher.t State)).
Implicit Types (acc : list WatchEvent * gmap string State).

Lemma check_one_events acc watcher :
  check_one acc watcher
  = (acc.1 ++ (check_one ([], acc.2) watcher).1,
     (check_one ([], acc.2) watcher).2).
Proof.
  unfold check_one. simpl.
  destruct (BaseWatcher.check_updates _ _) as [[events new_state]|]; simpl.
  - case_bool_decide; [by rewrite app_nil_r|].
    destruct events; [by rewrite app_nil_r | done].
  - rewrite app_nil_r. by destruct acc.
Qed.

Lemma fold_check_one_events watchers acc :
  fold_left check_one watchers acc
  = (acc.1 ++ (check_all watchers acc.2).1, (check_all watchers acc.2).2).
Proof.
  unfold check_all. revert acc.
  induction watchers as [|w ws IH]; intros acc; simpl.
  - rewrite app_nil_r. by destruct acc.
  - rewrite IH, (IH (check_one _ _)), (check_one_events acc). simpl.
    by rewrite app_assoc.
Qed.

Lemma check_all_app ws1 ws2 store :
  check_all (ws1 ++ ws2) store
  = ((check_all ws1 store).1 ++ (check_all ws2 (check_all ws1 store).2).1,
     (check_all ws2 (check_all ws1 store).2).2).
Proof.
  unfold check_all at 1. rewrite fold_left_app.
  by rewrite fold_check_one_events.
Qed.

Lemma check_all_cons w ws store :
  check_all (w :: ws) store
  = ((check_one ([], store) w).1 ++ (check_all ws (check_one ([], store) w).2).1,
     (check_all ws (check_one ([], store) w).2).2).
Proof. apply (check_all_app [w]). Qed.

(** The watchers that follow leave the keys of the others alone. *)
Lemma check_all_lookup_other ws store key :
  Forall (λ w, BaseWatcher.get_state_key w ≠ key) ws →
  (check_all ws store).2 !! key = store !! key.
Proof.
  intros Hws. revert store.
  induction Hws as [|w ws Hw _ IH]; intros store; [done|].
  rewrite check_all_cons. simpl. rewrite IH. unfold check_one. simpl.
  destruct (BaseWatcher.check_updates _ _) as [[events new_state]|]; [|done].
  simpl. by rewrite lookup_insert_ne.
Qed.

(** A watcher whose call raises adds nothing and saves nothing, and the
    cycle goes on. *)
Lemma raising_watcher_is_skipped ws1 w ws2 store :
  BaseWatcher.check_updates w
    ((check_all ws1 store).2 !! BaseWatcher.get_state_key w) = None →
  check_all (ws1 ++ w :: ws2) store = check_all (ws1 ++ ws2) store.
Proof.
  intros Hraise. rewrite !check_all_app, check_all_cons.
  unfold check_one. simpl. by rewrite Hraise.
Qed.

(** C8.  When the turn of a watcher comes, the state saved under its key
    is read; the state it returns is saved under that key whatever the
    events are, and stays there to the end of the cycle unless a later
    watcher has the same key.  Its events join the list handed to the
    router when a state was saved before, and none of them does on a
    first run. *)
Theorem first_run_is_saved_and_silent ws1 w ws2 store
    (events : list WatchEvent) (new_state : State) :
  let before := check_all ws1 store in
  let key := BaseWatcher.get_state_key w in
  BaseWatcher.check_updates w (before.2 !! key) = Some (events, new_state) →
  let after := check_all ws2 (<[key := new_state]> before.2) in
  check_all (ws1 ++ w :: ws2) store
  = (before.1 ++ contribution (before.2 !! key) events ++ after.1, after.2)
  ∧ (Forall (λ w', BaseWatcher.get_state_key w' ≠ key) ws2 →
     (check_all (ws1 ++ w :: ws2) store).2 !! key = Some new_state).
Proof.
  intros before key Hcheck after.
  assert (check_one ([], before.2) w
          = (contribution (before.2 !! key) events, <[key := new_state]> before.2))
    as Hone.
  { unfold check_one. simpl. fold key. rewrite Hcheck.
    destruct (before.2 !! key); simpl; [by destruct events | done]. }
  assert (check_all (ws1 ++ w :: ws2) store
          = (before.1 ++ contribution (before.2 !! key) events ++ after.1,
             after.2)) as Hall.
  { rewrite check_all_app, check_all_cons. fold before. by rewrite Hone. }
  split; [done|]. intros Hlater. rewrite Hall. simpl. unfold after.
  rewrite check_all_lookup_other by done. apply lookup_insert_eq.
Qed.
End CheckAll.

(** ** The router *)

Section Sends.
Variable post : string → Slack.Message → option Z.

Lemma _send_webhook_heap self message u w :
  Slack.heap (Slack._send_webhook post self message u w).2 = Slack.heap w.
Proof.
  unfold Slack._send_webhook. destruct (_ || _); [done|].
  by destruct (post _ _).
Qed.

Lemma send_event_heap self event u w :
  Slack.heap (Slack.send_event post self event u w).2 = Slack.heap w.
Proof. apply _send_webhook_heap. Qed.

Lemma send_counting_heap self u events acc :
  Slack.heap (fold_left (Slack.send_counting post self u) events acc).2
  = Slack.heap acc.2.
Proof.
  revert acc. induction events as [|e events IH]; intros acc; [done|].
  simpl. rewrite IH. apply send_event_heap.
Qed.

Lemma send_leaderboard_combined_heap self events w :
  Slack.heap (Slack.send_leaderboard_combined post self events w).2 = Slack.heap w.
Proof. destruct events; [done|]. apply _send_webhook_heap. Qed.
End Sends.

(** The notifier that [__init__] builds holds a list object that
    exists. *)
Lemma init_allocated webhook_url include_icons include_timestamp mentions
    channel_webhooks w :
  let r := Slack.init webhook_url include_icons include_timestamp mentions
             channel_webhooks w in
  is_Some (Slack.heap r.2 !! Slack.mention_channel_for r.1).
Proof.
  unfold Slack.init, Slack.deref.
  destruct (Slack.heap w !! mentions) as [[|x l]|] eqn:Hw; simpl;
    rewrite ?lookup_insert_eq, ?Hw; by eexists.
Qed.

Section Router.
Variable lower : string → string.
Variable config : Config.t.
Variable post : string → Slack.Message → option Z.

(** With the mention, the copy taken before the append is the list the
    notifier holds after the send. *)
Lemma send_priority_override (r : Run) (event : WatchEvent)
    (priority_config : PriorityModelConfig.t) :
  allocated r →
  Config.get_priority_config lower config (model_name event)
    = Some priority_config →
  PriorityModelConfig.mention_channel priority_config = true →
  mention_list (send_priority lower config post r event) = mention_list r
  ∧ allocated (send_priority lower config post r event).
Proof.
  intros Halloc Hconfig Hmention.
  unfold send_priority, mention_list, allocated.
  rewrite Hconfig. simpl. rewrite Hmention. simpl.
  unfold Slack.deref at 1. rewrite !send_event_heap.
  set (l := Slack.mention_channel_for (notifier r)).
  set (l' := fresh (dom (Slack.heap (world r)))).
  assert (l ≠ l') as Hne.
  { intros Heq. apply (is_fresh (dom (Slack.heap (world r)))).
    fold l'. rewrite <- Heq. by apply elem_of_dom. }
  assert (∀ w : Slack.World,
            Slack.heap w !! l' = Some (Slack.deref (world r) l) →
            default [] (Slack.heap w !! l') = Slack.deref (world r) l
            ∧ is_Some (Slack.heap w !! l')) as Hread
    by (by intros w ->).
  case_bool_decide; apply Hread; simpl.
  - apply lookup_insert_eq.
  - rewrite lookup_insert_ne by done. apply lookup_insert_eq.
Qed.

(** A priority event whose model asks for a channel mention, and whose
    description is a string, is sent with its type added to the list the
    notifier holds; [send_event] returns, and after [send_priority] the
    notifier holds a list with the elements it had before, in the same
    order, whatever the webhook answered. *)
Lemma returning_send_restores_the_list (r : Run) (event : WatchEvent)
    (priority_config : PriorityModelConfig.t) :
  allocated r →
  Config.get_priority_config lower config (model_name event)
    = Some priority_config →
  PriorityModelConfig.mention_channel priority_config = true →
  let r' := send_priority lower config post r event in
  mention_list r' = mention_list r
  ∧ length (mention_list r') = length (mention_list r)
  ∧ (∀ event_type, event_type ∈ mention_list r' ↔ event_type ∈ mention_list r).
Proof.
  intros Halloc Hconfig Hmention r'.
  destruct (send_priority_override r event priority_config) as [Heq _];
    [done..|].
  fold r' in Heq. by rewrite Heq.
Qed.

(** Without the mention the notifier and the list objects are left as
    they are. *)
Lemma send_priority_plain (r : Run) (event : WatchEvent) :
  from_option PriorityModelConfig.mention_channel false
    (Config.get_priority_config lower config (model_name event)) = false →
  notifier (send_priority lower config post r event) = notifier r
  ∧ Slack.heap (world (send_priority lower config post r event))
    = Slack.heap (world r).
Proof.
  intros Hplain. unfold send_priority. rewrite Hplain. simpl.
  by rewrite send_event_heap.
Qed.

Lemma send_priority_mention_list (r : Run) (event : WatchEvent) :
  allocated r →
  mention_list (send_priority lower config post r event) = mention_list r
  ∧ allocated (send_priority lower config post r event).
Proof.
  intros Halloc.
  destruct (Config.get_priority_config lower config (model_name event))
    as [pc|] eqn:Hconfig.
  - destruct (PriorityModelConfig.mention_channel pc) eqn:Hmention.
    + by apply (send_priority_override r event pc).
    + destruct (send_priority_plain r event) as [Hn Hh];
        [by rewrite Hconfig|].
      unfold mention_list, allocated, Slack.deref. by rewrite Hn, Hh.
  - destruct (send_priority_plain r event) as [Hn Hh];
      [by rewrite Hconfig|].
    unfold mention_list, allocated, Slack.deref. by rewrite Hn, Hh.
Qed.

(** The whole dispatch leaves the mention list of the notifier as it
    found it. *)
Lemma dispatch_mention_list (b : Buckets) (r : Run) :
  allocated r → mention_list (dispatch lower config post b r) = mention_list r.
Proof.
  intros Halloc. unfold dispatch.
  assert (mention_list (fold_left (send_priority lower config post)
                          (priority_events b) r) = mention_list r) as Hprio.
  { revert r Halloc. induction (priority_events b) as [|e es IH];
      intros r Halloc; [done|]. simpl.
    destruct (send_priority_mention_list r e Halloc) as [Heq Halloc'].
    by rewrite IH. }
  revert Hprio. generalize (fold_left (send_priority lower config post)
                              (priority_events b) r).
  intros r1 <-.
  set (r2 := match leaderboard_events b with [] => r1 | _ => _ end).
  assert (notifier r2 = notifier r1
          ∧ Slack.heap (world r2) = Slack.heap (world r1)) as [Hn2 Hh2].
  { unfold r2. destruct (leaderboard_events b); [done|]. simpl.
    by rewrite _send_webhook_heap. }
  set (r3 := match announcements b with [] => r2 | _ => _ end).
  assert (notifier r3 = notifier r2
          ∧ Slack.heap (world r3) = Slack.heap (world r2)) as [Hn3 Hh3].
  { unfold r3. destruct (announcements b); [done|]. simpl.
    unfold Slack.send_to_channel. by rewrite send_counting_heap. }
  set (r4 := match launches b with [] => r3 | _ => _ end).
  assert (notifier r4 = notifier r3
          ∧ Slack.heap (world r4) = Slack.heap (world r3)) as [Hn4 Hh4].
  { unfold r4. destruct (launches b); [done|]. simpl.
    unfold Slack.send_to_channel. by rewrite send_counting_heap. }
  set (r5 := match other_events b with [] => r4 | _ => _ end).
  assert (notifier r5 = notifier r4
          ∧ Slack.heap (world r5) = Slack.heap (world r4)) as [Hn5 Hh5].
  { unfold r5. destruct (other_events b); [done|]. simpl.
    unfold Slack.send_events. by rewrite send_counting_heap. }
  unfold mention_list, Slack.deref.
  by rewrite Hn5, Hh5, Hn4, Hh4, Hn3, Hh3, Hn2, Hh2.
Qed.
(** So does [run_once], whatever the watchers report. *)
Lemma run_once_mention_list {State : Type}
    (watchers : list (BaseWatcher.t State)) (state_manager : gmap string State)
    (self_notifier : Slack.SlackNotifier) (w : Slack.World) :
  is_Some (Slack.heap w !! Slack.mention_channel_for self_notifier) →
  mention_list (run_once lower config post watchers state_manager
                  self_notifier w).2
  = Slack.deref w (Slack.mention_channel_for self_notifier).
Proof.
  intros Halloc. unfold run_once.
  destruct (check_all watchers state_manager) as [[|e events] store]; [done|].
  simpl. by rewrite dispatch_mention_list.
Qed.
End Router.

(** ** The buckets of the router *)

Lemma filter_ext_in {A} (P Q : A → Prop) `{!∀ x, Decision (P x)}
    `{!∀ x, Decision (Q x)} (l : list A) :
  (∀ x, x ∈ l → (P x ↔ Q x)) → filter P l = filter Q l.
Proof.
  induction l as [|x l IH]; intros Hl; [done|].
  rewrite !filter_cons.
  rewrite IH by (intros y Hy; apply Hl; by right).
  assert (P x ↔ Q x) as Hx by (apply Hl; by left).
  destruct (decide (P x)) as [HP|HP], (decide (Q x)) as [HQ|HQ]; tauto.
Qed.

Section Buckets.
Variable lower : string → string.
Variable config : Config.t.

Local Abbreviation is_priority := (_is_priority_event lower config).

Lemma mark_priority_fields names e :
  model_name (mark_priority lower names e) = model_name e
  ∧ source (mark_priority lower names e) = source e
  ∧ release_stage (mark_priority lower names e) = release_stage e.
Proof. unfold mark_priority. by case_bool_decide. Qed.

(** [other_events] holds the normal events that none of the three
    filters accepts. *)
Lemma other_events_alt (events : list WatchEvent) :
  other_events (partition_events lower config events)
  = filter (λ e, release_stage e ≠ ANNOUNCED ∧ release_stage e ≠ LAUNCHED
                 ∧ source e ≠ "leaderboard")
      (filter (λ e, is_priority e ≠ true) events).
Proof.
  unfold partition_events. simpl. apply filter_ext_in. intros e He.
  rewrite !elem_of_app, !list_elem_of_filter.
  apply list_elem_of_filter in He as [Hnormal He]. tauto.
Qed.

Lemma elem_of_all_buckets (events : list WatchEvent) (e : WatchEvent) :
  e ∈ all_buckets (partition_events lower config events) ↔ e ∈ events.
Proof.
  unfold all_buckets. rewrite !elem_of_app, other_events_alt.
  unfold partition_events. simpl. rewrite !list_elem_of_filter.
  destruct (decide (is_priority e = true)),
    (decide (release_stage e = ANNOUNCED)),
    (decide (release_stage e = LAUNCHED)),
    (decide (source e = "leaderboard")); tauto.
Qed.

(** A list in which no event passes a stage filter and the leaderboard
    filter together is split in four. *)
Lemma four_buckets (normal : list WatchEvent) :
  Forall (λ e, ¬ staged_leaderboard_event e) normal →
  filter (λ e, release_stage e = ANNOUNCED) normal
  ++ filter (λ e, release_stage e = LAUNCHED) normal
  ++ filter (λ e, source e = "leaderboard") normal
  ++ filter (λ e, release_stage e ≠ ANNOUNCED ∧ release_stage e ≠ LAUNCHED
                  ∧ source e ≠ "leaderboard") normal
  ≡ₚ normal.
Proof.
  induction 1 as [|e normal He _ IH]; [done|].
  rewrite !filter_cons. unfold staged_leaderboard_event in He.
  destruct (decide (release_stage e = ANNOUNCED)) as [Ha|Ha].
  - rewrite decide_False by congruence.
    rewrite decide_False by tauto. rewrite decide_False by tauto.
    rewrite <- app_comm_cons. by rewrite IH.
  - destruct (decide (release_stage e = LAUNCHED)) as [Hl|Hl].
    + rewrite decide_False by tauto. rewrite decide_False by tauto.
      rewrite <- app_comm_cons, <- Permutation_middle. by rewrite IH.
    + destruct (decide (source e = "leaderboard")) as [Hb|Hb].
      * rewrite decide_False by tauto.
        rewrite <- app_comm_cons, (app_assoc (filter _ normal)).
        rewrite <- Permutation_middle, <- app_assoc. by rewrite IH.
      * rewrite decide_True by tauto.
        rewrite !app_assoc, <- Permutation_middle, <- !app_assoc.
        by rewrite IH.
Qed.

(** The filters on a list of events whatever: every event lands in a
    bucket and the buckets hold nothing else.  An event that is not a
    priority event, has the source of the leaderboard and is ANNOUNCED or
    LAUNCHED lands in two buckets; a list without such an event is split
    in five. *)
Lemma buckets_of_any_list (events : list WatchEvent) :
  let routed := _mark_priority_events lower config events in
  let b := partition_events lower config routed in
  (∀ e, e ∈ all_buckets b ↔ e ∈ routed)
  ∧ (∀ e, e ∈ routed → is_priority e ≠ true → staged_leaderboard_event e →
          e ∈ leaderboard_events b
          ∧ (e ∈ announcements b ∨ e ∈ launches b))
  ∧ (Forall (λ e, is_priority e = true ∨ ¬ staged_leaderboard_event e) events →
     all_buckets b ≡ₚ routed
     ∧ length (all_buckets b) = length events).
Proof.
  intros routed b. split_and!.
  - apply elem_of_all_buckets.
  - intros e He Hnormal [Hsource Hstage]. unfold b, partition_events. simpl.
    rewrite !list_elem_of_filter. tauto.
  - intros Hevents.
    assert (all_buckets b ≡ₚ routed) as Hperm.
    { unfold all_buckets. unfold b at 5. rewrite other_events_alt.
      unfold b, partition_events. simpl.
      rewrite four_buckets; [apply filter_app_complement|].
      apply Forall_forall. intros e [Hnormal He]%list_elem_of_filter.
      unfold routed, _mark_priority_events in He.
      apply list_elem_of_In, in_map_iff in He as (e0 & <- & He0).
      apply list_elem_of_In in He0.
      rewrite Forall_forall in Hevents. specialize (Hevents e0 He0).
      unfold staged_leaderboard_event, _is_priority_event in *.
      destruct (mark_priority_fields
                  (Config.get_priority_model_names lower config) e0)
        as (Hname & Hsource & Hstage).
      rewrite Hname in Hnormal. rewrite Hsource, Hstage. tauto. }
    split; [done|]. rewrite Hperm. unfold routed, _mark_priority_events.
    apply length_map.
Qed.
End Buckets.

End WatcherServiceFacts.

Module WatcherServiceExamples.
Import Base WatcherService Spec.

Lemma first_run_is_saved_and_silent_witness :
  let store : gmap string (gmap string Value) :=
    {[ "github:A" := {[ "runs" := VInt 7 ]} ]} in
  let r := check_all [Examples.loud "A"; Examples.loud "B"; Examples.broken "C"]
             store in
  r.1 = [Examples.event "github" "new_commit" "A" UNKNOWN]
  ∧ r.2 !! "github:A" = Some {[ "runs" := VInt 8 ]}
  ∧ r.2 !! "github:B" = Some {[ "runs" := VInt 1 ]}.
Proof.
  intros store r.
  destruct (WatcherServiceFacts.first_run_is_saved_and_silent
              [Examples.loud "A"] (Examples.loud "B") [Examples.broken "C"] store
              [Examples.event "github" "new_commit" "B" UNKNOWN]
              {[ "runs" := VInt 1 ]}) as [Hall Hsaved].
  - by vm_compute.
  - split_and!.
    + by vm_compute.
    + by vm_compute.
    + apply Hsaved. repeat constructor. by vm_compute.
Defined.

(** The request made for that event mentions the channel, and the list
    object of the configuration, which the notifier shared, keeps the
    added type. *)
Example override_reaches_the_message :
  let r' := send_priority Py.ascii_lower Examples.config Examples.refuse
              Examples.run Examples.z_commit in
  map (λ request, Slack.text request.2) (Slack.outbox (world r'))
    = ["<!channel> :octocat: New Commit: z-image"]
  ∧ Slack.deref (world r') (Config.mention_channel_for Examples.config)
    = ["new_release"; "new_model"; "new_commit"]
  ∧ Slack.mention_channel_for (notifier r')
    ≠ Config.mention_channel_for Examples.config.
Proof. by vm_compute. Qed.

(** The filters do not exclude one another: an ANNOUNCED event with the
    source of the leaderboard that is not a priority event, which no
    watcher builds, would be put in [announcements] and in
    [leaderboard_events]. *)
Example staged_leaderboard_event_would_be_routed_twice :
  let routed := _mark_priority_events Py.ascii_lower Examples.config
                  [Examples.staged] in
  let b := partition_events Py.ascii_lower Examples.config routed in
  routed = [Examples.staged]
  ∧ announcements b = [Examples.staged]
  ∧ leaderboard_events b = [Examples.staged]
  ∧ length (all_buckets b) = 2%nat
  ∧ ¬ all_buckets b ≡ₚ routed.
Proof.
  split_and!; [by vm_compute..|].
  intros H%Permutation_length. vm_compute in H. discriminate.
Qed.

(** A cycle of the service with the leaderboard watcher alone, model M
    having climbed from rank 5 to rank 2 since the saved snapshot: the four
    events of the differ go to [leaderboard_events] and leave as one
    request. *)
Example climb_is_sent_as_one_message :
  let watcher := leaderboard_watcher Examples.one_board
                   (Examples.always Examples.after_climb)
                   "2024-01-02T00:00:00" in
  let store : gmap string (gmap string Leaderboard.Snapshot) :=
    {[ "leaderboard:AI Image Generation"
         := Examples.snapshot_of Examples.before_climb "text-to-image" ]} in
  let r := run_once Py.ascii_lower Examples.config (λ _ _, Some 200)
             [watcher] store Examples.notifier Examples.world in
  map event_type r.1.1
    = ["leaderboard_rank_change"; "leaderboard_rank_change";
       "leaderboard_rank_change"; "leaderboard_top3_change"]
  ∧ leaderboard_events (partition_events Py.ascii_lower Examples.config r.1.1)
    = r.1.1
  ∧ map (λ request, Slack.text request.2) (Slack.outbox (world r.2))
    = [":trophy: Leaderboard Update - 4 Changes"]
  ∧ sent r.2 = 1.
Proof. by vm_compute. Qed.

End WatcherServiceExamples.

(** ** More on the leaderboard watcher *)

Module LeaderboardProps.
Import Base Py PyFacts Leaderboard Spec LeaderboardFacts LeaderboardNotions.

Lemma diff_board_state max_rank now board_name data state :
  (diff_board max_rank now board_name data state).2
  = <[state_key_of board_name := new_snapshot max_rank now data]> state.
Proof. by rewrite diff_board_unfold. Qed.

Lemma new_snapshot_tidy max_rank now data : tidy max_rank (new_snapshot max_rank now data).
Proof.
  destruct (build_current_inv max_rank data) as (Hnd & Hkeys & Hrank).
  unfold tidy, new_snapshot. simpl. split_and!; try done.
  - rewrite length_take. lia.
  - apply Forall_forall.
    by intros m [Hr Hm]%elem_of_take_elem%elem_of_current_top3.
Qed.

(** What holds of every stored snapshot holds after a check, if it holds
    of the snapshots the differ builds. *)
Lemma check_updates_snapshots (Q : Snapshot → Prop) self fetch now prior :
  (∀ data, Q (new_snapshot (max_rank self) now data)) →
  (∀ k snap, default ∅ prior !! k = Some snap → Q snap) →
  ∀ k snap, (check_updates self fetch now prior).2 !! k = Some snap → Q snap.
Proof.
  intros Hnew. unfold check_updates. case_decide; [done|].
  generalize (default (∅ : gmap string Snapshot) prior).
  generalize (@nil WatchEvent).
  induction (leaderboards_to_watch self) as [|b boards IH]; intros events state;
    [done|].
  intros Hstate. simpl. rewrite check_board_answered.
  destruct (answered fetch b) as [data|]; [|by apply IH].
  apply IH. simpl. intros k snap. rewrite diff_board_state.
  destruct (decide (state_key_of b = k)) as [<-|Hne].
  - rewrite lookup_insert_eq. by intros [= <-].
  - rewrite lookup_insert_ne by done. apply Hstate.
Qed.

(** X1.  Started without a state and run for any number of cycles,
    whatever the upstream answers in each, the watcher only ever stores
    tidy snapshots: in every snapshot of the state the rankings have
    distinct names, which are the names of [models], no rank exceeds
    [max_rank], [total_models] is the length of [models], and [top3] holds
    at most three models, all listed in [models] with a rank of at most
    3. *)
Theorem stored_snapshots_stay_tidy (self : LeaderboardWatcher)
    (cycles : list ((string → Response) * string))
    (state : gmap string Snapshot) (k : string) (snap : Snapshot) :
  run_cycles self cycles None = Some state →
  state !! k = Some snap →
  tidy (max_rank self) snap.
Proof.
  unfold run_cycles. revert state k snap.
  induction cycles as [|[fetch now] cycles IH] using rev_ind;
    intros state k snap; [done|].
  rewrite fold_left_app. simpl. intros [= <-].
  apply check_updates_snapshots; [intros; apply new_snapshot_tidy|].
  destruct (fold_left _ cycles None) as [state'|] eqn:Hstate; simpl.
  - intros k' snap'. by apply IH.
  - intros k' snap'. by rewrite lookup_empty.
Qed.

Lemma stored_snapshots_stay_tidy_witness :
  tidy 30 (LeaderboardNotions.new_snapshot 30 "2024-01-01T02:00:00"
             Examples.tie_for_third).
Proof.
  apply (stored_snapshots_stay_tidy Examples.two_boards Samples.three_cycles
           (default ∅ (run_cycles Examples.two_boards Samples.three_cycles None))
           (state_key_of "image-editing")).
  - reflexivity.
  - by vm_compute.
Defined.







Lemma fold_check_board_other_keys self fetch now boards acc k :
  (∀ b, b ∈ boards → skipped fetch b = false → k ≠ state_key_of b) →
  (fold_left (check_board self fetch now) boards acc).2 !! k = acc.2 !! k.
Proof.
  revert acc. induction boards as [|b boards IH]; intros acc Hk; [done|].
  simpl. rewrite IH by (intros b' Hb'; apply Hk; by right).
  destruct (skipped fetch b) eqn:Hb.
  - by rewrite check_board_skipped.
  - rewrite check_board_answered.
    destruct (answered fetch b) as [data|]; [|done]. simpl.
    rewrite diff_board_state, lookup_insert_ne; [done|].
    intros Heq. by apply (Hk b); [left| |].
Qed.

(** X3.  A check changes the snapshots of the boards it diffs and nothing
    else: a key of the state that is not the key of a watched board that
    answered holds after the call what it held before. *)
Theorem other_keys_are_untouched (self : LeaderboardWatcher)
    (fetch : string → Response) (now : string)
    (prior : option (gmap string Snapshot)) (k : string) :
  (∀ b, b ∈ leaderboards_to_watch self → skipped fetch b = false →
        k ≠ state_key_of b) →
  (check_updates self fetch now prior).2 !! k = default ∅ prior !! k.
Proof.
  intros Hk. unfold check_updates. case_decide; [done|].
  by rewrite fold_check_board_other_keys.
Qed.

Lemma other_keys_are_untouched_witness :
  let prior := Examples.snapshot_of Examples.before_climb "text-to-image" in
  (check_updates Examples.two_boards Examples.first_board_down
     "2024-01-02T00:00:00" (Some prior)).2 !! state_key_of "text-to-image"
  = prior !! state_key_of "text-to-image".
Proof.
  apply (other_keys_are_untouched Examples.two_boards Examples.first_board_down
           "2024-01-02T00:00:00"
           (Some (Examples.snapshot_of Examples.before_climb "text-to-image"))).
  intros b Hb Hanswered.
  repeat (apply elem_of_cons in Hb as [->|Hb]); [discriminate Hanswered| |];
    [discriminate | by apply elem_of_nil in Hb].
Defined.

(** X4.  On the first check of a board, when the state holds no snapshot
    for it, the differ reports every tracked model once as a new entry and
    reports nothing else: no rank change and no top-3 change. *)
Theorem first_check_reports_new_entries_only (self : LeaderboardWatcher)
    (fetch : string → Response) (now board_name endpoint : string)
    (state : gmap string Snapshot) (data : list RawModel) :
  fetch (API_BASE +:+ endpoint) = Http 200 (Some data) →
  data ≠ [] →
  state !! state_key_of board_name = None →
  let r := _check_leaderboard_api self fetch now board_name endpoint state in
  Forall (λ e, event_type e = "leaderboard_new_entry") r.1
  ∧ NoDup (map model_name r.1)
  ∧ (∀ m, m ∈ map model_name r.1 ↔ m ∈ tracked (max_rank self) data).
Proof.
  intros Hfetch Hdata Hstate.
  rewrite (check_api_answered _ _ _ _ _ _ data) by done.
  rewrite diff_board_unfold. simpl. rewrite Hstate. simpl.
  rewrite !app_nil_r, difference_empty_L, build_current_models.
  rewrite map_map. simpl. rewrite map_id. split_and!.
  - apply Forall_forall. by intros e (m & -> & _)%list_elem_of_fmap.
  - apply NoDup_elements.
  - intros m. by rewrite elem_of_elements, elem_of_list_to_set.
Qed.

Lemma first_check_reports_new_entries_only_witness :
  let r := _check_leaderboard_api Examples.one_board
             (Examples.always Examples.tie_for_third) "2024-01-02T00:00:00"
             "text-to-image" "/text-to-image" ∅ in
  Forall (λ e, event_type e = "leaderboard_new_entry") r.1
  ∧ length r.1 = 4%nat.
Proof.
  destruct (first_check_reports_new_entries_only Examples.one_board
              (Examples.always Examples.tie_for_third) "2024-01-02T00:00:00"
              "text-to-image" "/text-to-image" ∅ Examples.tie_for_third)
    as (Hall & _ & _); [reflexivity | discriminate | reflexivity |].
  split; [exact Hall | by vm_compute].
Defined.

(** X5.  Every event that the watcher returns is an event of the
    leaderboard without a release stage, of one of the three leaderboard
    types, and names in its extra data and in its URL a watched board that
    answered. *)
Theorem leaderboard_events_name_their_board (self : LeaderboardWatcher)
    (fetch : string → Response) (now : string)
    (prior : option (gmap string Snapshot)) (e : WatchEvent) :
  e ∈ (check_updates self fetch now prior).1 →
  source e = "leaderboard"
  ∧ release_stage e = UNKNOWN
  ∧ event_type e ∈ ["leaderboard_new_entry"; "leaderboard_rank_change";
                    "leaderboard_top3_change"]
  ∧ ∃ b, b ∈ leaderboards_to_watch self
         ∧ skipped fetch b = false
         ∧ extra e "leaderboard" = Some (VStr b)
         ∧ url e = board_url b.
Proof.
  unfold check_updates. case_decide; [by intros ?%elem_of_nil|].
  generalize (default (∅ : gmap string Snapshot) prior).
  induction (leaderboards_to_watch self) as [|b boards IH] using rev_ind;
    intros state; [by intros ?%elem_of_nil|].
  rewrite fold_left_app. simpl. rewrite check_board_answered.
  assert (∀ b', (∃ b0, b0 ∈ boards ∧ b' = b0) ∨ b' = b → b' ∈ boards ++ [b])
    as Hin.
  { intros b' [(b0 & Hb0 & ->)| ->]; apply elem_of_app; [by left|right].
    apply list_elem_of_here. }
  assert (e ∈ (fold_left (check_board self fetch now) boards ([], state)).1 →
          source e = "leaderboard" ∧ release_stage e = UNKNOWN
          ∧ event_type e ∈ ["leaderboard_new_entry"; "leaderboard_rank_change";
                            "leaderboard_top3_change"]
          ∧ ∃ b0, b0 ∈ boards ++ [b] ∧ skipped fetch b0 = false
                  ∧ extra e "leaderboard" = Some (VStr b0)
                  ∧ url e = board_url b0) as Hbefore.
  { intros He. destruct (IH state He) as (? & ? & ? & b0 & Hb0 & ?).
    split_and!; [done..|]. exists b0. split; [|done]. apply Hin. left. eauto. }
  destruct (answered fetch b) as [data|] eqn:Hdata; [|done]. simpl.
  rewrite elem_of_app. intros [He|He]; [by apply Hbefore|].
  assert (skipped fetch b = false) as Hb.
  { unfold skipped, failed. unfold answered in Hdata.
    destruct (dict_get ENDPOINTS b); [|done].
    destruct (fetch _) as [|code [[|? ?]|]]; try done.
    case_decide; [|done]. by apply bool_decide_eq_false_2; intros ?. }
  apply elem_of_diff_board_events in He
    as [(m & _ & _ & ->)|[(m & prev & i & _ & _ & _ & ->)|(_ & _ & ->)]];
    (split_and!; [done|done| |exists b; split_and!;
                                [apply Hin; by right|done|done|done]]).
  - apply list_elem_of_here.
  - apply list_elem_of_further, list_elem_of_here.
  - do 2 apply list_elem_of_further. apply list_elem_of_here.
Qed.

Lemma leaderboard_events_name_their_board_witness :
  let r := check_updates Examples.two_boards Examples.first_board_down
             "2024-01-02T00:00:00"
             (Some (Examples.snapshot_of Examples.before_climb "image-editing")) in
  Forall (λ e, source e = "leaderboard" ∧ release_stage e = UNKNOWN) r.1
  ∧ length r.1 = 4%nat.
Proof.
  intros r. split; [|by vm_compute].
  apply Forall_forall. intros e He.
  by destruct (leaderboard_events_name_their_board Examples.two_boards
                 Examples.first_board_down "2024-01-02T00:00:00"
                 (Some (Examples.snapshot_of Examples.before_climb "image-editing"))
                 e He) as (? & ? & _).
Defined.








End LeaderboardProps.

(** ** More on the orchestrator and the router *)

Module WatcherServiceProps.
Import Base WatcherService Spec WatcherServiceFacts WatcherServiceNotions.

Section Priority.
Variable lower : string → string.
Variable config : Config.t.

Lemma find_priority_Some pms model_name :
  is_Some (Config.find_priority lower pms model_name)
  ↔ lower model_name ∈ map (λ pm, lower (PriorityModelConfig.name pm)) pms.
Proof.
  induction pms as [|pm pms IH]; simpl.
  - split; [by intros [? ?] | by intros ?%elem_of_nil].
  - rewrite elem_of_cons. case_decide as Heq.
    + split; [by left | by eexists].
    + rewrite IH. split; [by right | by intros [?|?]].
Qed.

(** X10.  The two tests for a priority model agree: the lowered name of an
    event's model is in the set of priority names, by which events are
    marked, exactly when [is_priority_model] accepts the name, by which
    events are routed.  So every event of the priority bucket carries the
    two priority marks, and marking leaves every other event as it was. *)
Theorem marked_events_are_the_priority_events (events : list WatchEvent) :
  (∀ model_name,
     lower model_name ∈ Config.get_priority_model_names lower config
     ↔ Config.is_priority_model lower config model_name = true)
  ∧ (let routed := _mark_priority_events lower config events in
     Forall (λ e, extra e "is_priority" = Some (VBool true)
                  ∧ extra e "priority_model" = Some (VBool true))
       (priority_events (partition_events lower config routed))
     ∧ filter (λ e, _is_priority_event lower config e ≠ true) routed
       = filter (λ e, _is_priority_event lower config e ≠ true) events).
Proof.
  assert (∀ model_name,
            lower model_name ∈ Config.get_priority_model_names lower config
            ↔ Config.is_priority_model lower config model_name = true) as Hagree.
  { intros model_name.
    unfold Config.get_priority_model_names, Config.is_priority_model,
      Config.get_priority_config.
    rewrite elem_of_union, !elem_of_list_to_set, <- find_priority_Some.
    destruct (Config.find_priority lower _ model_name) as [pm|].
    - split; [done | left; by eexists].
    - rewrite existsb_exists. split.
      + intros [[? ?]|Hin]; [done|].
        apply list_elem_of_In, in_map_iff in Hin as (model & Heq & Hmodel).
        apply list_elem_of_In, list_elem_of_filter in Hmodel as [Hhigh Hmodel].
        exists model. split; [by apply list_elem_of_In|].
        by rewrite Heq, bool_decide_eq_true_2, Hhigh.
      + intros (model & Hmodel & [Heq Hhigh]%andb_prop). right.
        apply bool_decide_eq_true in Heq.
        apply list_elem_of_In, in_map_iff. exists model.
        split; [done|]. apply list_elem_of_In, list_elem_of_filter.
        split; [done | by apply list_elem_of_In]. }
  split; [exact Hagree|]. intros routed. split.
  - apply Forall_forall. unfold partition_events. simpl.
    intros e [Hprio He]%list_elem_of_filter.
    apply list_elem_of_In, in_map_iff in He as (e0 & <- & _).
    unfold _is_priority_event in Hprio.
    destruct (mark_priority_fields lower
                (Config.get_priority_model_names lower config) e0) as (Hname & _).
    rewrite Hname in Hprio. apply Hagree in Hprio.
    unfold mark_priority. rewrite bool_decide_eq_true_2 by done.
    unfold extra. simpl. split.
    + rewrite lookup_insert_ne by done. apply lookup_insert_eq.
    + apply lookup_insert_eq.
  - unfold routed, _mark_priority_events.
    induction events as [|e events IH]; [done|].
    simpl. rewrite !filter_cons, IH.
    destruct (mark_priority_fields lower
                (Config.get_priority_model_names lower config) e) as (Hname & _).
    unfold _is_priority_event. rewrite Hname.
    destruct (decide (Config.is_priority_model lower config (model_name e) ≠ true))
      as [Hnot|Hprio]; [|done].
    f_equal. unfold mark_priority. rewrite bool_decide_eq_false_2; [done|].
    by rewrite Hagree.
Qed.
End Priority.

Section Tally.
Variable post : string → Slack.Message → option Z.

Local Abbreviation tally := (tally post).

Lemma tally_refl w w' n :
  Slack.outbox w' = Slack.outbox w → n = 0 → tally w w' n.
Proof. intros Heq ->. exists []. by rewrite app_nil_r. Qed.

Lemma tally_trans w1 w2 w3 n m :
  tally w1 w2 n → tally w2 w3 m → tally w1 w3 (n + m).
Proof.
  intros (a1 & H1 & ->) (a2 & H2 & ->). exists (a1 ++ a2).
  rewrite H2, H1, app_assoc. split; [done|].
  unfold delivered. rewrite filter_app, length_app. lia.
Qed.

Lemma _send_webhook_tally self message u w :
  let s := Slack._send_webhook post self message u w in
  tally w s.2 (if s.1 then 1 else 0).
Proof.
  unfold Slack._send_webhook. destruct (_ || _); [by apply tally_refl|].
  set (url := Py.str_or u (Slack.webhook_url self)).
  exists [(url, message)]. unfold delivered. rewrite filter_cons, filter_nil.
  cbn [fst snd]. destruct (post url message) as [code|] eqn:Hpost; cbn [fst snd].
  - split; [done|]. case_bool_decide as Hcode.
    + by rewrite decide_True by congruence.
    + rewrite decide_False; [done|]. congruence.
  - by rewrite decide_False.
Qed.

Lemma send_event_tally self event u w :
  let s := Slack.send_event post self event u w in
  tally w s.2 (if s.1 then 1 else 0).
Proof. apply _send_webhook_tally. Qed.

Lemma tally_eq w w' n m : tally w w' n → n = m → tally w w' m.
Proof. by intros H <-. Qed.

Lemma send_counting_tally self u events acc :
  let s := fold_left (Slack.send_counting post self u) events acc in
  tally acc.2 s.2 (s.1 - acc.1).
Proof.
  revert acc. induction events as [|e events IH]; intros acc; simpl.
  - apply tally_refl; [done|]. lia.
  - specialize (IH (Slack.send_counting post self u acc e)).
    pose proof (send_event_tally self e u acc.2) as He. simpl in He.
    eapply tally_eq; [exact (tally_trans _ _ _ _ _ He IH)|].
    set (F := fold_left _ _ _).
    unfold Slack.send_counting. simpl.
    destruct (Slack.send_event post self e u acc.2).1; lia.
Qed.

Lemma send_priority_tally lower config r event :
  let r' := send_priority lower config post r event in
  tally (world r) (world r') (sent r' - sent r).
Proof.
  unfold send_priority.
  destruct (from_option _ _ _); simpl.
  - match goal with
    | |- context [Slack.send_event post ?n ?e ?u ?w] =>
        pose proof (send_event_tally n e u w) as Hs; simpl in Hs;
        destruct (Slack.send_event post n e u w) as [ok w'] eqn:Hsend
    end.
    simpl in *. destruct Hs as (added & Hadded & Hn). exists added.
    split.
    + rewrite Hadded. by case_bool_decide.
    + rewrite <- Hn. unfold count. destruct ok; lia.
  - pose proof (send_event_tally (notifier r) event None (world r)) as Hs.
    simpl in Hs. destruct (Slack.send_event _ _ _ _ _) as [ok w']. simpl in *.
    eapply tally_eq; [exact Hs|]. unfold count. destruct ok; lia.
Qed.

Lemma send_priorities_tally lower config events r :
  let r' := fold_left (send_priority lower config post) events r in
  tally (world r) (world r') (sent r' - sent r).
Proof.
  revert r. induction events as [|e events IH]; intros r; simpl.
  - apply tally_refl; [done|]. lia.
  - eapply tally_eq;
      [exact (tally_trans _ _ _ _ _ (send_priority_tally lower config r e)
                (IH (send_priority lower config post r e)))|].
    lia.
Qed.

Lemma send_leaderboard_combined_tally self e es w :
  let s := Slack.send_leaderboard_combined post self (e :: es) w in
  tally w s.2 (if s.1 then 1 else 0).
Proof. apply _send_webhook_tally. Qed.

(** X11.  The tally of the router counts the requests that were answered
    with status 200, and nothing else: the requests of a dispatch are
    appended to those made before, and [sent] grows by the number of new
    requests whose answer was 200. *)
Theorem sent_counts_the_requests_answered_200 (lower : string → string)
    (config : Config.t) (b : Buckets) (r : Run) :
  let r' := dispatch lower config post b r in
  ∃ added,
    Slack.outbox (world r') = Slack.outbox (world r) ++ added
    ∧ sent r' = sent r + delivered post added
    ∧ sent r ≤ sent r' ≤ sent r + Z.of_nat (length added).
Proof.
  intros r'.
  assert (tally (world r) (world r') (sent r' - sent r)) as (added & Hadded & Hn).
  { unfold r', dispatch.
    set (r1 := fold_left (send_priority lower config post) (priority_events b) r).
    pose proof (send_priorities_tally lower config (priority_events b) r) as H1.
    simpl in H1. fold r1 in H1.
    set (r2 := match leaderboard_events b with [] => r1 | _ => _ end).
    assert (tally (world r1) (world r2) (sent r2 - sent r1)) as H2.
    { unfold r2. destruct (leaderboard_events b) as [|e es].
      - apply tally_refl; [done|]. lia.
      - pose proof (send_leaderboard_combined_tally (notifier r1) e es
                      (world r1)) as Hs.
        cbv zeta in Hs. cbn [world sent].
        eapply tally_eq; [exact Hs|]. unfold count.
        destruct (Slack.send_leaderboard_combined _ _ _ _).1; lia. }
    set (r3 := match announcements b with [] => r2 | _ => _ end).
    assert (tally (world r2) (world r3) (sent r3 - sent r2)) as H3.
    { unfold r3. destruct (announcements b) as [|e es].
      - apply tally_refl; [done|]. lia.
      - cbn [world sent]. unfold Slack.send_to_channel.
        match goal with
        | |- context [fold_left (Slack.send_counting post ?n ?u) ?l ?acc] =>
            pose proof (send_counting_tally n u l acc) as Hs
        end.
        cbv zeta in Hs. cbn [fst snd] in Hs.
        eapply tally_eq; [exact Hs|]. lia. }
    set (r4 := match launches b with [] => r3 | _ => _ end).
    assert (tally (world r3) (world r4) (sent r4 - sent r3)) as H4.
    { unfold r4. destruct (launches b) as [|e es].
      - apply tally_refl; [done|]. lia.
      - cbn [world sent]. unfold Slack.send_to_channel.
        match goal with
        | |- context [fold_left (Slack.send_counting post ?n ?u) ?l ?acc] =>
            pose proof (send_counting_tally n u l acc) as Hs
        end.
        cbv zeta in Hs. cbn [fst snd] in Hs.
        eapply tally_eq; [exact Hs|]. lia. }
    set (r5 := match other_events b with [] => r4 | _ => _ end).
    assert (tally (world r4) (world r5) (sent r5 - sent r4)) as H5.
    { unfold r5. destruct (other_events b) as [|e es].
      - apply tally_refl; [done|]. lia.
      - cbn [world sent]. unfold Slack.send_events.
        match goal with
        | |- context [fold_left (Slack.send_counting post ?n ?u) ?l ?acc] =>
            pose proof (send_counting_tally n u l acc) as Hs
        end.
        cbv zeta in Hs. cbn [fst snd] in Hs.
        eapply tally_eq; [exact Hs|]. lia. }
    eapply tally_eq;
      [exact (tally_trans _ _ _ _ _ H1
                (tally_trans _ _ _ _ _ H2
                   (tally_trans _ _ _ _ _ H3
                      (tally_trans _ _ _ _ _ H4 H5))))|].
    lia. }
  exists added. split; [done|]. split; [lia|].
  assert (0 ≤ delivered post added ≤ Z.of_nat (length added)).
  { unfold delivered. pose proof (length_filter
      (λ request, post request.1 request.2 = Some 200) added). lia. }
  lia.
Qed.
End Tally.

Section Answers.
Variables post post' : string → Slack.Message → option Z.

Lemma _send_webhook_world self message u w :
  (Slack._send_webhook post self message u w).2
  = (Slack._send_webhook post' self message u w).2.
Proof.
  unfold Slack._send_webhook. destruct (_ || _); [done|].
  by destruct (post _ _), (post' _ _).
Qed.

Lemma send_counting_world self u events acc acc' :
  acc.2 = acc'.2 →
  (fold_left (Slack.send_counting post self u) events acc).2
  = (fold_left (Slack.send_counting post' self u) events acc').2.
Proof.
  revert acc acc'. induction events as [|e events IH]; intros acc acc' Hacc;
    [done|].
  simpl. apply IH. unfold Slack.send_counting, Slack.send_event. simpl.
  rewrite Hacc. apply _send_webhook_world.
Qed.

Lemma send_priority_world lower config r r' event :
  notifier r = notifier r' → world r = world r' →
  notifier (send_priority lower config post r event)
  = notifier (send_priority lower config post' r' event)
  ∧ world (send_priority lower config post r event)
    = world (send_priority lower config post' r' event).
Proof.
  intros Hn Hw. unfold send_priority. rewrite Hn, Hw.
  destruct (from_option _ _ _); simpl; (split; [done|]);
    unfold Slack.send_event; apply _send_webhook_world.
Qed.

Lemma send_priorities_world lower config events r r' :
  notifier r = notifier r' → world r = world r' →
  notifier (fold_left (send_priority lower config post) events r)
  = notifier (fold_left (send_priority lower config post') events r')
  ∧ world (fold_left (send_priority lower config post) events r)
    = world (fold_left (send_priority lower config post') events r').
Proof.
  revert r r'. induction events as [|e events IH]; intros r r' Hn Hw; [done|].
  simpl. destruct (send_priority_world lower config r r' e Hn Hw).
  by apply IH.
Qed.

(** X12.  A delivery that fails holds nothing back: whatever the webhook
    answers, the router makes the same requests, in the same order, with
    the same payloads, and leaves the notifier and its lists in the same
    state.  Only the tally depends on the answers. *)
Theorem requests_do_not_depend_on_the_answers (lower : string → string)
    (config : Config.t) (b : Buckets) (r : Run) :
  notifier (dispatch lower config post b r)
  = notifier (dispatch lower config post' b r)
  ∧ world (dispatch lower config post b r)
    = world (dispatch lower config post' b r).
Proof.
  unfold dispatch.
  destruct (send_priorities_world lower config (priority_events b) r r
              eq_refl eq_refl) as [Hn1 Hw1].
  revert Hn1 Hw1.
  generalize (fold_left (send_priority lower config post) (priority_events b) r).
  generalize (fold_left (send_priority lower config post') (priority_events b) r).
  intros r1' r1 Hn1 Hw1.
  set (r2 := match leaderboard_events b with [] => r1 | _ => _ end).
  set (r2' := match leaderboard_events b with [] => r1' | _ => _ end).
  assert (notifier r2 = notifier r2' ∧ world r2 = world r2') as [Hn2 Hw2].
  { unfold r2, r2'. destruct (leaderboard_events b); [done|]. simpl.
    rewrite Hn1, Hw1. split; [done|]. apply _send_webhook_world. }
  set (r3 := match announcements b with [] => r2 | _ => _ end).
  set (r3' := match announcements b with [] => r2' | _ => _ end).
  assert (notifier r3 = notifier r3' ∧ world r3 = world r3') as [Hn3 Hw3].
  { unfold r3, r3'. destruct (announcements b); [done|]. simpl.
    rewrite Hn2, Hw2. split; [done|]. by apply send_counting_world. }
  set (r4 := match launches b with [] => r3 | _ => _ end).
  set (r4' := match launches b with [] => r3' | _ => _ end).
  assert (notifier r4 = notifier r4' ∧ world r4 = world r4') as [Hn4 Hw4].
  { unfold r4, r4'. destruct (launches b); [done|]. simpl.
    rewrite Hn3, Hw3. split; [done|]. by apply send_counting_world. }
  destruct (other_events b); [done|]. simpl.
  rewrite Hn4, Hw4. split; [done|]. by apply send_counting_world.
Qed.
End Answers.

Section Unconfigured.
Variable post : string → Slack.Message → option Z.


Lemma get_webhook_for_event_known self event :
  known self (Slack.get_webhook_for_event self event).
Proof.
  unfold Slack.get_webhook_for_event, known.
  destruct (decide (source event = "leaderboard")).
  - destruct (Slack.channel_webhooks self !! "leaderboard") eqn:Hl; [eauto|].
    destruct (Slack.channel_webhooks self !! event_type event) eqn:Ht; [eauto|].
    destruct (Slack.channel_webhooks self !! source event) eqn:Hs; simpl; eauto.
  - destruct (Slack.channel_webhooks self !! event_type event) eqn:Ht; [eauto|].
    destruct (Slack.channel_webhooks self !! source event) eqn:Hs; simpl; eauto.
Qed.




Lemma channel_known self channel url :
  Some (default (Slack.webhook_url self)
          (Slack.channel_webhooks self !! channel)) = Some url →
  known self url.
Proof.
  intros [= <-]. unfold known.
  destruct (Slack.channel_webhooks self !! channel) eqn:Hc; simpl; eauto.
Qed.



End Unconfigured.



Section Routing.
Variable post : string → Slack.Message → option Z.

Lemma configured_same self self' requests :
  Slack.webhook_url self = Slack.webhook_url self' →
  Slack.channel_webhooks self = Slack.channel_webhooks self' →
  configured self requests → configured self' requests.
Proof.
  unfold configured, known. intros Hw Hc. by rewrite Hw, Hc.
Qed.

Lemma configured_trans self (o1 o2 o3 : list (string * Slack.Message)) :
  (∃ added, o2 = o1 ++ added ∧ configured self added) →
  (∃ added, o3 = o2 ++ added ∧ configured self added) →
  ∃ added, o3 = o1 ++ added ∧ configured self added.
Proof.
  intros (a1 & -> & H1) (a2 & -> & H2). exists (a1 ++ a2).
  rewrite app_assoc. split; [done|]. by apply Forall_app.
Qed.

Lemma _send_webhook_configured self message u w :
  (∀ url, u = Some url → url ≠ "" → known self url) →
  ∃ added, Slack.outbox (Slack._send_webhook post self message u w).2
           = Slack.outbox w ++ added
           ∧ configured self added.
Proof.
  intros Hu. unfold Slack._send_webhook.
  destruct (_ || _) eqn:Hun.
  - exists []. rewrite app_nil_r. split; [done|constructor].
  - assert (known self (Py.str_or u (Slack.webhook_url self))) as Hknown.
    { unfold Py.str_or. destruct u as [x|]; [|by left].
      destruct (decide (x = "")); [by left|]. by apply Hu. }
    exists [(Py.str_or u (Slack.webhook_url self), message)].
    destruct (post _ _); simpl; (split; [done|]);
      (constructor; [by split | constructor]).
Qed.

Lemma send_event_configured self event u w :
  (∀ url, u = Some url → url ≠ "" → known self url) →
  ∃ added, Slack.outbox (Slack.send_event post self event u w).2
           = Slack.outbox w ++ added
           ∧ configured self added.
Proof.
  intros Hu. unfold Slack.send_event. apply _send_webhook_configured.
  intros url [= <-] _. unfold Py.str_or. destruct u as [x|].
  - case_decide; [apply get_webhook_for_event_known | by apply Hu].
  - apply get_webhook_for_event_known.
Qed.

Lemma send_counting_configured self u events acc :
  (∀ url, u = Some url → url ≠ "" → known self url) →
  ∃ added, Slack.outbox (fold_left (Slack.send_counting post self u) events acc).2
           = Slack.outbox acc.2 ++ added
           ∧ configured self added.
Proof.
  intros Hu. revert acc. induction events as [|e events IH]; intros acc.
  - exists []. rewrite app_nil_r. split; [done|constructor].
  - simpl. eapply configured_trans; [|apply IH].
    unfold Slack.send_counting. simpl. by apply send_event_configured.
Qed.

Lemma channel_known_nonempty self channel url :
  Some (default (Slack.webhook_url self)
          (Slack.channel_webhooks self !! channel)) = Some url →
  url ≠ "" → known self url.
Proof. intros Heq _. by apply (channel_known self channel). Qed.

Lemma send_priority_configured lower config r event :
  let r' := send_priority lower config post r event in
  Slack.webhook_url (notifier r') = Slack.webhook_url (notifier r)
  ∧ Slack.channel_webhooks (notifier r') = Slack.channel_webhooks (notifier r)
  ∧ ∃ added, Slack.outbox (world r') = Slack.outbox (world r) ++ added
             ∧ configured (notifier r) added.
Proof.
  unfold send_priority. destruct (from_option _ _ _); simpl.
  - split_and!; [done|done|].
    eapply configured_trans; [|by apply send_event_configured].
    exists []. rewrite app_nil_r. split; [|constructor].
    by case_bool_decide.
  - split_and!; [done|done|]. by apply send_event_configured.
Qed.

Lemma send_priorities_configured lower config events r :
  let r' := fold_left (send_priority lower config post) events r in
  Slack.webhook_url (notifier r') = Slack.webhook_url (notifier r)
  ∧ Slack.channel_webhooks (notifier r') = Slack.channel_webhooks (notifier r)
  ∧ ∃ added, Slack.outbox (world r') = Slack.outbox (world r) ++ added
             ∧ configured (notifier r) added.
Proof.
  revert r. induction events as [|e events IH]; intros r.
  - simpl. split_and!; [done|done|]. exists []. rewrite app_nil_r.
    split; [done|constructor].
  - simpl. destruct (send_priority_configured lower config r e)
      as (Hw & Hc & Hadded).
    destruct (IH (send_priority lower config post r e)) as (Hw' & Hc' & Hadded').
    split_and!; [congruence|congruence|].
    eapply configured_trans; [exact Hadded|].
    destruct Hadded' as (added & Heq & Hconf). exists added. split; [done|].
    by apply (configured_same (notifier (send_priority lower config post r e))).
Qed.

(** X14.  Every request of the router goes to a webhook of the
    configuration, the default one or the one of a channel, and never to
    an empty URL or to the placeholder of the sample configuration. *)
Theorem requests_go_to_configured_webhooks (lower : string → string)
    (config : Config.t) (b : Buckets) (r : Run) :
  ∃ added,
    Slack.outbox (world (dispatch lower config post b r))
    = Slack.outbox (world r) ++ added
    ∧ configured (notifier r) added.
Proof.
  unfold dispatch.
  destruct (send_priorities_configured lower config (priority_events b) r)
    as (Hw1 & Hc1 & Hadded1).
  revert Hw1 Hc1 Hadded1.
  generalize (fold_left (send_priority lower config post) (priority_events b) r).
  intros r1 Hw1 Hc1 Hadded1.
  assert (∀ requests, configured (notifier r1) requests
                      → configured (notifier r) requests) as Hsame.
  { intros requests. by apply configured_same. }
  set (r2 := match leaderboard_events b with [] => r1 | _ => _ end).
  assert (notifier r2 = notifier r1
          ∧ ∃ added, Slack.outbox (world r2) = Slack.outbox (world r) ++ added
                     ∧ configured (notifier r) added) as [Hn2 Hadded2].
  { unfold r2. destruct (leaderboard_events b) as [|e es]; [done|]. simpl.
    split; [done|]. eapply configured_trans; [exact Hadded1|].
    destruct (_send_webhook_configured (notifier r1)
                (Slack._build_leaderboard_combined_message (e :: es))
                (Some (default (Slack.webhook_url (notifier r1))
                         (Slack.channel_webhooks (notifier r1) !! "leaderboard")))
                (world r1)) as (added & Heq & Hconf);
      [apply channel_known_nonempty|].
    exists added. split; [exact Heq | by apply Hsame]. }
  clearbody r2.
  set (r3 := match announcements b with [] => r2 | _ => _ end).
  assert (notifier r3 = notifier r1
          ∧ ∃ added, Slack.outbox (world r3) = Slack.outbox (world r) ++ added
                     ∧ configured (notifier r) added) as [Hn3 Hadded3].
  { unfold r3. destruct (announcements b) as [|e es]; [done|]. simpl.
    split; [done|]. eapply configured_trans; [exact Hadded2|].
    unfold Slack.send_to_channel.
    destruct (send_counting_configured (notifier r2)
                (Some (default (Slack.webhook_url (notifier r2))
                         (Slack.channel_webhooks (notifier r2) !! "announcements")))
                (e :: es) (0, world r2)) as (added & Heq & Hconf);
      [apply channel_known_nonempty|].
    exists added. split; [exact Heq|]. apply Hsame. by rewrite <- Hn2. }
  clearbody r3.
  set (r4 := match launches b with [] => r3 | _ => _ end).
  assert (notifier r4 = notifier r1
          ∧ ∃ added, Slack.outbox (world r4) = Slack.outbox (world r) ++ added
                     ∧ configured (notifier r) added) as [Hn4 Hadded4].
  { unfold r4. destruct (launches b) as [|e es]; [done|]. simpl.
    split; [done|]. eapply configured_trans; [exact Hadded3|].
    unfold Slack.send_to_channel.
    destruct (send_counting_configured (notifier r3)
                (Some (default (Slack.webhook_url (notifier r3))
                         (Slack.channel_webhooks (notifier r3) !! "launches")))
                (e :: es) (0, world r3)) as (added & Heq & Hconf);
      [apply channel_known_nonempty|].
    exists added. split; [exact Heq|]. apply Hsame. by rewrite <- Hn3. }
  clearbody r4.
  destruct (other_events b) as [|e es]; [done|]. simpl.
  eapply configured_trans; [exact Hadded4|].
  unfold Slack.send_events.
  destruct (send_counting_configured (notifier r4) None (e :: es) (0, world r4))
    as (added & Heq & Hconf); [done|].
  exists added. split; [exact Heq|]. apply Hsame. by rewrite <- Hn4.
Qed.
End Routing.

Section Mention.
Variable lower : string → string.
Variable config : Config.t.
Variable post : string → Slack.Message → option Z.




End Mention.



Section Aliasing.
Variable lower : string → string.
Variable config : Config.t.
Variable post : string → Slack.Message → option Z.

(** The sends that follow the priority events leave the notifier and the
    list objects alone. *)
Lemma dispatch_heap (b : Buckets) (r : Run) :
  let r1 := fold_left (send_priority lower config post) (priority_events b) r in
  notifier (dispatch lower config post b r) = notifier r1
  ∧ Slack.heap (world (dispatch lower config post b r)) = Slack.heap (world r1).
Proof.
  intros r1. unfold dispatch. fold r1.
  set (r2 := match leaderboard_events b with [] => r1 | _ => _ end).
  assert (notifier r2 = notifier r1
          ∧ Slack.heap (world r2) = Slack.heap (world r1)) as [Hn2 Hh2].
  { unfold r2. destruct (leaderboard_events b); [done|]. simpl.
    by rewrite _send_webhook_heap. }
  set (r3 := match announcements b with [] => r2 | _ => _ end).
  assert (notifier r3 = notifier r2
          ∧ Slack.heap (world r3) = Slack.heap (world r2)) as [Hn3 Hh3].
  { unfold r3. destruct (announcements b); [done|]. simpl.
    unfold Slack.send_to_channel. by rewrite send_counting_heap. }
  set (r4 := match launches b with [] => r3 | _ => _ end).
  assert (notifier r4 = notifier r3
          ∧ Slack.heap (world r4) = Slack.heap (world r3)) as [Hn4 Hh4].
  { unfold r4. destruct (launches b); [done|]. simpl.
    unfold Slack.send_to_channel. by rewrite send_counting_heap. }
  set (r5 := match other_events b with [] => r4 | _ => _ end).
  assert (notifier r5 = notifier r4
          ∧ Slack.heap (world r5) = Slack.heap (world r4)) as [Hn5 Hh5].
  { unfold r5. destruct (other_events b); [done|]. simpl.
    unfold Slack.send_events. by rewrite send_counting_heap. }
  split; congruence.
Qed.

(** Once the notifier holds a copy, the object it held before is out of
    reach of the sends. *)
Lemma send_priority_detached (l0 : loc) (r : Run) (event : WatchEvent) :
  is_Some (Slack.heap (world r) !! l0) →
  Slack.mention_channel_for (notifier r) ≠ l0 →
  let r' := send_priority lower config post r event in
  Slack.heap (world r') !! l0 = Slack.heap (world r) !! l0
  ∧ Slack.mention_channel_for (notifier r') ≠ l0.
Proof.
  intros Hl0 Hne. unfold send_priority.
  destruct (from_option _ _ _); simpl; rewrite send_event_heap; [|done].
  assert (fresh (dom (Slack.heap (world r))) ≠ l0) as Hfresh.
  { intros Heq. apply (is_fresh (dom (Slack.heap (world r)))).
    rewrite Heq. by apply elem_of_dom. }
  split; [|done].
  case_bool_decide; simpl; rewrite ?lookup_insert_ne by done; done.
Qed.

Lemma send_priorities_detached (l0 : loc) (events : list WatchEvent) (r : Run) :
  is_Some (Slack.heap (world r) !! l0) →
  Slack.mention_channel_for (notifier r) ≠ l0 →
  let r' := fold_left (send_priority lower config post) events r in
  Slack.heap (world r') !! l0 = Slack.heap (world r) !! l0
  ∧ Slack.mention_channel_for (notifier r') ≠ l0.
Proof.
  revert r. induction events as [|e events IH]; intros r Hl0 Hne; [done|].
  simpl. destruct (send_priority_detached l0 r e Hl0 Hne) as [Heq Hne'].
  destruct (IH (send_priority lower config post r e)) as [Heq' Hne''];
    [by rewrite Heq|done|].
  split; [congruence|done].
Qed.

(** The first send with a mention: the object the notifier held gets the
    type of the event, and the notifier holds a copy from then on. *)
Lemma send_priority_first_override (r : Run) (event : WatchEvent) :
  allocated r →
  mentions lower config event = true →
  let l0 := Slack.mention_channel_for (notifier r) in
  let r' := send_priority lower config post r event in
  Slack.heap (world r') !! l0
  = Some (with_type (Slack.deref (world r) l0) (event_type event))
  ∧ Slack.mention_channel_for (notifier r') ≠ l0.
Proof.
  intros Halloc Hmention l0. unfold mentions in Hmention.
  unfold send_priority. rewrite Hmention. simpl. rewrite send_event_heap.
  fold l0.
  assert (fresh (dom (Slack.heap (world r))) ≠ l0) as Hfresh.
  { intros Heq. apply (is_fresh (dom (Slack.heap (world r)))).
    rewrite Heq. by apply elem_of_dom. }
  split; [|done].
  assert (Slack.deref (copy_list (world r) l0).2 l0 = Slack.deref (world r) l0)
    as Hcopy.
  { unfold Slack.deref, copy_list. simpl. by rewrite lookup_insert_ne. }
  unfold with_type. unfold copy_list in Hcopy. simpl in Hcopy. rewrite Hcopy.
  case_bool_decide; simpl.
  - rewrite lookup_insert_ne by done. unfold Slack.deref.
    destruct Halloc as [x Hx]. fold l0 in Hx. by rewrite Hx.
  - rewrite lookup_insert_eq. by rewrite Hcopy.
Qed.

Lemma send_priorities_first_override (events : list WatchEvent) (r : Run) :
  allocated r →
  let l0 := Slack.mention_channel_for (notifier r) in
  let r' := fold_left (send_priority lower config post) events r in
  match find (mentions lower config) events with
  | None =>
      notifier r' = notifier r ∧ Slack.heap (world r') = Slack.heap (world r)
  | Some event =>
      Slack.mention_channel_for (notifier r') ≠ l0
      ∧ Slack.deref (world r') l0
        = with_type (Slack.deref (world r) l0) (event_type event)
  end.
Proof.
  revert r. induction events as [|e events IH]; intros r Halloc l0; [done|].
  simpl. destruct (mentions lower config e) eqn:Hmention.
  - destruct (send_priority_first_override r e Halloc Hmention) as [Heq Hne].
    fold l0 in Heq, Hne.
    destruct (send_priorities_detached l0 events
                (send_priority lower config post r e)) as [Heq' Hne'];
      [by rewrite Heq|done|].
    split; [done|]. unfold Slack.deref at 1. by rewrite Heq', Heq.
  - destruct (send_priority_plain lower config post r e Hmention) as [Hn Hh].
    specialize (IH (send_priority lower config post r e)).
    unfold allocated in IH. rewrite Hn, Hh in IH. specialize (IH Halloc).
    simpl in IH. fold l0 in IH.
    destruct (find (mentions lower config) events).
    + destruct IH as [Hne Heq]. split; [done|].
      rewrite Heq. unfold Slack.deref. by rewrite Hh.
    + destruct IH as [Hn' Hh']. split; congruence.
Qed.

(** X17.  The restore of the mention list does not undo the append: the
    override appends to the list object the notifier holds, which at the
    start is the object it was constructed with (the list of the
    configuration), and the notifier then holds a copy.  So after the
    sends of a cycle that object holds the type of the first priority
    event whose model asks for a mention, added at its end unless it was
    there, and later sends do not reach it; with no such event the
    notifier and all list objects are as before. *)
Theorem first_override_stays_in_the_shared_list (b : Buckets) (r : Run) :
  allocated r →
  let l0 := Slack.mention_channel_for (notifier r) in
  let r' := dispatch lower config post b r in
  match find (mentions lower config) (priority_events b) with
  | None =>
      notifier r' = notifier r ∧ Slack.heap (world r') = Slack.heap (world r)
  | Some event =>
      Slack.mention_channel_for (notifier r') ≠ l0
      ∧ Slack.deref (world r') l0
        = with_type (Slack.deref (world r) l0) (event_type event)
  end.
Proof.
  intros Halloc l0 r'.
  destruct (dispatch_heap b r) as [Hn Hh]. fold r' in Hn, Hh.
  pose proof (send_priorities_first_override (priority_events b) r Halloc)
    as Hfirst.
  simpl in Hfirst. fold l0 in Hfirst.
  destruct (find (mentions lower config) (priority_events b)).
  - destruct Hfirst as [Hne Heq]. split; [by rewrite Hn|].
    rewrite <- Heq. unfold Slack.deref. by rewrite Hh.
  - destruct Hfirst as [Hn' Hh']. split; congruence.
Qed.
End Aliasing.

Lemma first_override_stays_in_the_shared_list_witness :
  let r' := dispatch Py.ascii_lower Examples.config Examples.refuse
              Samples.cycle_buckets Examples.run in
  Slack.mention_channel_for (notifier r') ≠ 1%positive
  ∧ Slack.deref (world r') 1%positive = ["new_release"; "new_model"; "new_commit"].
Proof.
  apply (first_override_stays_in_the_shared_list Py.ascii_lower Examples.config
           Examples.refuse Samples.cycle_buckets Examples.run).
  eexists. vm_compute. reflexivity.
Defined.

Section Cycle.
Context {State : Type}.
Implicit Types (ws : list (BaseWatcher.t State)) (store : gmap string State).

Lemma check_one_alone store (w : BaseWatcher.t State) :
  (check_one ([], store) w).1 = events_of store w
  ∧ (check_one ([], store) w).2 !! BaseWatcher.get_state_key w = saved_by store w
  ∧ ∀ key, key ≠ BaseWatcher.get_state_key w →
           (check_one ([], store) w).2 !! key = store !! key.
Proof.
  unfold check_one, events_of, saved_by. simpl.
  destruct (store !! BaseWatcher.get_state_key w) as [last_state|] eqn:Hlast.
  - destruct (BaseWatcher.check_updates w (Some last_state))
      as [[events new_state]|]; simpl.
    + rewrite lookup_insert_eq. split_and!; [by destruct events|done|].
      intros key Hkey. by rewrite lookup_insert_ne.
    + by rewrite Hlast.
  - destruct (BaseWatcher.check_updates w None) as [[events new_state]|]; simpl.
    + rewrite lookup_insert_eq. split_and!; [done|done|].
      intros key Hkey. by rewrite lookup_insert_ne.
    + by rewrite Hlast.
Qed.

Lemma events_of_same store store' (w : BaseWatcher.t State) :
  store' !! BaseWatcher.get_state_key w = store !! BaseWatcher.get_state_key w →
  events_of store' w = events_of store w ∧ saved_by store' w = saved_by store w.
Proof. unfold events_of, saved_by. by intros ->. Qed.

(** X15.  When the watchers of a cycle have distinct state keys, each one
    is run on what was saved for it before the cycle: the list handed to
    the router is, in the order of the watchers, what each of them reports
    on that state (nothing for one that has no saved state or that
    raises); after the cycle the state of each watcher is the one it
    returned (the old one when it raised), and the keys of no watcher are
    as they were.  In particular a cycle on a store that has none of the
    keys reports nothing. *)
Theorem cycle_runs_each_watcher_on_its_saved_state ws store :
  NoDup (map BaseWatcher.get_state_key ws) →
  (check_all ws store).1 = concat (map (events_of store) ws)
  ∧ (∀ w, w ∈ ws →
          (check_all ws store).2 !! BaseWatcher.get_state_key w = saved_by store w)
  ∧ (∀ key, key ∉ map BaseWatcher.get_state_key ws →
            (check_all ws store).2 !! key = store !! key)
  ∧ ((∀ w, w ∈ ws → store !! BaseWatcher.get_state_key w = None) →
     (check_all ws store).1 = []).
Proof.
  intros Hkeys.
  assert ((check_all ws store).1 = concat (map (events_of store) ws)
          ∧ (∀ w, w ∈ ws →
                  (check_all ws store).2 !! BaseWatcher.get_state_key w
                  = saved_by store w)
          ∧ (∀ key, key ∉ map BaseWatcher.get_state_key ws →
                    (check_all ws store).2 !! key = store !! key))
    as (Hevents & Hsaved & Hother).
  { revert store. induction ws as [|w ws IH]; intros store.
    { split_and!; [done| |done]. by intros w Hw%elem_of_nil. }
    change (NoDup (BaseWatcher.get_state_key w
                   :: map BaseWatcher.get_state_key ws)) in Hkeys.
    apply NoDup_cons in Hkeys as [Hw Hkeys].
    rewrite check_all_cons. cbn [fst snd map concat].
    destruct (check_one_alone store w) as (Hev & Hkey & Hrest).
    destruct (IH Hkeys (check_one ([], store) w).2) as (IHev & IHsaved & IHother).
    split_and!.
    - rewrite IHev, Hev. f_equal. f_equal. apply map_ext_in.
      intros w' Hw'. apply events_of_same, Hrest.
      intros Heq. apply Hw. rewrite <- Heq. apply list_elem_of_In, in_map, Hw'.
    - intros w' [->|Hw']%elem_of_cons.
      + by rewrite IHother.
      + rewrite IHsaved by done. apply events_of_same, Hrest.
        intros Heq. apply Hw. rewrite <- Heq.
        by apply list_elem_of_In, in_map, list_elem_of_In.
    - intros key Hkey'. rewrite IHother.
      + apply Hrest. intros ->. apply Hkey'. by left.
      + intros Hin. apply Hkey'. by right. }
  split_and!; [done..|].
  intros Hnone. rewrite Hevents. apply concat_nil_Forall, Forall_forall.
  intros events (w & Heq & Hw)%list_elem_of_In%in_map_iff. subst events.
  unfold events_of. rewrite Hnone; [done|]. by apply list_elem_of_In.
Qed.

End Cycle.

Lemma cycle_runs_each_watcher_on_its_saved_state_witness :
  let store : gmap string (gmap string Value) :=
    {[ "github:A" := {[ "runs" := VInt 7 ]} ]} in
  let ws := [Examples.loud "A"; Examples.broken "C"; Examples.loud "B"] in
  (check_all ws store).1 = [Examples.event "github" "new_commit" "A" UNKNOWN]
  ∧ (check_all ws store).2 !! "github:B" = Some {[ "runs" := VInt 1 ]}
  ∧ (check_all ws store).2 !! "news:A" = None.
Proof.
  intros store ws.
  destruct (cycle_runs_each_watcher_on_its_saved_state ws store)
    as (Hevents & Hsaved & Hother & _).
  - apply (bool_decide_unpack _). by vm_compute.
  - split_and!.
    + rewrite Hevents. by vm_compute.
    + change "github:B" with (BaseWatcher.get_state_key (Examples.loud "B")).
      rewrite (Hsaved (Examples.loud "B")); [by vm_compute|].
      apply list_elem_of_In. right. right. by left.
    + rewrite Hother; [by vm_compute|].
      apply (bool_decide_unpack _). by vm_compute.
Defined.



Section Channel.
Variable post : string → Slack.Message → option Z.



End Channel.


End WatcherServiceProps.

(** ** The watchers of a configuration *)

Module SetupProps.
Import Base Setup.

(** The key tells the class and the name apart: the names of the sources
    start with different letters. *)
Lemma get_state_key_inj (w1 w2 : Watcher) :
  get_state_key w1 = get_state_key w2 →
  source_name w1 = source_name w2 ∧ model_name w1 = model_name w2.
Proof.
  unfold get_state_key.
  destruct w1, w2; simpl; intros Heq; try discriminate Heq;
    by simplify_eq.
Qed.

Lemma model_watchers_names github_token huggingface_token model_config w :
  w ∈ model_watchers github_token huggingface_token model_config →
  model_name w = ModelConfig.name model_config
  ∧ source_name w ≠ "leaderboard".
Proof.
  unfold model_watchers. rewrite !elem_of_app.
  intros [H|[H|[H|[H|H]]]];
    match type of H with _ ∈ (if ?c then _ else _) => destruct c end;
    try (by apply elem_of_nil in H);
    apply list_elem_of_singleton in H; by subst w.
Qed.

Lemma key_elem_of (w : Watcher) (ws : list Watcher) :
  get_state_key w ∈ map get_state_key ws
  ↔ (source_name w, model_name w)
    ∈ map (λ w', (source_name w', model_name w')) ws.
Proof.
  rewrite !list_elem_of_In, !in_map_iff. split.
  - intros (w' & Heq & Hw'). exists w'. split; [|done].
    by destruct (get_state_key_inj w' w Heq) as [-> ->].
  - intros (w' & [= Hs Hn] & Hw'). exists w'. split; [|done].
    unfold get_state_key. by rewrite Hs, Hn.
Qed.

Lemma keys_NoDup (ws : list Watcher) :
  NoDup (map (λ w, (source_name w, model_name w)) ws) →
  NoDup (map get_state_key ws).
Proof.
  induction ws as [|w ws IH]; [constructor|].
  change (NoDup ((source_name w, model_name w)
                   :: map (λ w', (source_name w', model_name w')) ws)
          → NoDup (get_state_key w :: map get_state_key ws)).
  rewrite !NoDup_cons, key_elem_of. intros [Hw Hws]. by split; [|apply IH].
Qed.

Lemma model_watchers_NoDup github_token huggingface_token model_config :
  NoDup (map (λ w, (source_name w, model_name w))
           (model_watchers github_token huggingface_token model_config)).
Proof.
  unfold model_watchers.
  destruct (truthy (ModelConfig.github model_config)),
    (truthy (ModelConfig.huggingface model_config)),
    (truthy (ModelConfig.modelscope model_config)),
    (truthy (ModelConfig.arxiv_query model_config)),
    (truthy (ModelConfig.news_keywords model_config)); simpl;
    repeat (apply NoDup_cons; split; [|]); try apply NoDup_nil_2;
    rewrite ?not_elem_of_cons; split_and?; try apply not_elem_of_nil;
    discriminate.
Qed.

(** X18.  When the models of the configuration have distinct names, the
    watchers that [_setup_watchers] builds have distinct state keys: no
    two of them read or overwrite the same saved state. *)
Theorem watchers_have_distinct_state_keys (config : Config.t)
    (leaderboards : LeaderboardConfig)
    (github_token huggingface_token artificial_analysis_api_key
       environment_key : option string) :
  NoDup (map ModelConfig.name (Config.models config)) →
  NoDup (map get_state_key
           (_setup_watchers config leaderboards github_token huggingface_token
              artificial_analysis_api_key environment_key)).
Proof.
  intros Hnames. apply keys_NoDup. unfold _setup_watchers.
  set (last := if enabled leaderboards then _ else _).
  assert (NoDup (map (λ w, (source_name w, model_name w)) last)
          ∧ ∀ w, w ∈ last → source_name w = "leaderboard") as [Hlast Hsource].
  { unfold last. destruct (enabled leaderboards); simpl.
    - split; [apply NoDup_singleton|].
      by intros w ->%list_elem_of_singleton.
    - split; [apply NoDup_nil_2|]. by intros w ?%elem_of_nil. }
  clearbody last.
  induction (Config.models config) as [|m ms IH]; [done|].
  change (NoDup (ModelConfig.name m :: map ModelConfig.name ms)) in Hnames.
  apply NoDup_cons in Hnames as [Hm Hms].
  cbn [flat_map]. rewrite <- app_assoc, map_app.
  apply NoDup_app. split_and!.
  - apply model_watchers_NoDup.
  - intros sig (w & <- & Hw)%list_elem_of_In%in_map_iff
      (w' & Heq & Hw')%list_elem_of_In%in_map_iff.
    apply list_elem_of_In, model_watchers_names in Hw as [Hname Hnot].
    injection Heq as Hs Hn.
    apply list_elem_of_In, elem_of_app in Hw' as [Hw'|Hw'].
    + apply list_elem_of_In, in_flat_map in Hw' as (m' & Hm' & Hw').
      apply list_elem_of_In, model_watchers_names in Hw' as [Hname' _].
      apply Hm. rewrite <- Hname, <- Hn, Hname'.
      by apply list_elem_of_In, in_map.
    + apply Hnot. rewrite <- Hs. by apply Hsource.
  - by apply IH.
Qed.

Lemma watchers_have_distinct_state_keys_witness :
  map get_state_key
    (_setup_watchers Samples.two_models Samples.all_boards None None None None)
  = ["github:Flux"; "arxiv:Flux"; "arxiv:Z-Image";
     "leaderboard:AI Image Generation"]
  ∧ NoDup (map get_state_key
             (_setup_watchers Samples.two_models Samples.all_boards
                None None None None)).
Proof.
  split; [by vm_compute|].
  apply (watchers_have_distinct_state_keys Samples.two_models Samples.all_boards).
  apply (bool_decide_unpack _). by vm_compute.
Defined.

End SetupProps.

(** ** The GitHub watcher *)

Module GitHubWatcherProps.
Import Base Spec GitHubWatcher GitHubNotions.

Section Watcher.
Variable lower : string → string.
Variable fromisoformat : string → option string.
Variable now : string.
Variable api : Api.

Local Abbreviation commit_event := (commit_event lower fromisoformat now).
Local Abbreviation _check_commits := (_check_commits lower fromisoformat now api).
Local Abbreviation release_event := (release_event lower fromisoformat).
Local Abbreviation _check_releases := (_check_releases lower fromisoformat api).
Local Abbreviation _check_repo_exists := (_check_repo_exists lower fromisoformat api).
Local Abbreviation check_updates := (check_updates lower fromisoformat now api).
Local Abbreviation dated := (dated fromisoformat now).

(** *** Commits *)

Lemma new_commits_split (last : string) (commits : list Commit) :
  ∃ older,
    commits = new_commits (Some (VStr last)) commits ++ older
    ∧ Forall (λ c, sha c ≠ last) (new_commits (Some (VStr last)) commits)
    ∧ match older with [] => True | c :: _ => sha c = last end.
Proof.
  induction commits as [|c commits (older & Heq & Hnew & Hold)].
  - exists []. by split_and!.
  - simpl. unfold str_eq. case_bool_decide as Hc.
    + exists (c :: commits). split_and!; [done|constructor|by simplify_eq].
    + exists older. split_and!; [simpl; by f_equal| |done].
      constructor; [|done]. intros Hsha. apply Hc. by rewrite Hsha.
Qed.

Lemma commit_event_fields self commit e :
  commit_event self commit = Some e →
  source e = "github" ∧ event_type e = "new_commit"
  ∧ Base.model_name e = model_name self
  ∧ extra e "full_sha" = Some (VStr (sha commit)).
Proof.
  unfold GitHubWatcher.commit_event. intros He.
  destruct (fromisoformat _) as [timestamp|]; [|done].
  simpl in He. injection He as <-. by split_and!.
Qed.

Lemma commit_events_fields self commits events :
  mapM (commit_event self) commits = Some events →
  map (λ e, extra e "full_sha") events = map (λ c, Some (VStr (sha c))) commits
  ∧ Forall (λ e, source e = "github" ∧ event_type e = "new_commit"
                 ∧ Base.model_name e = model_name self) events.
Proof.
  intros Hall%mapM_Some_1.
  induction Hall as [|c e commits events He _ [IHsha IHall]]; [done|].
  destruct (commit_event_fields self c e He) as (? & ? & ? & Hsha).
  split.
  - simpl. by rewrite Hsha, IHsha.
  - by constructor.
Qed.

(** X19.  The commits page answers 200 and the state holds the SHA of the
    last commit seen.  The commits in front of that SHA in the page are
    the new ones (all of the page when the SHA is not in it); the watcher
    reports the first five of them, in the order of the page, each as a
    [new_commit] event of its model that carries the full SHA, and it
    saves the SHA of the first commit of the page.  So a commit that is
    the last one seen, or that comes after it in the page, is not
    reported. *)
Theorem new_commits_are_reported_newest_first (self : t) (state : State)
    (commits : list Commit) (last : string) :
  get_commits api (commits_url self) 10 = Http 200 commits →
  state !! "last_commit_sha" = Some (VStr last) →
  last ≠ "" →
  Forall dated commits →
  ∃ events older,
    _check_commits self state
    = Some (events, match commits with
                    | latest_commit :: _ =>
                        <["last_commit_sha" := VStr (sha latest_commit)]> state
                    | [] => state
                    end)
    ∧ commits = new_commits (Some (VStr last)) commits ++ older
    ∧ Forall (λ c, sha c ≠ last) (new_commits (Some (VStr last)) commits)
    ∧ match older with [] => True | c :: _ => sha c = last end
    ∧ map (λ e, extra e "full_sha") events
      = map (λ c, Some (VStr (sha c)))
          (take 5 (new_commits (Some (VStr last)) commits))
    ∧ Forall (λ e, source e = "github" ∧ event_type e = "new_commit"
                   ∧ Base.model_name e = model_name self) events.
Proof.
  intros Hget Hlast Hne Hdated.
  destruct (new_commits_split last commits) as (older & Hsplit & Hnew & Hold).
  unfold GitHubWatcher._check_commits. rewrite Hget, Hlast.
  rewrite decide_True by done.
  destruct commits as [|c commits].
  { exists [], older. split_and!; try done; constructor. }
  unfold commit_events.
  assert (truthy (Some (VStr last)) = true) as ->.
  { simpl. by rewrite bool_decide_eq_false_2. }
  set (news := new_commits (Some (VStr last)) (c :: commits)) in *.
  destruct (str_eq (sha c) (Some (VStr last))) eqn:Hc; cbn [andb negb].
  - assert (news = []) as Hnil by (unfold news; simpl; by rewrite Hc).
    rewrite Hnil in *. exists [], older. split_and!; try done; constructor.
  - destruct (mapM (commit_event self) (take 5 news)) as [events|] eqn:Hevents.
    + destruct (commit_events_fields self _ events Hevents) as [Hsha Hall].
      exists events, older. by split_and!.
    + exfalso. apply mapM_None_1, Exists_exists in Hevents as (x & Hx & Hnone).
      assert (dated x) as [ts Hts].
      { eapply Forall_forall; [exact Hdated|].
        rewrite Hsplit. apply elem_of_app. left.
        eapply LeaderboardFacts.elem_of_take_elem, Hx. }
      unfold GitHubWatcher.commit_event in Hnone. by rewrite Hts in Hnone.
Qed.

(** *** Releases *)

Lemma text_of_release_not_empty (a b : string) : a +:+ " " +:+ b ≠ "".
Proof. by destruct a. Qed.

Lemma release_event_fields self release e :
  release_event self release = Some e →
  source e = "github"
  ∧ Base.model_name e = model_name self
  ∧ (event_type e = "release_launched" ∧ release_stage e = LAUNCHED
     ∨ event_type e = "release_announced" ∧ release_stage e ≠ LAUNCHED)
  ∧ (extra e "prerelease" = Some (VBool true) → release_stage e = ANNOUNCED)
  ∧ (extra e "prerelease" = Some (VBool false) →
     extra e "has_assets" = Some (VBool true) → release_stage e = LAUNCHED).
Proof.
  unfold GitHubWatcher.release_event. intros He.
  destruct (match published_at release with Some _ => _ | None => _ end)
    as [published|]; [|done].
  simpl in He. destruct (fromisoformat _) as [timestamp|]; [|done].
  simpl in He. injection He as <-. unfold extra. simpl.
  split_and!; [done|done| | |].
  - case_decide; [by left | by right].
  - rewrite lookup_insert_ne, lookup_insert_eq by done. intros [= ->].
    rewrite andb_false_r. unfold GitHub._detect_release_stage.
    by rewrite decide_False by apply text_of_release_not_empty.
  - rewrite lookup_insert_ne, lookup_insert_eq by done. intros [= ->].
    rewrite !lookup_insert_ne, lookup_singleton_eq by done. by intros [= ->].
Qed.

(** X20.  Every event that [_check_releases] returns is an event of the
    watcher's model whose type tells the stage: [release_launched] with the
    stage LAUNCHED, [release_announced] with any other stage.  A
    prerelease is reported with the stage ANNOUNCED, whatever its name and
    body say and whether or not it has assets: the text handed to the
    classifier is never empty.  A release that is not a prerelease and has
    assets is reported with the stage LAUNCHED. *)
Theorem release_events_tell_the_stage (self : t) (state state' : State)
    (events : list WatchEvent) :
  _check_releases self state = Some (events, state') →
  Forall (λ e,
            source e = "github"
            ∧ Base.model_name e = model_name self
            ∧ (event_type e = "release_launched" ∧ release_stage e = LAUNCHED
               ∨ event_type e = "release_announced" ∧ release_stage e ≠ LAUNCHED)
            ∧ (extra e "prerelease" = Some (VBool true) →
               release_stage e = ANNOUNCED)
            ∧ (extra e "prerelease" = Some (VBool false) →
               extra e "has_assets" = Some (VBool true) →
               release_stage e = LAUNCHED)) events.
Proof.
  unfold GitHubWatcher._check_releases.
  destruct (get_releases api (releases_url self) 5)
    as [|status_code [|latest releases]];
    [by intros [= <- _]| |];
    (case_decide; [|by intros [= <- _]]); [by intros [= <- _]|].
  unfold release_events.
  destruct (_ && _); [|by intros [= <- _]].
  destruct (mapM _ _) as [events'|] eqn:Hevents; [|done].
  intros [= <- _]. apply mapM_Some_1 in Hevents.
  induction Hevents as [|r e rs es He _ IH]; constructor; [|done].
  by apply (release_event_fields self r).
Qed.

(** *** The three checks, one after the other *)

Lemma _check_commits_parts self state :
  _check_commits self state
  = events ← commits_part lower fromisoformat now api self
               (state !! "last_commit_sha");
    Some (events, commits_saved api self state).
Proof.
  unfold GitHubWatcher._check_commits, commits_part, commits_saved.
  destruct (get_commits api (commits_url self) 10)
    as [|status_code [|latest commits]]; [done| |];
    by case_decide.
Qed.

Lemma _check_releases_parts self state :
  _check_releases self state
  = events ← releases_part lower fromisoformat api self
               (state !! "last_release_id");
    Some (events, releases_saved api self state).
Proof.
  unfold GitHubWatcher._check_releases, releases_part, releases_saved.
  destruct (get_releases api (releases_url self) 5)
    as [|status_code [|latest releases]]; [done| |];
    by case_decide.
Qed.

Lemma truthy_repo_known (repo_known : option Value) :
  (from_option (λ v, {[ "repo_known" := v ]}) ∅ repo_known : State)
    !! "repo_known" = repo_known.
Proof. destruct repo_known; simpl; [apply lookup_singleton_eq|done]. Qed.

Lemma _check_repo_exists_parts self state :
  _check_repo_exists self state
  = event ← repo_part lower fromisoformat api self (state !! "repo_known");
    Some (event, repo_saved api self state).
Proof.
  unfold repo_part, GitHubWatcher._check_repo_exists, repo_saved.
  rewrite truthy_repo_known.
  destruct (truthy (state !! "repo_known")); [done|].
  destruct (get_repo api (repo_url self)) as [|status_code repo_data]; [done|].
  case_decide; [|done].
  destruct (repo_created_at repo_data) as [created_at|]; [|done]. simpl.
  by destruct (fromisoformat _).
Qed.

Lemma commits_saved_lookup self state key :
  key ≠ "last_commit_sha" → commits_saved api self state !! key = state !! key.
Proof.
  intros Hkey. unfold commits_saved.
  destruct (get_commits api (commits_url self) 10)
    as [|status_code [|latest commits]]; [done..|].
  case_decide; [|done]. by rewrite lookup_insert_ne.
Qed.

Lemma releases_saved_lookup self state key :
  key ≠ "last_release_id" → releases_saved api self state !! key = state !! key.
Proof.
  intros Hkey. unfold releases_saved.
  destruct (get_releases api (releases_url self) 5)
    as [|status_code [|latest releases]]; [done..|].
  case_decide; [|done]. by rewrite lookup_insert_ne.
Qed.

Lemma repo_saved_lookup self state key :
  key ≠ "repo_known" → key ≠ "repo_created_at" →
  repo_saved api self state !! key = state !! key.
Proof.
  intros Hkey Hkey'. unfold repo_saved.
  destruct (truthy _); [done|].
  destruct (get_repo api (repo_url self)) as [|status_code repo_data]; [done|].
  case_decide; [|done]. by rewrite !lookup_insert_ne.
Qed.

(** [check_updates] of a watcher with a repository, through the parts. *)
Lemma check_updates_parts self state :
  Setup.truthy (repo self) = true →
  check_updates self (Some state)
  = commit_events ← commits_part lower fromisoformat now api self
                      (state !! "last_commit_sha");
    release_events ← releases_part lower fromisoformat api self
                       (state !! "last_release_id");
    repo_event ← repo_part lower fromisoformat api self (state !! "repo_known");
    Some (commit_events ++ release_events ++ option_list repo_event,
          repo_saved api self
            (releases_saved api self (commits_saved api self state))).
Proof.
  intros Hrepo. unfold GitHubWatcher.check_updates. rewrite Hrepo. simpl.
  rewrite _check_commits_parts.
  destruct (commits_part _ _ _ _ _ _) as [commit_events|]; [|done]. simpl.
  rewrite _check_releases_parts, commits_saved_lookup by done.
  destruct (releases_part _ _ _ _ _) as [release_events|]; [|done]. simpl.
  rewrite _check_repo_exists_parts, releases_saved_lookup,
    commits_saved_lookup by done.
  by destruct (repo_part _ _ _ _ _) as [repo_event|].
Qed.

(** X22.  The three checks of [check_updates] do not interfere: a watcher
    with a repository returns the events that [_check_commits],
    [_check_releases] and [_check_repo_exists] return when each is run
    alone on the state of the call, in this order, and it raises exactly
    when one of them does.  The state it returns holds under
    [last_commit_sha] what the commit check saves, under
    [last_release_id] what the release check saves, and under every other
    key what the repository check saves. *)
Theorem checks_do_not_interfere (self : t) (state state' : State)
    (events : list WatchEvent) :
  Setup.truthy (repo self) = true →
  check_updates self (Some state) = Some (events, state')
  ↔ ∃ commit_events commits_state release_events releases_state
      repo_event repo_state,
      _check_commits self state = Some (commit_events, commits_state)
      ∧ _check_releases self state = Some (release_events, releases_state)
      ∧ _check_repo_exists self state = Some (repo_event, repo_state)
      ∧ events = commit_events ++ release_events ++ option_list repo_event
      ∧ ∀ key,
          state' !! key
          = if decide (key = "last_commit_sha") then commits_state !! key
            else if decide (key = "last_release_id") then releases_state !! key
            else repo_state !! key.
Proof.
  intros Hrepo. rewrite check_updates_parts by done.
  rewrite _check_commits_parts, _check_releases_parts, _check_repo_exists_parts.
  destruct (commits_part _ _ _ _ _ _) as [commit_events|]; simpl;
    [|split; [done|by intros (? & ? & ? & ? & ? & ? & ? & _)]].
  destruct (releases_part _ _ _ _ _) as [release_events|]; simpl;
    [|split; [done|by intros (? & ? & ? & ? & ? & ? & _ & ? & _)]].
  destruct (repo_part _ _ _ _ _) as [repo_event|]; simpl;
    [|split; [done|by intros (? & ? & ? & ? & ? & ? & _ & _ & ? & _)]].
  assert (∀ key,
            repo_saved api self
              (releases_saved api self (commits_saved api self state)) !! key
            = if decide (key = "last_commit_sha")
              then commits_saved api self state !! key
              else if decide (key = "last_release_id")
                   then releases_saved api self state !! key
                   else repo_saved api self state !! key) as Hkeys.
  { intros key. repeat case_decide; subst.
    - by rewrite repo_saved_lookup, releases_saved_lookup.
    - rewrite repo_saved_lookup by done.
      unfold releases_saved.
      destruct (get_releases api (releases_url self) 5)
        as [|status_code [|latest releases]];
        [by rewrite commits_saved_lookup..|].
      case_decide; [|by rewrite commits_saved_lookup].
      by rewrite !lookup_insert_eq.
    - unfold repo_saved.
      rewrite releases_saved_lookup, commits_saved_lookup by done.
      destruct (truthy _);
        [by rewrite releases_saved_lookup, commits_saved_lookup|].
      destruct (get_repo api (repo_url self)) as [|status_code repo_data];
        [by rewrite releases_saved_lookup, commits_saved_lookup|].
      case_decide; [|by rewrite releases_saved_lookup, commits_saved_lookup].
      destruct (decide (key = "repo_created_at")) as [->|];
        [by rewrite !lookup_insert_eq|].
      rewrite !(lookup_insert_ne _ "repo_created_at") by done.
      destruct (decide (key = "repo_known")) as [->|];
        [by rewrite !lookup_insert_eq|].
      rewrite !(lookup_insert_ne _ "repo_known") by done.
      by rewrite releases_saved_lookup, commits_saved_lookup. }
  split.
  - intros [= <- <-]. by eexists _, _, _, _, _, _.
  - intros (? & ? & ? & ? & ? & ? & [= <- <-] & [= <- <-] & [= <- <-] & -> & Hstate).
    do 2 f_equal. apply map_eq. intros key. by rewrite Hstate, Hkeys.
Qed.

Lemma commits_settled self (state state' : State) :
  state' !! "last_commit_sha" = commits_saved api self state !! "last_commit_sha" →
  commits_part lower fromisoformat now api self (state' !! "last_commit_sha")
  = Some []
  ∧ commits_saved api self state' = state'.
Proof.
  unfold commits_part, commits_saved.
  destruct (get_commits api (commits_url self) 10)
    as [|status_code [|latest commits]]; [done..|].
  case_decide; [|done]. rewrite lookup_insert_eq. intros Hlast.
  rewrite Hlast. split; [|by apply insert_id].
  unfold GitHubWatcher.commit_events, str_eq.
  rewrite bool_decide_eq_true_2 by done. by rewrite andb_false_r.
Qed.

Lemma releases_settled self (state state' : State) :
  state' !! "last_release_id" = releases_saved api self state !! "last_release_id" →
  releases_part lower fromisoformat api self (state' !! "last_release_id")
  = Some []
  ∧ releases_saved api self state' = state'.
Proof.
  unfold releases_part, releases_saved.
  destruct (get_releases api (releases_url self) 5)
    as [|status_code [|latest releases]]; [done..|].
  case_decide; [|done]. rewrite lookup_insert_eq. intros Hlast.
  rewrite Hlast. split; [|by apply insert_id].
  unfold GitHubWatcher.release_events, int_eq.
  rewrite (bool_decide_eq_true_2 (id latest = id latest)) by done.
  by rewrite andb_false_r.
Qed.

Lemma repo_settled self (state state' : State) :
  state' !! "repo_known" = repo_saved api self state !! "repo_known" →
  repo_part lower fromisoformat api self (state' !! "repo_known") = Some None
  ∧ repo_saved api self state' = state'.
Proof.
  unfold repo_part, repo_saved, GitHubWatcher._check_repo_exists.
  rewrite truthy_repo_known.
  destruct (truthy (state !! "repo_known")) eqn:Hknown.
  { intros ->. by rewrite Hknown. }
  destruct (get_repo api (repo_url self)) as [|status_code repo_data].
  { intros ->. by rewrite Hknown. }
  case_decide.
  - rewrite lookup_insert_ne, lookup_insert_eq by done. by intros ->.
  - intros ->. by rewrite Hknown.
Qed.

End Watcher.

(** X21.  The watcher is idempotent: run again on the state it returned,
    with the upstream unchanged, it returns no event and the same state,
    at whatever time the second run takes place. *)
Theorem second_check_is_silent (lower : string → string)
    (fromisoformat : string → option string) (now now' : string) (api : Api)
    (self : t) (prior : option State) (events : list WatchEvent)
    (state : State) :
  check_updates lower fromisoformat now api self prior = Some (events, state) →
  check_updates lower fromisoformat now' api self (Some state)
  = Some ([], state).
Proof.
  destruct (Setup.truthy (repo self)) eqn:Hrepo.
  2:{ unfold check_updates. rewrite Hrepo. simpl. by intros [= _ <-]. }
  assert (check_updates lower fromisoformat now api self prior
          = check_updates lower fromisoformat now api self
              (Some (default ∅ prior))) as -> by (by destruct prior).
  rewrite !check_updates_parts by done.
  set (s0 := default ∅ prior).
  destruct (commits_part _ _ _ _ _ _) as [commit_events|]; [|done]. simpl.
  destruct (releases_part _ _ _ _ _) as [release_events|]; [|done]. simpl.
  destruct (repo_part _ _ _ _ _) as [repo_event|]; [|done]. simpl.
  intros [= _ <-].
  set (s1 := commits_saved api self s0).
  set (s2 := releases_saved api self s1).
  set (s3 := repo_saved api self s2).
  destruct (commits_settled lower fromisoformat now' api self s0 s3) as [-> ->].
  { unfold s3, s2. by rewrite repo_saved_lookup, releases_saved_lookup. }
  destruct (releases_settled lower fromisoformat api self s1 s3) as [-> ->].
  { unfold s3. by rewrite repo_saved_lookup. }
  by destruct (repo_settled lower fromisoformat api self s2 s3) as [-> ->].
Qed.

Lemma new_commits_are_reported_newest_first_witness :
  ∃ events,
    _check_commits Py.ascii_lower Samples.isoformat "2024-01-03T00:00:00"
      Samples.github Samples.flux Samples.seen
    = Some (events, <["last_commit_sha" := VStr "ccc3333cc"]> Samples.seen)
    ∧ map (λ e, extra e "full_sha") events
      = [Some (VStr "ccc3333cc"); Some (VStr "bbb2222bb")].
Proof.
  destruct (new_commits_are_reported_newest_first Py.ascii_lower
              Samples.isoformat "2024-01-03T00:00:00" Samples.github
              Samples.flux Samples.seen Samples.commits "aaa1111aa")
    as (events & older & Heq & _ & _ & _ & Hsha & _).
  - reflexivity.
  - by vm_compute.
  - discriminate.
  - repeat constructor; by eexists.
  - exists events. split; [exact Heq | exact Hsha].
Defined.

Lemma release_events_tell_the_stage_witness :
  let r := default ([], ∅)
             (_check_releases Py.ascii_lower Samples.isoformat Samples.github
                Samples.flux Samples.seen) in
  map event_type r.1 = ["release_announced"; "release_launched"]
  ∧ Forall (λ e, event_type e = "release_launched" ∧ release_stage e = LAUNCHED
                 ∨ event_type e = "release_announced"
                   ∧ release_stage e ≠ LAUNCHED) r.1.
Proof.
  intros r. split; [by vm_compute|].
  eapply Forall_impl.
  - apply (release_events_tell_the_stage Py.ascii_lower Samples.isoformat
             Samples.github Samples.flux Samples.seen r.2 r.1).
    by vm_compute.
  - by intros e (_ & _ & He & _).
Defined.

Lemma checks_do_not_interfere_witness :
  let r := default ([], ∅)
             (check_updates Py.ascii_lower Samples.isoformat
                "2024-01-03T00:00:00" Samples.github Samples.flux
                (Some Samples.seen)) in
  length r.1 = 5%nat
  ∧ ∃ commit_events release_events repo_event,
      r.1 = commit_events ++ release_events ++ option_list repo_event
      ∧ length commit_events = 2%nat ∧ length release_events = 2%nat.
Proof.
  intros r. split; [by vm_compute|].
  destruct (checks_do_not_interfere Py.ascii_lower Samples.isoformat
              "2024-01-03T00:00:00" Samples.github Samples.flux Samples.seen
              r.2 r.1) as [Hparts _]; [reflexivity|].
  destruct Hparts as (ec & sc & er & sr & ep & sp & Hc & Hr & _ & Hev & _);
    [by vm_compute|].
  exists ec, er, ep. split; [exact Hev|].
  vm_compute in Hc. vm_compute in Hr.
  injection Hc as <- _. injection Hr as <- _. by split.
Defined.

Lemma second_check_is_silent_witness :
  let r := default ([], ∅)
             (check_updates Py.ascii_lower Samples.isoformat
                "2024-01-03T00:00:00" Samples.github Samples.flux None) in
  r.2 !! "last_commit_sha" = Some (VStr "ccc3333cc")
  ∧ check_updates Py.ascii_lower Samples.isoformat "2024-01-04T00:00:00"
      Samples.github Samples.flux (Some r.2)
    = Some ([], r.2).
Proof.
  intros r. split; [by vm_compute|].
  apply (second_check_is_silent Py.ascii_lower Samples.isoformat
           "2024-01-03T00:00:00" "2024-01-04T00:00:00" Samples.github
           Samples.flux None r.1 r.2).
  by vm_compute.
Defined.

End GitHubWatcherProps.

(** ** The arXiv watcher *)

Module ArxivWatcherProps.
Import Base Spec ArxivWatcher ArxivNotions.

Lemma union_absorb (x : string) (L S : gset string) :
  x ∈ S → L ∪ S = {[ x ]} ∪ L ∪ S.
Proof.
  intros Hx. apply set_eq. intros i.
  rewrite !elem_of_union, elem_of_singleton. split; [tauto|].
  intros [[->|?]|?]; tauto.
Qed.

Lemma union_shift (x : string) (L S : gset string) :
  L ∪ ({[ x ]} ∪ S) = {[ x ]} ∪ L ∪ S.
Proof.
  apply set_eq. intros i. rewrite !elem_of_union. tauto.
Qed.

Lemma fold_add_paper self papers seen_ids events :
  fold_left (add_paper self) papers (seen_ids, events)
  = (list_to_set (map id papers) ∪ seen_ids,
     events ++ map (paper_event self) (unseen seen_ids papers)).
Proof.
  revert seen_ids events.
  induction papers as [|paper papers IH]; intros seen_ids events.
  - simpl. rewrite app_nil_r. f_equal. by rewrite (left_id_L ∅ (∪)).
  - cbn [fold_left map unseen]. unfold add_paper at 2. cbn [fst snd].
    rewrite list_to_set_cons. case_decide as Hin.
    + rewrite IH. f_equal. by apply union_absorb.
    + rewrite IH. cbn [map]. rewrite <- app_assoc. f_equal. apply union_shift.
Qed.

Lemma unseen_spec seen_ids papers :
  unseen seen_ids papers `sublist_of` papers
  ∧ NoDup (map id (unseen seen_ids papers))
  ∧ ∀ i, i ∈ map id (unseen seen_ids papers)
         ↔ i ∈ map id papers ∧ i ∉ seen_ids.
Proof.
  revert seen_ids.
  induction papers as [|paper papers IH]; intros seen_ids; cbn [unseen map].
  - split_and!; [done|constructor|]. intros i. split; [by intros ?%elem_of_nil|].
    by intros [?%elem_of_nil _].
  - case_decide as Hin.
    + destruct (IH seen_ids) as (Hsub & Hnodup & Hiff).
      split_and!; [by apply sublist_cons|done|].
      intros i. rewrite Hiff, elem_of_cons. split.
      * intros [Hi Hnot]. split; [by right|done].
      * intros [[->|Hi] Hnot]; [done|by split].
    + destruct (IH ({[ id paper ]} ∪ seen_ids)) as (Hsub & Hnodup & Hiff).
      split_and!.
      * by apply sublist_skip.
      * cbn [map]. apply NoDup_cons. split; [|done].
        rewrite Hiff. intros [_ Hnot]. apply Hnot, elem_of_union. left.
        by apply elem_of_singleton.
      * intros i. cbn [map]. rewrite !elem_of_cons, Hiff, not_elem_of_union,
          not_elem_of_singleton.
        destruct (decide (i = id paper)) as [->|Hne].
        -- split; [|by left]. intros _. split; [by left|done].
        -- split.
           ++ intros [?|(? & _ & ?)]; [done|]. split; [by right|done].
           ++ intros [[?|?] ?]; [done|]. right. by split_and!.
Qed.
Lemma listing_NoDup (listing : gset string → list string) (X : gset string) :
  lists_the_set listing → NoDup (listing X).
Proof.
  intros Hlisting. rewrite (Hlisting X). apply NoDup_elements.
Qed.

Lemma elem_of_listing (listing : gset string → list string) (X : gset string)
    (i : string) :
  lists_the_set listing → i ∈ listing X ↔ i ∈ X.
Proof.
  intros Hlisting. by rewrite (Hlisting X), elem_of_elements.
Qed.

Lemma listing_length (listing : gset string → list string)
    (seen ids : list string) :
  lists_the_set listing →
  (length (listing (list_to_set ids ∪ list_to_set seen))
   ≤ length seen + length ids)%nat.
Proof.
  intros Hlisting.
  rewrite Nat.add_comm, <- length_app.
  apply submseteq_length, NoDup_submseteq; [by apply listing_NoDup|].
  intros i. rewrite elem_of_listing, elem_of_union, !elem_of_list_to_set,
    elem_of_app by done. tauto.
Qed.

Section Watcher.
Variable get : string → string → Response.
Variable listing : gset string → list string.

(** [check_updates] when the request is answered with papers. *)
Lemma check_updates_answered self prior papers :
  Setup.truthy (search_query self) = true →
  get API_BASE (query_of self) = Http 200 (Some papers) →
  check_updates get listing self prior
  = Some (map (paper_event self) (unseen (list_to_set (seen_of prior)) papers),
          <["seen_paper_ids" :=
              last_n 100 (listing (list_to_set (map id papers)
                                   ∪ list_to_set (seen_of prior)))]>
            (default ∅ prior)).
Proof.
  intros Hquery Hget. unfold check_updates. rewrite Hquery, Hget. simpl.
  by rewrite fold_add_paper.
Qed.

(** X23.  The request is answered with papers.  A paper whose identifier
    is not among those saved is reported, once, however often the page
    lists the identifier; a paper whose identifier is saved is not
    reported.  The events come in the order of the page. *)
Theorem unseen_papers_are_reported_once (self : t) (prior : option State)
    (papers : list Paper) :
  Setup.truthy (search_query self) = true →
  get API_BASE (query_of self) = Http 200 (Some papers) →
  ∃ news state,
    check_updates get listing self prior
    = Some (map (paper_event self) news, state)
    ∧ news `sublist_of` papers
    ∧ NoDup (map id news)
    ∧ ∀ i, i ∈ map id news ↔ i ∈ map id papers ∧ i ∉ seen_of prior.
Proof.
  intros Hquery Hget.
  destruct (unseen_spec (list_to_set (seen_of prior)) papers)
    as (Hsub & Hnodup & Hiff).
  eexists _, _. split; [by apply check_updates_answered|].
  split_and!; [done..|].
  intros i. by rewrite Hiff, elem_of_list_to_set.
Qed.

(** X24.  The request is answered with papers, and the iteration over a
    set lists each element once.  The identifiers saved by the check are
    at most 100, without repetition, each one saved before or the
    identifier of a paper of the page; the other keys of the state are
    left as they were.  When the identifiers saved before and the papers
    of the page are no more than 100 together, none is dropped. *)
Theorem at_most_100_identifiers_are_saved (self : t) (prior : option State)
    (papers : list Paper) :
  lists_the_set listing →
  Setup.truthy (search_query self) = true →
  get API_BASE (query_of self) = Http 200 (Some papers) →
  ∃ events state,
    check_updates get listing self prior = Some (events, state)
    ∧ (length (seen_of (Some state)) ≤ 100)%nat
    ∧ NoDup (seen_of (Some state))
    ∧ (∀ i, i ∈ seen_of (Some state) →
            i ∈ seen_of prior ∨ i ∈ map id papers)
    ∧ (∀ key, key ≠ "seen_paper_ids" → state !! key = default ∅ prior !! key)
    ∧ ((length (seen_of prior) + length papers ≤ 100)%nat →
       ∀ i, i ∈ seen_of prior ∨ i ∈ map id papers → i ∈ seen_of (Some state)).
Proof.
  intros Hlisting Hquery Hget.
  eexists _, _. split; [by apply check_updates_answered|].
  set (X := list_to_set (map id papers) ∪ list_to_set (seen_of prior)).
  assert (seen_of (Some (<["seen_paper_ids" := last_n 100 (listing X)]>
                           (default ∅ prior)))
          = last_n 100 (listing X)) as ->.
  { unfold seen_of. simpl. by rewrite lookup_insert_eq. }
  split_and!.
  - unfold last_n. rewrite length_drop. lia.
  - unfold last_n. eapply sublist_NoDup; [|apply sublist_drop].
    by apply listing_NoDup.
  - intros i Hi%subseteq_drop. apply elem_of_listing in Hi; [|done].
    unfold X in Hi.
    rewrite elem_of_union, !elem_of_list_to_set in Hi. tauto.
  - intros key Hkey. by rewrite lookup_insert_ne.
  - intros Hfew i Hi. unfold last_n.
    pose proof (listing_length listing (seen_of prior) (map id papers) Hlisting)
      as Hlen.
    rewrite length_map in Hlen. fold X in Hlen.
    replace (length (listing X) - 100)%nat with 0%nat by lia.
    rewrite drop_0. apply elem_of_listing; [done|]. unfold X.
    rewrite elem_of_union, !elem_of_list_to_set. tauto.
Qed.
End Watcher.

(** X25.  Where the identifiers saved before and the papers of the page
    are no more than 100 together, the watcher is idempotent: run again on
    the state it returned, with the upstream unchanged, it returns no
    event, in whatever order the sets are iterated in the second run. *)
Theorem arxiv_second_check_is_silent (get : string → string → Response)
    (listing listing' : gset string → list string) (self : t)
    (prior : option State) (events : list WatchEvent) (state : State) :
  lists_the_set listing →
  (∀ status_code papers,
     get API_BASE (query_of self) = Http status_code (Some papers) →
     (length (seen_of prior) + length papers ≤ 100)%nat) →
  check_updates get listing self prior = Some (events, state) →
  ∃ state',
    check_updates get listing' self (Some state) = Some ([], state').
Proof.
  intros Hlisting Hfew. unfold check_updates.
  destruct (Setup.truthy (search_query self)) eqn:Hquery; simpl;
    [|by eexists].
  destruct (get API_BASE (query_of self)) as [|status_code body] eqn:Hget;
    [by eexists|].
  case_decide as Hstatus; [|by eexists].
  destruct body as [papers|]; [|done]. simpl.
  rewrite !fold_add_paper. simpl. intros [= _ <-].
  rewrite lookup_insert_eq. simpl. eexists. do 2 f_equal.
  destruct (unseen_spec
              (list_to_set
                 (last_n 100
                    (listing (list_to_set (map id papers)
                              ∪ list_to_set
                                  (default [] (default ∅ prior
                                                 !! "seen_paper_ids"))))))
              papers) as (_ & _ & Hiff).
  destruct (unseen _ papers) as [|paper news] eqn:Hnews; [done|].
  exfalso. destruct (Hiff (id paper)) as [[Hin Hnot] _]; [by left|].
  apply Hnot, elem_of_list_to_set. unfold last_n.
  pose proof (listing_length listing (seen_of prior) (map id papers) Hlisting)
    as Hlen.
  rewrite length_map in Hlen. specialize (Hfew _ _ eq_refl).
  unfold seen_of in Hlen, Hfew.
  match goal with |- _ ∈ drop ?n _ => replace n with 0%nat by lia end.
  rewrite drop_0. apply elem_of_listing; [done|].
  apply elem_of_union. left. by apply elem_of_list_to_set.
Qed.

Lemma unseen_papers_are_reported_once_witness :
  ∃ news state,
    check_updates Samples.arxiv elements Samples.flux_papers (Some Samples.read)
    = Some (map (paper_event Samples.flux_papers) news, state)
    ∧ news `sublist_of` Samples.page
    ∧ NoDup (map id news)
    ∧ ∀ i, i ∈ map id news ↔ i ∈ map id Samples.page ∧ i ∉ ["00001"].
Proof.
  apply (unseen_papers_are_reported_once Samples.arxiv elements
           Samples.flux_papers (Some Samples.read) Samples.page);
    reflexivity.
Defined.

Lemma at_most_100_identifiers_are_saved_witness :
  ∃ events state,
    check_updates Samples.arxiv elements Samples.flux_papers (Some Samples.read)
    = Some (events, state)
    ∧ NoDup (seen_of (Some state))
    ∧ ∀ i, i ∈ ["00001"; "00002"; "00003"] → i ∈ seen_of (Some state).
Proof.
  destruct (at_most_100_identifiers_are_saved Samples.arxiv elements
              Samples.flux_papers (Some Samples.read) Samples.page)
    as (events & state & Heq & _ & Hnodup & _ & _ & Hall);
    [by intros X|reflexivity|reflexivity|].
  exists events, state. split_and!; [done..|].
  intros i Hi. apply Hall; [vm_compute; lia|].
  apply elem_of_cons in Hi as [->|Hi];
    [left; apply list_elem_of_In; vm_compute; tauto|].
  right. apply list_elem_of_In.
  apply elem_of_cons in Hi as [->|Hi]; [vm_compute; tauto|].
  apply list_elem_of_singleton in Hi as ->. vm_compute. tauto.
Defined.

Lemma arxiv_second_check_is_silent_witness :
  let r := default ([], ∅)
             (check_updates Samples.arxiv elements Samples.flux_papers
                (Some Samples.read)) in
  length r.1 = 2%nat
  ∧ ∃ state',
      check_updates Samples.arxiv elements Samples.flux_papers (Some r.2)
      = Some ([], state').
Proof.
  intros r. split; [by vm_compute|].
  apply (arxiv_second_check_is_silent Samples.arxiv elements elements
           Samples.flux_papers (Some Samples.read) r.1 r.2).
  - by intros X.
  - intros status_code papers [= _ <-]. vm_compute. lia.
  - by vm_compute.
Defined.

End ArxivWatcherProps.

(** ** The webhooks of a loaded configuration *)

Module ConfigLoaderProps.
Import ConfigLoader.

Section FromDict.
Variable environ : string → option string.

Lemma slack_channels_lookup channels channel url :
  slack_channels environ channels !! channel = Some url →
  url ≠ "" ∧ channel ∈ ["leaderboard"; "announcements"; "launches"].
Proof.
  unfold slack_channels. intros Hlookup.
  apply map_lookup_filter_Some in Hlookup as [Hlookup Hurl].
  split; [exact Hurl|].
  apply lookup_insert_Some in Hlookup as [[Heq _]|[_ Hlookup]].
  { rewrite <- Heq.
    apply list_elem_of_further, list_elem_of_further, list_elem_of_here. }
  apply lookup_insert_Some in Hlookup as [[Heq _]|[_ Hlookup]].
  { rewrite <- Heq. apply list_elem_of_further, list_elem_of_here. }
  apply lookup_insert_Some in Hlookup as [[Heq _]|[_ Hlookup]].
  { rewrite <- Heq. apply list_elem_of_here. }
  by rewrite lookup_empty in Hlookup.
Qed.

Lemma fold_route_lookup (base : gmap string string)
    (event_routing routing : Py.dict string) (webhooks : gmap string string) :
  (∀ k u, webhooks !! k = Some u →
          (∃ channel, base !! channel = Some u)
          ∧ (k ∈ ["leaderboard"; "announcements"; "launches"]
             ∨ ∃ channel, (k, channel) ∈ event_routing
                          ∧ is_Some (base !! channel))) →
  (∀ item, item ∈ routing → item ∈ event_routing) →
  ∀ k u, fold_left (route base) routing webhooks !! k = Some u →
         (∃ channel, base !! channel = Some u)
         ∧ (k ∈ ["leaderboard"; "announcements"; "launches"]
            ∨ ∃ channel, (k, channel) ∈ event_routing
                         ∧ is_Some (base !! channel)).
Proof.
  revert webhooks.
  induction routing as [|[event_type channel_name] routing IH];
    intros webhooks Hinv Hsub; [exact Hinv|].
  cbn [fold_left]. apply IH.
  - intros k u. unfold route.
    destruct (base !! channel_name) as [target|] eqn:Htarget; [|apply Hinv].
    intros Hk. apply lookup_insert_Some in Hk as [[Hkey Hu]|[_ Hk]];
      [|by apply Hinv].
    rewrite <- Hkey, <- Hu. split; [by exists channel_name|].
    right. exists channel_name.
    split; [apply Hsub, list_elem_of_here | by rewrite Htarget].
  - intros item Hitem. by apply Hsub, list_elem_of_further.
Qed.

(** X27.  Every webhook that [Config.from_dict] stores for a channel or
    for a routed event type is a non-empty URL, and it is the webhook
    that the environment or the file gives for one of the three channels
    leaderboard, announcements and launches.  Its key is one of the three
    channels, or an event type that is routed to a channel that has a
    webhook. *)
Theorem stored_webhooks_are_not_empty (channels : gmap string string)
    (event_routing : Py.dict string) (key url : string) :
  channel_webhooks environ channels event_routing !! key = Some url →
  url ≠ ""
  ∧ (∃ channel,
       channel ∈ ["leaderboard"; "announcements"; "launches"]
       ∧ slack_channels environ channels !! channel = Some url)
  ∧ (key ∈ ["leaderboard"; "announcements"; "launches"]
     ∨ ∃ channel,
         (key, channel) ∈ event_routing
         ∧ is_Some (slack_channels environ channels !! channel)).
Proof.
  unfold channel_webhooks. cbv zeta. intros Hlookup.
  destruct (fold_route_lookup (slack_channels environ channels) event_routing
              event_routing (slack_channels environ channels))
    with (k := key) (u := url) as [[channel Hchannel] Hkey].
  - intros k u Hk. split; [exists k; exact Hk|]. left.
    exact (proj2 (slack_channels_lookup channels k u Hk)).
  - intros item Hitem. exact Hitem.
  - exact Hlookup.
  - destruct (slack_channels_lookup channels channel url Hchannel) as [Hurl Hin].
    split; [exact Hurl|]. split; [|exact Hkey].
    exists channel. split; [exact Hin | exact Hchannel].
Qed.
End FromDict.
Lemma stored_webhooks_are_not_empty_witness :
  let webhooks := channel_webhooks Samples.environ Samples.file_channels
                    Samples.event_routing in
  webhooks !! "new_release"
  = Some "https://hooks.slack.com/services/T/B/launches"
  ∧ webhooks !! "new_paper" = None
  ∧ ∃ channel,
      channel ∈ ["leaderboard"; "announcements"; "launches"]
      ∧ slack_channels Samples.environ Samples.file_channels !! channel
        = Some "https://hooks.slack.com/services/T/B/launches".
Proof.
  intros webhooks. split_and!; [by vm_compute..|].
  destruct (stored_webhooks_are_not_empty Samples.environ Samples.file_channels
              Samples.event_routing "new_release"
              "https://hooks.slack.com/services/T/B/launches")
    as (_ & Hchannel & _); [by vm_compute|exact Hchannel].
Defined.

End ConfigLoaderProps.

(** ** The boards of a loaded configuration *)

Module LeaderboardConfigProps.
Import Base Py PyFacts Leaderboard Spec LeaderboardFacts LeaderboardConfig.

Lemma merge_get (a b : Py.dict bool) (k : string) :
  NoDup (dict_keys b) →
  dict_get (merge a b) k
  = match dict_get b k with Some v => Some v | None => dict_get a k end.
Proof.
  unfold merge. revert a.
  induction b as [|[k0 v0] b IH]; intros a Hb; [done|].
  change (NoDup (k0 :: dict_keys b)) in Hb. apply NoDup_cons in Hb as [Hk0 Hb].
  cbn [fold_left fst snd dict_get]. rewrite IH by exact Hb.
  destruct (decide (k0 = k)) as [->|Hne].
  - assert (dict_get b k = None) as -> by (by apply dict_get_None_keys).
    apply dict_get_set_eq.
  - destruct (dict_get b k); [reflexivity|]. by apply dict_get_set_ne.
Qed.

Lemma merge_NoDup (a b : Py.dict bool) :
  NoDup (dict_keys a) → NoDup (dict_keys (merge a b)).
Proof.
  unfold merge. revert a. induction b as [|[k0 v0] b IH]; intros a Ha;
    [exact Ha|].
  cbn [fold_left fst snd]. apply IH. by apply dict_keys_set_NoDup.
Qed.

Lemma elem_of_switched_on (d : Py.dict bool) (k : string) :
  NoDup (dict_keys d) →
  k ∈ map fst (filter (λ item, item.2 = true) d) ↔ dict_get d k = Some true.
Proof.
  intros Hd. rewrite list_elem_of_In, in_map_iff. split.
  - intros ([k' v] & Hk & [Hv Hin]%list_elem_of_In%list_elem_of_filter).
    simpl in Hk, Hv. rewrite <- Hk, <- Hv. by apply dict_elem_get.
  - intros Hget%dict_get_Some_elem. exists (k, true). split; [reflexivity|].
    apply list_elem_of_In, list_elem_of_filter. by split.
Qed.

Lemma default_board_settings_get (k : string) (v : bool) :
  dict_get DEFAULT_BOARD_SETTINGS k = Some v → v = true.
Proof.
  intros Hget%dict_get_Some_elem. unfold DEFAULT_BOARD_SETTINGS in Hget.
  repeat (apply elem_of_cons in Hget as [[= _ ->]|Hget]; [reflexivity|]).
  by apply elem_of_nil in Hget.
Qed.

Lemma default_board_settings_NoDup : NoDup (dict_keys DEFAULT_BOARD_SETTINGS).
Proof. apply (bool_decide_unpack _). by vm_compute. Qed.

Lemma boards_of_switches (data : Data) (settings : Py.dict bool)
    (board : string) :
  boards data = Some (BoardsDict settings) →
  NoDup (dict_keys settings) →
  board ∈ Setup.boards (from_dict (Some data))
  ↔ dict_get settings board = Some true
    ∨ (dict_get settings board = None
       ∧ board ∈ dict_keys DEFAULT_BOARD_SETTINGS).
Proof.
  intros Hboards Hsettings.
  assert (Setup.boards (from_dict (Some data))
          = map fst (filter (λ item, item.2 = true)
                       (merge DEFAULT_BOARD_SETTINGS settings))) as ->.
  { unfold from_dict. by rewrite Hboards. }
  pose proof (merge_NoDup DEFAULT_BOARD_SETTINGS settings
                default_board_settings_NoDup) as Hmerged.
  rewrite elem_of_switched_on, merge_get by done.
  destruct (dict_get settings board) as [v|] eqn:Hboard.
  - split; [by left|]. by intros [?|[? _]].
  - split.
    + intros Hdefault. right. split; [reflexivity|].
      apply dict_get_is_Some_keys. by rewrite Hdefault.
    + intros [?|[_ [v Hv]%dict_get_is_Some_keys]]; [done|].
      by rewrite Hv, (default_board_settings_get board v Hv).
Qed.

(** X28.  The [boards] entry of the file is a dictionary of switches.
    The boards of the configuration are then the boards that the
    dictionary switches on and the default boards that it does not
    mention, each once: a board that is switched off is not among
    them. *)
Theorem boards_follow_the_switches (data : Data) (settings : Py.dict bool)
    (board : string) :
  boards data = Some (BoardsDict settings) →
  NoDup (dict_keys settings) →
  (board ∈ Setup.boards (from_dict (Some data))
   ↔ dict_get settings board = Some true
     ∨ (dict_get settings board = None
        ∧ board ∈ dict_keys DEFAULT_BOARD_SETTINGS))
  ∧ NoDup (Setup.boards (from_dict (Some data))).
Proof.
  intros Hboards Hsettings. split; [by apply boards_of_switches|].
  unfold from_dict. rewrite Hboards.
  change (NoDup (map fst (filter (λ item, item.2 = true)
                            (merge DEFAULT_BOARD_SETTINGS settings)))).
  eapply sublist_NoDup;
    [exact (merge_NoDup DEFAULT_BOARD_SETTINGS settings
              default_board_settings_NoDup)|].
  apply (fmap_sublist fst), sublist_filter.
Qed.

(** The events of a check name watched boards. *)
Lemma events_of_watched_boards self fetch now boards acc e :
  e ∈ (fold_left (check_board self fetch now) boards acc).1 →
  e ∈ acc.1 ∨ ∃ b, b ∈ boards ∧ extra e "leaderboard" = Some (VStr b).
Proof.
  revert acc. induction boards as [|b boards IH]; intros acc; [by left|].
  cbn [fold_left]. intros [He|(b' & Hb' & He)]%IH.
  - rewrite check_board_answered in He.
    destruct (answered fetch b) as [data|]; [|by left]. simpl in He.
    apply elem_of_app in He as [He|He]; [by left|]. right. exists b.
    split; [apply list_elem_of_here|].
    by apply elem_of_diff_board_events in He
      as [(m & _ & _ & ->)|[(m & prev & i & _ & _ & _ & ->)|(_ & _ & ->)]].
  - right. exists b'. split; [by apply list_elem_of_further | done].
Qed.

(** X29.  A board that the file switches off is left alone by the
    leaderboard watcher that [_setup_watchers] builds from it: whatever
    the upstream answers, no event of a check names the board, and the
    snapshot saved for it stays as it was. *)
Theorem switched_off_board_is_left_alone (data : Data)
    (settings : Py.dict bool) (board : string)
    (artificial_analysis_api_key environment_key : option string)
    (fetch : string → Response) (now : string)
    (prior : option (gmap string Snapshot)) :
  boards data = Some (BoardsDict settings) →
  NoDup (dict_keys settings) →
  dict_get settings board = Some false →
  let self := watcher_of (Some data) artificial_analysis_api_key
                environment_key in
  let r := check_updates self fetch now prior in
  Forall (λ e, extra e "leaderboard" ≠ Some (VStr board)) r.1
  ∧ r.2 !! state_key_of board = default ∅ prior !! state_key_of board.
Proof.
  intros Hboards Hsettings Hoff self r.
  assert (board ∉ leaderboards_to_watch self) as Hnot.
  { change (leaderboards_to_watch self)
      with (Setup.boards (from_dict (Some data))).
    rewrite (boards_of_switches data settings board Hboards Hsettings), Hoff.
    by intros [?|[? _]]. }
  unfold r, check_updates. case_decide; [by split; [constructor|]|].
  split.
  - apply Forall_forall. intros e He Hboard.
    apply events_of_watched_boards in He as [He|(b & Hb & He)];
      [by apply elem_of_nil in He|].
    rewrite Hboard in He. injection He as <-. by apply Hnot.
  - apply LeaderboardProps.fold_check_board_other_keys.
    intros b Hb _ Heq%state_key_of_inj. apply Hnot. by rewrite Heq.
Qed.

Lemma boards_follow_the_switches_witness :
  Setup.boards (from_dict (Some Samples.switches))
  = ["image-editing"; "text-to-video"; "image-to-video"; "text-to-speech";
     "text-to-3d"]
  ∧ ("text-to-image" ∉ Setup.boards (from_dict (Some Samples.switches)))
  ∧ "text-to-speech" ∈ Setup.boards (from_dict (Some Samples.switches)).
Proof.
  destruct (boards_follow_the_switches Samples.switches
              [("text-to-image", false); ("text-to-3d", true)] "text-to-image")
    as [Hoff _]; [reflexivity|apply (bool_decide_unpack _); by vm_compute|].
  destruct (boards_follow_the_switches Samples.switches
              [("text-to-image", false); ("text-to-3d", true)] "text-to-speech")
    as [Hon _]; [reflexivity|apply (bool_decide_unpack _); by vm_compute|].
  split_and!; [by vm_compute| |].
  - rewrite Hoff. by intros [?|[? _]].
  - apply Hon. right. split; [reflexivity|].
    apply (bool_decide_unpack _). by vm_compute.
Defined.

Lemma switched_off_board_is_left_alone_witness :
  let self := watcher_of (Some Samples.switches) (Some "key") None in
  let r := check_updates self (Examples.always Examples.before_climb)
             "2024-01-02T00:00:00" None in
  r.1 ≠ []
  ∧ Forall (λ e, extra e "leaderboard" ≠ Some (VStr "text-to-image")) r.1
  ∧ r.2 !! state_key_of "text-to-image" = None.
Proof.
  intros self r. split; [by vm_compute|].
  apply (switched_off_board_is_left_alone Samples.switches
           [("text-to-image", false); ("text-to-3d", true)] "text-to-image"
           (Some "key") None (Examples.always Examples.before_climb)
           "2024-01-02T00:00:00" None);
    [reflexivity|apply (bool_decide_unpack _); by vm_compute|reflexivity].
Defined.

End LeaderboardConfigProps.

(** ** Failures, exceptions and what the router is given *)

Module LeaderboardApiFacts.
Import Base Spec FailureNotions LeaderboardApi.

Section Watcher.
Variable self : Leaderboard.LeaderboardWatcher.
Variable fetch : string → Response.
Variable now : string.

Local Abbreviation try_block := (try_block self fetch now).
Local Abbreviation _check_leaderboard_api := (_check_leaderboard_api self fetch now).
Local Abbreviation check_board := (check_board self fetch now).
Local Abbreviation check_updates := (check_updates self fetch now).

(** The two handlers catch whatever the [try] block raises: the call
    returns the events appended so far, and the state it was given unless
    the block ran to the statement that saves the snapshot. *)
Lemma _check_leaderboard_api_returns board_name endpoint state :
  _check_leaderboard_api board_name endpoint state
  = inr ((try_block board_name endpoint state).1,
         match (try_block board_name endpoint state).2 with
         | inr (Some snapshot) =>
             <[Leaderboard.state_key_of board_name := snapshot]> state
         | _ => state
         end).
Proof.
  unfold LeaderboardApi._check_leaderboard_api.
  destruct (try_block _ _ _) as [events [e|[snapshot|]]]; [|done..].
  by destruct (Py.is_RequestException e).
Qed.

Lemma try_block_unanswered board_name endpoint state :
  unanswered (fetch (Leaderboard.API_BASE +:+ endpoint)) = true →
  (try_block board_name endpoint state).1 = []
  ∧ ∀ snapshot, (try_block board_name endpoint state).2 ≠ inr (Some snapshot).
Proof.
  unfold unanswered, LeaderboardApi.try_block.
  destruct (fetch _) as [e|status_code [e|[|model rest]]]; [done|..];
    case_decide; try done.
  intros ?%bool_decide_eq_true. done.
Qed.

Lemma _check_leaderboard_api_unanswered board_name endpoint state :
  unanswered (fetch (Leaderboard.API_BASE +:+ endpoint)) = true →
  _check_leaderboard_api board_name endpoint state = inr ([], state).
Proof.
  intros [Hevents Hsaved]%(try_block_unanswered board_name endpoint state).
  rewrite _check_leaderboard_api_returns, Hevents.
  destruct (try_block _ _ _).2 as [e|[snapshot|]]; [done| |done].
  by destruct (Hsaved snapshot).
Qed.

Lemma check_board_returns acc board_name :
  ∃ r, check_board (inr acc) board_name = inr r.
Proof.
  unfold LeaderboardApi.check_board.
  destruct (Py.dict_get _ _) as [endpoint|]; [|by eexists].
  rewrite _check_leaderboard_api_returns. by eexists.
Qed.

Lemma fold_check_board_returns boards acc :
  ∃ r, fold_left check_board boards (inr acc) = inr r.
Proof.
  revert acc. induction boards as [|b boards IH]; intros acc; [by eexists|].
  cbn [fold_left]. destruct (check_board_returns acc b) as [r ->]. apply IH.
Qed.

Lemma check_updates_returns last_check_state :
  ∃ r, check_updates last_check_state = inr r.
Proof.
  unfold LeaderboardApi.check_updates. case_decide; [by eexists|].
  apply fold_check_board_returns.
Qed.

Lemma check_board_unread acc board_name :
  unread fetch board_name = true → check_board acc board_name = acc.
Proof.
  unfold unread, LeaderboardApi.check_board. destruct acc as [e|acc]; [done|].
  destruct (Py.dict_get _ _) as [endpoint|]; [|done].
  intros Hfailed. rewrite _check_leaderboard_api_unanswered by done. simpl.
  rewrite app_nil_r. by destruct acc.
Qed.

Lemma fold_check_board_unread boards acc :
  fold_left check_board boards acc
  = fold_left check_board (filter (λ b, unread fetch b = false) boards) acc.
Proof.
  revert acc. induction boards as [|b boards IH]; intros acc; [done|].
  rewrite filter_cons. simpl. destruct (unread fetch b) eqn:Hb.
  - rewrite decide_False by done. by rewrite check_board_unread.
  - rewrite decide_True by done. simpl. apply IH.
Qed.
End Watcher.

(** A failure stays with the board it hits. *)
Lemma check_updates_unread self fetch now prior :
  check_updates self fetch now prior
  = check_updates
      (watching self (filter (λ b, unread fetch b = false)
                        (Leaderboard.leaderboards_to_watch self)))
      fetch now prior.
Proof.
  unfold check_updates. simpl. case_decide; [done|].
  rewrite fold_check_board_unread.
  induction (filter _ _) as [|b boards IH] using rev_ind; [done|].
  rewrite !fold_left_app. simpl. by rewrite IH.
Qed.

End LeaderboardApiFacts.

Module LeaderboardApiProps.
Import Base Spec FailureNotions LeaderboardApi.

Lemma dict_get_of_rankings (d : Py.dict Leaderboard.Info) (k : string) :
  Py.dict_get (of_rankings d) k = of_info <$> Py.dict_get d k.
Proof.
  induction d as [|[k' v] d IH]; [done|]. simpl. by case_decide.
Qed.

Lemma dict_set_of_rankings (d : Py.dict Leaderboard.Info) (k : string)
    (v : Leaderboard.Info) :
  Py.dict_set (of_rankings d) k (of_info v) = of_rankings (Py.dict_set d k v).
Proof.
  induction d as [|[k' v'] d IH]; [done|]. simpl.
  case_decide; [done|]. simpl. by rewrite IH.
Qed.

Lemma fold_track_of_model max_rank data acc :
  fold_left (track max_rank) (of_model <$> data) (of_rankings acc.1, acc.2)
  = (of_rankings (fold_left (Leaderboard.track max_rank) data acc).1,
     (fold_left (Leaderboard.track max_rank) data acc).2).
Proof.
  revert acc. induction data as [|model data IH]; intros acc; [done|].
  cbn [fmap list_fmap fold_left].
  assert (track max_rank (of_rankings acc.1, acc.2) (of_model model)
          = (of_rankings (Leaderboard.track max_rank acc model).1,
             (Leaderboard.track max_rank acc model).2)) as ->; [|apply IH].
  unfold track, Leaderboard.track. cbn [of_model entry_name entry_rank
    entry_elo entry_id entry_creator fst snd].
  destruct (_ >? _); [done|]. cbn [fst snd].
  rewrite <- dict_set_of_rankings. do 2 f_equal. unfold of_info. simpl.
  f_equal. by destruct (Leaderboard.raw_elo model).
Qed.

Lemma build_current_of_model max_rank data :
  build_current max_rank (of_model <$> data)
  = (of_rankings (Leaderboard.build_current max_rank data).1,
     (Leaderboard.build_current max_rank data).2).
Proof. apply (fold_track_of_model max_rank data ([], [])). Qed.

Lemma rank_or_99_of_rankings (d : Py.dict Leaderboard.Info) (m : string) :
  rank_or_99 (of_rankings d) m = Leaderboard.rank_or_99 d m.
Proof.
  unfold rank_or_99, Leaderboard.rank_or_99. rewrite dict_get_of_rankings.
  by destruct (Py.dict_get d m).
Qed.

Lemma sort_by_ext {A} (f g : A → Z) (l : list A) :
  (∀ x, f x = g x) → Py.sort_by f l = Py.sort_by g l.
Proof.
  intros Hfg. induction l as [|x l IH]; [done|]. simpl. rewrite IH.
  generalize (Py.sort_by g l). intros s.
  induction s as [|y s IHs]; [done|]. simpl. rewrite !Hfg, IHs. done.
Qed.

Lemma current_top3_of_rankings (d : Py.dict Leaderboard.Info) models :
  current_top3_of (of_rankings d) models = Leaderboard.current_top3_of d models.
Proof.
  unfold current_top3_of, Leaderboard.current_top3_of.
  rewrite (sort_by_ext _ (Leaderboard.rank_or_99 d))
    by apply rank_or_99_of_rankings.
  f_equal. apply WatcherServiceFacts.filter_ext_in. intros m _.
  by rewrite rank_or_99_of_rankings.
Qed.

Lemma new_entry_event_of_rankings now board_name d m :
  new_entry_event now board_name (of_rankings d) m
  = Leaderboard.new_entry_event now board_name d m.
Proof.
  unfold new_entry_event, Leaderboard.new_entry_event.
  rewrite dict_get_of_rankings. by destruct (Py.dict_get d m).
Qed.

Lemma top3_change_events_of_rankings now board_name d previous_top3 current_top3 :
  top3_change_events now board_name (of_rankings d) previous_top3 current_top3
  = Leaderboard.top3_change_events now board_name d previous_top3 current_top3.
Proof.
  unfold top3_change_events, Leaderboard.top3_change_events.
  destruct previous_top3; [done|]. case_decide; [done|].
  unfold top3_change_event, Leaderboard.top3_change_event.
  rewrite (map_ext
             (λ m, "#" +:+ pretty (rank_or_99 (of_rankings d) m) +:+ " " +:+ m)
             (λ m, "#" +:+ pretty (Leaderboard.rank_or_99 d m) +:+ " " +:+ m));
    [done|].
  intros m. by rewrite rank_or_99_of_rankings.
Qed.

Lemma sized_dict_get d m i :
  sized d → Py.dict_get d m = Some i → float_sized (Leaderboard.elo i).
Proof.
  induction 1 as [|[k v] d Hv _ IH]; [done|]. simpl.
  case_decide; [by intros [= <-]|apply IH].
Qed.

Lemma float_sized_difference (x y : Z) :
  float_sized x → float_sized y → Py.float_overflows (x - y) = false.
Proof.
  unfold float_sized, Py.float_overflows. intros Hx Hy.
  apply Z.leb_gt.
  assert (2 ^ 1001 = 2 * 2 ^ 1000) as H1 by (by vm_compute).
  assert (2 ^ 1001 < 2 ^ 1024 - 2 ^ 970) as H2 by (by vm_compute).
  lia.
Qed.

Lemma rank_change_of_rankings now board_name previous item :
  sized previous → float_sized (Leaderboard.elo item.2) →
  rank_change_of now board_name (of_rankings previous)
    (item.1, of_info item.2)
  = inr (Leaderboard.rank_change_of now board_name previous item).
Proof.
  intros Hprev Hitem. unfold rank_change_of, Leaderboard.rank_change_of.
  destruct item as [m i]. simpl. rewrite dict_get_of_rankings.
  destruct (Py.dict_get previous m) as [prev|] eqn:Hm; [|done]. simpl.
  case_decide; [done|].
  rewrite float_sized_difference; [done..|]. by eapply sized_dict_get.
Qed.

Lemma appending_of_rankings now board_name previous current events :
  sized previous → sized current →
  appending (rank_change_of now board_name (of_rankings previous))
    (of_rankings current) events
  = (events ++ concat (map (Leaderboard.rank_change_of now board_name previous)
                         current), None).
Proof.
  intros Hprev Hcur. revert events.
  induction Hcur as [|item current Hitem _ IH]; intros events.
  - simpl. by rewrite app_nil_r.
  - simpl. rewrite rank_change_of_rankings by done. rewrite IH.
    by rewrite <- app_assoc.
Qed.


Lemma sized_dict_set d k v :
  sized d → float_sized (Leaderboard.elo v) → sized (Py.dict_set d k v).
Proof.
  intros Hd Hv. induction Hd as [|[k' v'] d Hv' Hd IH]; simpl.
  - by repeat constructor.
  - case_decide; by constructor.
Qed.

Lemma sized_build_current max_rank data :
  Forall (λ model, float_sized (default 0 (Leaderboard.raw_elo model))) data →
  sized (Leaderboard.build_current max_rank data).1.
Proof.
  unfold Leaderboard.build_current.
  assert (sized (@nil (string * Leaderboard.Info), @nil string).1) as Hacc
    by constructor.
  revert Hacc. generalize (@nil (string * Leaderboard.Info), @nil string).
  intros acc Hacc Hdata. revert acc Hacc.
  induction Hdata as [|model data Hmodel _ IH]; intros acc Hacc; [done|].
  simpl. apply IH. unfold Leaderboard.track. destruct (_ >? _); [done|].
  simpl. by apply sized_dict_set.
Qed.

(** On a typed array with float-sized scores the block runs to its end,
    with the events and the snapshot of the typed differ. *)
Lemma diff_board_of_model max_rank now board_name data state :
  sized_state state →
  Forall (λ model, float_sized (default 0 (Leaderboard.raw_elo model))) data →
  diff_board max_rank now board_name (of_model <$> data) (of_snapshot <$> state)
  = ((Leaderboard.diff_board max_rank now board_name data state).1,
     inr (of_snapshot (LeaderboardNotions.new_snapshot max_rank now data))).
Proof.
  intros Hstate Hdata. rewrite LeaderboardFacts.diff_board_unfold.
  unfold diff_board. rewrite build_current_of_model.
  rewrite lookup_fmap.
  set (cur := Leaderboard.build_current max_rank data).
  set (previous_data := state !! Leaderboard.state_key_of board_name).
  assert (sized (Leaderboard.previous_rankings_of previous_data)) as Hprev.
  { unfold previous_data. destruct (state !! _) as [snapshot|] eqn:Hkey.
    - by apply (Hstate _ _ Hkey).
    - constructor. }
  assert (sized cur.1) as Hcur by (by apply sized_build_current).
  assert (previous_rankings_of (of_snapshot <$> previous_data)
          = of_rankings (Leaderboard.previous_rankings_of previous_data)) as ->
    by (by destruct previous_data).
  assert (previous_models_of (of_snapshot <$> previous_data)
          = Leaderboard.previous_models_of previous_data) as ->
    by (by destruct previous_data).
  assert (previous_top3_of (of_snapshot <$> previous_data)
          = Leaderboard.previous_top3_of previous_data) as ->
    by (by destruct previous_data).
  rewrite (map_ext (new_entry_event now board_name (of_rankings cur.1))
             (Leaderboard.new_entry_event now board_name cur.1))
    by (intros m; apply new_entry_event_of_rankings).
  rewrite appending_of_rankings by done.
  rewrite current_top3_of_rankings, top3_change_events_of_rankings.
  unfold Leaderboard.rank_change_events.
  destruct (Leaderboard.previous_rankings_of previous_data) as [|item rest];
    simpl; by rewrite ?app_nil_r, <- ?app_assoc.
Qed.


Section Watcher.
Variable self : Leaderboard.LeaderboardWatcher.
Variable fetch : string → Leaderboard.Response.
Variable now : string.
Hypothesis Hfetch : sized_answers fetch.

Local Abbreviation fetch' := (λ url, of_response (fetch url)).

Lemma _check_leaderboard_api_of_response board_name endpoint state :
  sized_state state →
  let r := Leaderboard._check_leaderboard_api self fetch now board_name
             endpoint state in
  _check_leaderboard_api self fetch' now board_name endpoint
    (of_snapshot <$> state)
  = inr (r.1, of_snapshot <$> r.2)
  ∧ sized_state r.2.
Proof.
  intros Hstate r. unfold r.
  rewrite LeaderboardApiFacts._check_leaderboard_api_returns.
  unfold try_block, Leaderboard._check_leaderboard_api.
  destruct (fetch _) as [|status_code [[|model rest]|]] eqn:Hanswer;
    cbn [of_response]; try done; case_decide; try done.
  assert (Forall (λ model, float_sized (default 0 (Leaderboard.raw_elo model)))
            (model :: rest)) as Hdata by (by eapply Hfetch).
  pose proof (diff_board_of_model (Leaderboard.max_rank self) now board_name
                (model :: rest) state Hstate Hdata) as Hdiff.
  cbn [fmap list_fmap] in Hdiff |- *. rewrite Hdiff. cbn [fst snd]. split.
  - rewrite LeaderboardFacts.diff_board_unfold. cbn [fst snd].
    by rewrite fmap_insert.
  - rewrite LeaderboardFacts.diff_board_unfold. cbn [fst snd].
    intros key snapshot. destruct (decide (key = Leaderboard.state_key_of board_name)) as [->|Hne].
    + rewrite lookup_insert_eq. intros [= <-]. by apply sized_build_current.
    + rewrite lookup_insert_ne by done. apply Hstate.
Qed.

Lemma fold_check_board_of_response boards acc :
  sized_state acc.2 →
  let r := fold_left (Leaderboard.check_board self fetch now) boards acc in
  fold_left (check_board self fetch' now) boards
    (inr (acc.1, of_snapshot <$> acc.2))
  = inr (r.1, of_snapshot <$> r.2).
Proof.
  revert acc. induction boards as [|b boards IH]; intros acc Hacc; [done|].
  cbn [fold_left].
  assert (check_board self fetch' now (inr (acc.1, of_snapshot <$> acc.2)) b
          = inr ((Leaderboard.check_board self fetch now acc b).1,
                 of_snapshot <$> (Leaderboard.check_board self fetch now acc b).2)
          ∧ sized_state (Leaderboard.check_board self fetch now acc b).2)
    as [-> Hsized]; [|by apply IH].
  unfold check_board, Leaderboard.check_board.
  destruct (Py.dict_get _ b) as [endpoint|]; [|done]. cbn [fst snd].
  destruct (_check_leaderboard_api_of_response b endpoint acc.2 Hacc)
    as [-> Hsized].
  done.
Qed.
End Watcher.


(** X30.  On the typed answers the two readings of the watcher agree.
    When the ELO scores of the prior state and of the answers are
    integers below 2^1000 in magnitude, [check_updates] with its
    exceptions made explicit raises nothing and returns the events and
    the state that the typed [check_updates] returns. *)
Theorem typed_answers_are_read_alike (self : Leaderboard.LeaderboardWatcher)
    (fetch : string → Leaderboard.Response) (now : string)
    (prior : option (gmap string Leaderboard.Snapshot)) :
  sized_answers fetch →
  sized_state (default ∅ prior) →
  let r := Leaderboard.check_updates self fetch now prior in
  check_updates self (λ url, of_response (fetch url)) now
    (of_state <$> prior)
  = inr (r.1, of_state r.2).
Proof.
  intros Hfetch Hprior r. unfold r, check_updates, Leaderboard.check_updates.
  assert (default ∅ (of_state <$> prior)
          = of_snapshot <$> default ∅ prior) as ->.
  { destruct prior; [done|]. simpl. by rewrite fmap_empty. }
  case_decide; [done|].
  by apply (fold_check_board_of_response self fetch now Hfetch
              (Leaderboard.leaderboards_to_watch self) ([], default ∅ prior)).
Qed.

Lemma typed_answers_are_read_alike_witness :
  let prior := Examples.snapshot_of Examples.before_climb "text-to-image" in
  let r := Leaderboard.check_updates Examples.one_board
             (Examples.always Examples.after_climb) "2024-01-02T00:00:00"
             (Some prior) in
  check_updates Examples.one_board
    (λ url, of_response (Examples.always Examples.after_climb url))
    "2024-01-02T00:00:00" (Some (of_state prior))
  = inr (r.1, of_state r.2)
  ∧ length r.1 = 4%nat.
Proof.
  intros prior r. split; [|by vm_compute].
  apply (typed_answers_are_read_alike Examples.one_board
           (Examples.always Examples.after_climb) "2024-01-02T00:00:00"
           (Some prior)).
  - intros url status_code models_data [= _ <-].
    repeat constructor; by vm_compute.
  - intros key snapshot Hkey.
    assert (key = "leaderboard_text-to-image") as ->.
    { destruct (decide (key = "leaderboard_text-to-image")); [done|].
      unfold prior, Examples.snapshot_of in Hkey.
      rewrite LeaderboardFacts.diff_board_unfold in Hkey. simpl in Hkey.
      by rewrite lookup_insert_ne in Hkey. }
    vm_compute in Hkey. injection Hkey as <-.
    repeat constructor; by vm_compute.
Defined.

End LeaderboardApiProps.

Module FailureFacts.
Import Base Spec FailureNotions.

Section GitHub.
Variable lower : string → string.
Variable fromisoformat : string → option string.
Variable now : string.
Variable api : GitHubWatcher.Api.
Variable self : GitHubWatcher.t.

Lemma _check_commits_refused state :
  refused (GitHubWatcher.get_commits api (GitHubWatcher.commits_url self) 10)
    = true →
  GitHubWatcher._check_commits lower fromisoformat now api self state
  = Some ([], state).
Proof.
  unfold refused, GitHubWatcher._check_commits.
  destruct (GitHubWatcher.get_commits _ _ _) as [|status_code commits]; [done|].
  intros Hcode%bool_decide_eq_true. by rewrite decide_False.
Qed.

Lemma _check_releases_refused state :
  refused (GitHubWatcher.get_releases api (GitHubWatcher.releases_url self) 5)
    = true →
  GitHubWatcher._check_releases lower fromisoformat api self state
  = Some ([], state).
Proof.
  unfold refused, GitHubWatcher._check_releases.
  destruct (GitHubWatcher.get_releases _ _ _) as [|status_code releases];
    [done|].
  intros Hcode%bool_decide_eq_true. by rewrite decide_False.
Qed.

Lemma _check_repo_exists_refused state :
  refused (GitHubWatcher.get_repo api (GitHubWatcher.repo_url self)) = true →
  GitHubWatcher._check_repo_exists lower fromisoformat api self state
  = Some (None, state).
Proof.
  unfold refused, GitHubWatcher._check_repo_exists.
  destruct (GitHubWatcher.truthy _); [done|].
  destruct (GitHubWatcher.get_repo _ _) as [|status_code repo_data]; [done|].
  intros Hcode%bool_decide_eq_true. by rewrite decide_False.
Qed.

Lemma check_updates_all_refused prior :
  all_refused api self →
  GitHubWatcher.check_updates lower fromisoformat now api self prior
  = Some ([], default ∅ prior).
Proof.
  intros (Hcommits & Hreleases & Hrepo). unfold GitHubWatcher.check_updates.
  destruct (negb _); [done|].
  rewrite _check_commits_refused by done. simpl.
  rewrite _check_releases_refused by done. simpl.
  by rewrite _check_repo_exists_refused.
Qed.
Local Abbreviation _check_commits :=
  (GitHubWatcher._check_commits lower fromisoformat now api).
Local Abbreviation _check_releases :=
  (GitHubWatcher._check_releases lower fromisoformat api).
Local Abbreviation _check_repo_exists :=
  (GitHubWatcher._check_repo_exists lower fromisoformat api).
Local Abbreviation check_updates :=
  (GitHubWatcher.check_updates lower fromisoformat now api).

(** A refused request costs its check alone: the two other checks run on
    the state as it stands. *)
Lemma refused_check_is_left_out state :
  Setup.truthy (GitHubWatcher.repo self) = true →
  (refused (GitHubWatcher.get_commits api (GitHubWatcher.commits_url self) 10)
     = true →
   check_updates self (Some state)
   = '(release_events, new_state) ← _check_releases self state;
     '(repo_event, new_state) ← _check_repo_exists self new_state;
     Some (release_events ++ option_list repo_event, new_state))
  ∧ (refused (GitHubWatcher.get_releases api
                (GitHubWatcher.releases_url self) 5) = true →
     check_updates self (Some state)
     = '(commit_events, new_state) ← _check_commits self state;
       '(repo_event, new_state) ← _check_repo_exists self new_state;
       Some (commit_events ++ option_list repo_event, new_state))
  ∧ (refused (GitHubWatcher.get_repo api (GitHubWatcher.repo_url self)) = true →
     check_updates self (Some state)
     = '(commit_events, new_state) ← _check_commits self state;
       '(release_events, new_state) ← _check_releases self new_state;
       Some (commit_events ++ release_events, new_state)).
Proof.
  intros Hrepo. unfold GitHubWatcher.check_updates. rewrite Hrepo. simpl.
  split_and!; intros Hrefused.
  - by rewrite _check_commits_refused.
  - destruct (_check_commits self state) as [[commit_events s1]|]; [|done].
    simpl. by rewrite _check_releases_refused.
  - destruct (_check_commits self state) as [[commit_events s1]|]; [|done].
    simpl.
    destruct (_check_releases self s1) as [[release_events s2]|]; [|done].
    simpl. rewrite _check_repo_exists_refused by done.
    simpl. by rewrite app_nil_r.
Qed.
End GitHub.

(** C4, as the code has it.  A failure stays where it occurs.

    In the leaderboard watcher [check_updates] raises nothing.  A board
    that is not answered (its request raises, its status is not 200, its
    body cannot be read or its [data] array is empty) adds no event and
    keeps its snapshot, and so the call returns what it returns when only
    the boards that are answered are watched: no event and the prior state
    when none is.  A board whose entries make the differ raise keeps its
    snapshot too.

    In the GitHub watcher a check whose request is refused (it raises
    [RequestException], or its status is not 200) returns no event and the
    state it was given, and the call returns what the two other checks
    return; when the three requests are refused the call returns no event
    and the prior state.

    Whatever [check_updates] of a watcher raises, [check_all] takes no
    event from the watcher, saves no state for it and goes on. *)
Theorem failures_stay_where_they_occur :
  (∀ (self : Leaderboard.LeaderboardWatcher)
     (fetch : string → LeaderboardApi.Response) (now : string)
     (prior : option (gmap string LeaderboardApi.Snapshot)),
     (∃ r, LeaderboardApi.check_updates self fetch now prior = inr r)
     ∧ LeaderboardApi.check_updates self fetch now prior
       = LeaderboardApi.check_updates
           (watching self (filter (λ b, unread fetch b = false)
                             (Leaderboard.leaderboards_to_watch self)))
           fetch now prior
     ∧ (Forall (λ b, unread fetch b = true)
          (Leaderboard.leaderboards_to_watch self) →
        LeaderboardApi.check_updates self fetch now prior
        = inr ([], default ∅ prior))
     ∧ ∀ board_name endpoint state,
         ∃ events state',
           LeaderboardApi._check_leaderboard_api self fetch now board_name
             endpoint state = inr (events, state')
           ∧ (unanswered (fetch (Leaderboard.API_BASE +:+ endpoint)) = true →
              events = [] ∧ state' = state)
           ∧ ∀ e, (LeaderboardApi.try_block self fetch now board_name
                     endpoint state).2 = inl e →
                  state' = state)
  ∧ (∀ (lower : string → string) (fromisoformat : string → option string)
       (now : string) (api : GitHubWatcher.Api) (self : GitHubWatcher.t)
       (state : GitHubWatcher.State) (prior : option GitHubWatcher.State),
       (refused (GitHubWatcher.get_commits api
                   (GitHubWatcher.commits_url self) 10) = true →
        GitHubWatcher._check_commits lower fromisoformat now api self state
        = Some ([], state))
       ∧ (refused (GitHubWatcher.get_releases api
                     (GitHubWatcher.releases_url self) 5) = true →
          GitHubWatcher._check_releases lower fromisoformat api self state
          = Some ([], state))
       ∧ (refused (GitHubWatcher.get_repo api (GitHubWatcher.repo_url self))
            = true →
          GitHubWatcher._check_repo_exists lower fromisoformat api self state
          = Some (None, state))
       ∧ (all_refused api self →
          GitHubWatcher.check_updates lower fromisoformat now api self prior
          = Some ([], default ∅ prior))
       ∧ (Setup.truthy (GitHubWatcher.repo self) = true →
          (refused (GitHubWatcher.get_commits api
                      (GitHubWatcher.commits_url self) 10) = true →
           GitHubWatcher.check_updates lower fromisoformat now api self
             (Some state)
           = '(release_events, new_state) ←
               GitHubWatcher._check_releases lower fromisoformat api self state;
             '(repo_event, new_state) ←
               GitHubWatcher._check_repo_exists lower fromisoformat api self
                 new_state;
             Some (release_events ++ option_list repo_event, new_state))
          ∧ (refused (GitHubWatcher.get_releases api
                        (GitHubWatcher.releases_url self) 5) = true →
             GitHubWatcher.check_updates lower fromisoformat now api self
               (Some state)
             = '(commit_events, new_state) ←
                 GitHubWatcher._check_commits lower fromisoformat now api self
                   state;
               '(repo_event, new_state) ←
                 GitHubWatcher._check_repo_exists lower fromisoformat api self
                   new_state;
               Some (commit_events ++ option_list repo_event, new_state))
          ∧ (refused (GitHubWatcher.get_repo api (GitHubWatcher.repo_url self))
               = true →
             GitHubWatcher.check_updates lower fromisoformat now api self
               (Some state)
             = '(commit_events, new_state) ←
                 GitHubWatcher._check_commits lower fromisoformat now api self
                   state;
               '(release_events, new_state) ←
                 GitHubWatcher._check_releases lower fromisoformat api self
                   new_state;
               Some (commit_events ++ release_events, new_state))))
  ∧ (∀ (State : Type) (watcher : BaseWatcher.t State)
       (acc : list WatchEvent * gmap string State),
       BaseWatcher.check_updates watcher
         (acc.2 !! BaseWatcher.get_state_key watcher) = None →
       WatcherService.check_one acc watcher = acc).
Proof.
  split_and!.
  - intros self fetch now prior. split_and!.
    + apply LeaderboardApiFacts.check_updates_returns.
    + apply LeaderboardApiFacts.check_updates_unread.
    + intros Hall. rewrite LeaderboardApiFacts.check_updates_unread.
      replace (filter _ _) with (@nil string).
      * unfold LeaderboardApi.check_updates. simpl. by case_decide.
      * symmetry. apply PyFacts.filter_none.
        eapply Forall_impl; [exact Hall|]. simpl. by intros b ->.
    + intros board_name endpoint state. eexists _, _. split_and!.
      * apply LeaderboardApiFacts._check_leaderboard_api_returns.
      * intros Hfailed.
        destruct (LeaderboardApiFacts.try_block_unanswered self fetch now
                    board_name endpoint state Hfailed) as [Hevents Hsaved].
        split; [done|].
        destruct (LeaderboardApi.try_block _ _ _ _ _ _).2
          as [e|[snapshot|]]; [done| |done].
        by destruct (Hsaved snapshot).
      * by intros e ->.
  - intros lower fromisoformat now api self state prior. split_and!.
    + apply _check_commits_refused.
    + apply _check_releases_refused.
    + apply _check_repo_exists_refused.
    + apply check_updates_all_refused.
    + apply refused_check_is_left_out.
  - intros State watcher acc Hraise. unfold WatcherService.check_one.
    by rewrite Hraise.
Qed.

End FailureFacts.

Module RouterFacts.
Import Base WatcherService Spec WatcherServiceFacts RouterNotions.

(** What [check_all] hands over was returned by a watcher. *)
Lemma check_all_Forall {State : Type} (P : WatchEvent → Prop)
    (watchers : list (BaseWatcher.t State)) (store : gmap string State) :
  Forall (λ watcher, ∀ last_state events new_state,
            BaseWatcher.check_updates watcher last_state
              = Some (events, new_state) → Forall P events) watchers →
  Forall P (check_all watchers store).1.
Proof.
  intros Hwatchers. unfold check_all.
  assert (Forall P (@nil WatchEvent, store).1) as Hacc by constructor.
  revert Hacc. generalize (@nil WatchEvent, store).
  induction Hwatchers as [|watcher watchers Hwatcher _ IH]; intros acc Hacc;
    [done|].
  cbn [fold_left]. apply IH. unfold check_one.
  destruct (BaseWatcher.check_updates watcher _) as [[events new_state]|]
    eqn:Hcall; [|done].
  cbn [fst]. case_bool_decide; [done|].
  destruct events as [|e events]; [done|].
  apply Forall_app. split; [done|]. by eapply Hwatcher.
Qed.

Section Buckets.
Variable lower : string → string.
Variable config : Config.t.

Local Abbreviation is_priority := (_is_priority_event lower config).

Lemma partition_unstaged (routed : list WatchEvent) :
  Forall (λ e, ¬ staged_leaderboard_event e) routed →
  let b := partition_events lower config routed in
  all_buckets b ≡ₚ routed
  ∧ ∀ e, length (holders b e) = if bool_decide (e ∈ routed) then 1%nat else 0%nat.
Proof.
  intros Hrouted b. split.
  - unfold all_buckets. unfold b at 5. rewrite other_events_alt.
    unfold b, partition_events. simpl.
    rewrite four_buckets; [apply filter_app_complement|].
    apply Forall_forall. intros e [_ He]%list_elem_of_filter.
    rewrite Forall_forall in Hrouted. by apply Hrouted.
  - intros e.
    assert (e ∈ routed → ¬ staged_leaderboard_event e) as Hun
      by (rewrite Forall_forall in Hrouted; apply Hrouted).
    unfold staged_leaderboard_event in Hun.
    assert (e ∈ priority_events b ↔ is_priority e = true ∧ e ∈ routed) as H1
      by (unfold b, partition_events; simpl; by rewrite list_elem_of_filter).
    assert (e ∈ announcements b
            ↔ release_stage e = ANNOUNCED ∧ is_priority e ≠ true ∧ e ∈ routed)
      as H2
      by (unfold b, partition_events; simpl; by rewrite !list_elem_of_filter).
    assert (e ∈ launches b
            ↔ release_stage e = LAUNCHED ∧ is_priority e ≠ true ∧ e ∈ routed)
      as H3
      by (unfold b, partition_events; simpl; by rewrite !list_elem_of_filter).
    assert (e ∈ leaderboard_events b
            ↔ source e = "leaderboard" ∧ is_priority e ≠ true ∧ e ∈ routed)
      as H4
      by (unfold b, partition_events; simpl; by rewrite !list_elem_of_filter).
    assert (e ∈ other_events b
            ↔ (release_stage e ≠ ANNOUNCED ∧ release_stage e ≠ LAUNCHED
               ∧ source e ≠ "leaderboard")
              ∧ is_priority e ≠ true ∧ e ∈ routed) as H5
      by (unfold b; rewrite other_events_alt; by rewrite !list_elem_of_filter).
    assert (ANNOUNCED ≠ LAUNCHED) as Hstages by done.
    unfold holders. rewrite !filter_cons, filter_nil.
    destruct (decide (is_priority e = true)) as [Hp|Hp],
      (decide (release_stage e = ANNOUNCED)) as [Ha|Ha],
      (decide (release_stage e = LAUNCHED)) as [Hl|Hl],
      (decide (source e = "leaderboard")) as [Hs|Hs],
      (decide (e ∈ routed)) as [He|He];
      try (rewrite Ha in Hl; discriminate Hl);
      (rewrite ?(bool_decide_eq_true_2 _ He), ?(bool_decide_eq_false_2 _ He);
       repeat (first [rewrite decide_True by tauto
                     |rewrite decide_False by tauto]);
       try reflexivity; exfalso; tauto).
Qed.
End Buckets.

Section RunOnce.
Variable lower : string → string.
Variable config : Config.t.
Variable post : string → Slack.Message → option Z.
Context {State : Type}.

(** C1.  The events that [run_once] routes are those that its watchers
    returned in [check_all], and no watcher of the repository gives a
    release stage to an event of the leaderboard.  For such watchers the
    five buckets hold the events of the cycle each exactly once: the
    buckets put one after the other are a permutation of the events, their
    sizes add up to the number of events, every event is in exactly one
    bucket, and the buckets hold nothing else. *)
Theorem routed_events_are_partitioned (watchers : list (BaseWatcher.t State))
    (state_manager : gmap string State) (self_notifier : Slack.SlackNotifier)
    (w : Slack.World) :
  Forall unstaged watchers →
  let events := (run_once lower config post watchers state_manager
                   self_notifier w).1.1 in
  let b := partition_events lower config events in
  all_buckets b ≡ₚ events
  ∧ (length (priority_events b) + length (announcements b)
     + length (launches b) + length (leaderboard_events b)
     + length (other_events b) = length events)%nat
  ∧ ∀ e, length (holders b e)
         = if bool_decide (e ∈ events) then 1%nat else 0%nat.
Proof.
  intros Hwatchers events b.
  assert (Forall (λ e, ¬ staged_leaderboard_event e) events) as Hevents.
  { pose proof (check_all_Forall _ watchers state_manager Hwatchers) as Hall.
    unfold events, run_once.
    destruct (check_all watchers state_manager) as [[|e0 events0] store];
      [constructor|].
    cbn [fst snd] in *. unfold _mark_priority_events.
    apply Forall_forall. intros e He.
    apply list_elem_of_In, in_map_iff in He as (e1 & <- & He1).
    apply list_elem_of_In in He1. rewrite Forall_forall in Hall.
    specialize (Hall e1 He1). unfold staged_leaderboard_event in *.
    destruct (mark_priority_fields lower
                (Config.get_priority_model_names lower config) e1)
      as (_ & -> & ->).
    exact Hall. }
  destruct (partition_unstaged lower config events Hevents) as [Hperm Hholders].
  split_and!; [exact Hperm| |exact Hholders].
  apply Permutation_length in Hperm. rewrite <- Hperm.
  unfold all_buckets. rewrite !length_app. fold b. lia.
Qed.
End RunOnce.

End RouterFacts.

Module WatcherSources.
Import Base WatcherService Spec RouterNotions.

Lemma sourced_is_unstaged (name : string) (events : list WatchEvent) :
  name ≠ "leaderboard" →
  Forall (λ e, source e = name) events →
  Forall (λ e, ¬ staged_leaderboard_event e) events.
Proof.
  intros Hname Hall. eapply Forall_impl; [exact Hall|].
  intros e He [Hsource _]. simpl in He. congruence.
Qed.

Lemma mapM_Forall {A B} (f : A → option B) (P : B → Prop) l k :
  (∀ x y, f x = Some y → P y) → mapM f l = Some k → Forall P k.
Proof.
  intros Hf Hall%mapM_Some_1.
  induction Hall as [|x y l k Hxy _ IH]; constructor; [by eapply Hf|done].
Qed.

(** The leaderboard watcher builds its events with the default stage. *)
Lemma leaderboard_watcher_unstaged self fetch now :
  unstaged (leaderboard_watcher self fetch now).
Proof.
  intros last_state events new_state [= Hcall]. apply Forall_forall.
  intros e He [_ Hstage].
  assert (release_stage e = UNKNOWN) as Hunknown.
  { eapply LeaderboardFacts.check_updates_events_unknown.
    by rewrite Hcall. }
  rewrite Hunknown in Hstage. by destruct Hstage.
Qed.

(** The GitHub watcher and the arXiv watcher give their own source. *)
Lemma github_watcher_unstaged lower fromisoformat now api self :
  unstaged (GitHubWatcher.watcher lower fromisoformat now api self).
Proof.
  intros last_state events new_state. simpl.
  unfold GitHubWatcher.check_updates.
  destruct (negb _); [by intros [= <- _]; constructor|].
  destruct (GitHubWatcher._check_commits _ _ _ _ _ _)
    as [[commit_events s1]|] eqn:Hcommits; [|done]. simpl.
  destruct (GitHubWatcher._check_releases _ _ _ _ _)
    as [[release_events s2]|] eqn:Hreleases; [|done]. simpl.
  destruct (GitHubWatcher._check_repo_exists _ _ _ _ _)
    as [[repo_event s3]|] eqn:Hrepo; [|done]. simpl.
  intros [= <- _]. apply (sourced_is_unstaged "github"); [done|].
  rewrite !Forall_app. split_and!.
  - unfold GitHubWatcher._check_commits in Hcommits.
    destruct (GitHubWatcher.get_commits _ _ _) as [|code [|latest rest]];
      [by injection Hcommits as <- _; constructor| |];
      (case_decide; [|by injection Hcommits as <- _; constructor]);
      [by injection Hcommits as <- _; constructor|].
    unfold GitHubWatcher.commit_events in Hcommits.
    destruct (_ && _); [|by injection Hcommits as <- _; constructor].
    destruct (mapM _ _) as [events'|] eqn:Hevents; [|done].
    injection Hcommits as <- _.
    eapply mapM_Forall; [|exact Hevents]. intros commit e.
    unfold GitHubWatcher.commit_event.
    destruct (fromisoformat _); [|done]. by intros [= <-].
  - unfold GitHubWatcher._check_releases in Hreleases.
    destruct (GitHubWatcher.get_releases _ _ _) as [|code [|latest rest]];
      [by injection Hreleases as <- _; constructor| |];
      (case_decide; [|by injection Hreleases as <- _; constructor]);
      [by injection Hreleases as <- _; constructor|].
    unfold GitHubWatcher.release_events in Hreleases.
    destruct (_ && _); [|by injection Hreleases as <- _; constructor].
    destruct (mapM _ _) as [events'|] eqn:Hevents; [|done].
    injection Hreleases as <- _.
    eapply mapM_Forall; [|exact Hevents]. intros release e.
    unfold GitHubWatcher.release_event.
    destruct (match GitHubWatcher.published_at release with
              | Some _ => _ | None => _ end); [|done].
    simpl. destruct (fromisoformat _); [|done]. by intros [= <-].
  - unfold GitHubWatcher._check_repo_exists in Hrepo.
    destruct (GitHubWatcher.truthy _);
      [by injection Hrepo as <- _; constructor|].
    destruct (GitHubWatcher.get_repo _ _) as [|code repo_data];
      [by injection Hrepo as <- _; constructor|].
    case_decide; [|by injection Hrepo as <- _; constructor].
    destruct (GitHubWatcher.repo_created_at repo_data); [|done].
    simpl in Hrepo. destruct (fromisoformat _); [|done].
    injection Hrepo as <- _. by repeat constructor.
Qed.

Lemma arxiv_watcher_unstaged get listing self :
  unstaged (ArxivWatcher.watcher get listing self).
Proof.
  intros last_state events new_state. simpl.
  unfold ArxivWatcher.check_updates.
  destruct (negb _); [by intros [= <- _]; constructor|].
  destruct (get _ _) as [|code body]; [by intros [= <- _]; constructor|].
  case_decide; [|by intros [= <- _]; constructor].
  destruct body as [papers|]; [|done]. simpl. intros [= <- _].
  apply (sourced_is_unstaged "arxiv"); [done|].
  set (seen := list_to_set _).
  assert (Forall (λ e, source e = "arxiv") (seen, @nil WatchEvent).2) as Hacc
    by constructor.
  revert Hacc. generalize (seen, @nil WatchEvent).
  induction papers as [|paper papers IH]; intros acc Hacc; [done|].
  simpl. apply IH. unfold ArxivWatcher.add_paper. case_decide; [done|].
  simpl. apply Forall_app. split; [done|]. by repeat constructor.
Qed.


Lemma appending_Forall {A} (P : WatchEvent → Prop)
    (body : A → Py.Exception + list WatchEvent) items events :
  (∀ item new, body item = inr new → Forall P new) →
  Forall P events →
  Forall P (LeaderboardApi.appending body items events).1.
Proof.
  intros Hbody. revert events.
  induction items as [|item items IH]; intros events Hevents; [done|].
  simpl. destruct (body item) as [e|new] eqn:Hitem; [done|].
  apply IH. apply Forall_app. split; [done|]. by eapply Hbody.
Qed.

Lemma api_diff_board_unknown max_rank now board_name data state :
  Forall (λ e, release_stage e = UNKNOWN)
    (LeaderboardApi.diff_board max_rank now board_name data state).1.
Proof.
  unfold LeaderboardApi.diff_board.
  destruct (LeaderboardApi.build_current max_rank data) as [current models].
  set (new := map _ _).
  assert (Forall (λ e, release_stage e = UNKNOWN) new) as Hnew.
  { unfold new. apply Forall_forall. intros e He.
    apply list_elem_of_In, in_map_iff in He as (m & <- & _). done. }
  set (loop := match LeaderboardApi.previous_rankings_of _ with
               | [] => (new, None)
               | _ => _
               end).
  assert (Forall (λ e, release_stage e = UNKNOWN) loop.1) as Hloop.
  { unfold loop. destruct (LeaderboardApi.previous_rankings_of _); [done|].
    apply appending_Forall; [|done]. intros item events.
    unfold LeaderboardApi.rank_change_of.
    destruct (Py.dict_get _ _) as [prev|]; [|by intros [= <-]].
    case_decide; [by intros [= <-]|].
    destruct (LeaderboardApi.elo item.2), (LeaderboardApi.elo prev); try done.
    destruct (Py.float_overflows _); [done|]. intros [= <-].
    by repeat constructor. }
  destruct loop as [events [e|]]; [done|]. simpl.
  apply Forall_app. split; [done|].
  unfold LeaderboardApi.top3_change_events.
  destruct (LeaderboardApi.previous_top3_of _); [done|].
  case_decide; [done|]. by repeat constructor.
Qed.

Lemma api_watcher_unstaged self fetch now :
  unstaged (LeaderboardApi.watcher self fetch now).
Proof.
  intros last_state events new_state. simpl.
  destruct (LeaderboardApi.check_updates _ _ _ _) as [e|r] eqn:Hcall; [done|].
  intros [= ->]. revert Hcall. unfold LeaderboardApi.check_updates.
  case_decide; [by intros [= <- _]; constructor|].
  assert (∀ boards acc r,
            Forall (λ e, release_stage e = UNKNOWN) acc.1 →
            fold_left (LeaderboardApi.check_board self fetch now) boards
              (inr acc) = inr r →
            Forall (λ e, release_stage e = UNKNOWN) r.1) as Hfold.
  { induction boards as [|b boards IH]; intros acc r Hacc;
      [by intros [= <-]|].
    cbn [fold_left]. unfold LeaderboardApi.check_board at 2.
    destruct (Py.dict_get _ b) as [endpoint|]; [|by apply IH].
    rewrite LeaderboardApiFacts._check_leaderboard_api_returns. apply IH.
    cbn [fst]. apply Forall_app. split; [done|].
    unfold LeaderboardApi.try_block.
    destruct (fetch _) as [e|code [e|[|model rest]]]; try done;
      case_decide; try done.
    apply api_diff_board_unknown. }
  intros Hcall. apply Forall_forall. intros e He [_ Hstage].
  assert (release_stage e = UNKNOWN) as Hunknown.
  { pose proof (Hfold _ ([], default ∅ last_state) _ (Forall_nil_2 _) Hcall)
      as Hall.
    rewrite Forall_forall in Hall. by apply Hall. }
  rewrite Hunknown in Hstage. by destruct Hstage.
Qed.

End WatcherSources.

Module SendsFacts.
Import Base WatcherService Spec WatcherServiceNotions.

Section Router.
Variable lower : string → string.
Variable config : Config.t.
Variable post : string → Slack.Message → option Z.

Lemma described_of_event (event : WatchEvent) :
  Emitted.described (Emitted.of_event event) = Some event.
Proof. by destruct event. Qed.

(** On an event whose description is a string the sends return, as
    [WatcherService.send_priority] has them. *)
Lemma send_priority_of_event (r : Run) (event : WatchEvent) :
  Sends.send_priority lower config post r (Emitted.of_event event)
  = Sends.Returns (send_priority lower config post r event).
Proof.
  unfold Sends.send_priority, send_priority, Sends.send_event,
    Sends._build_message, Slack.send_event.
  rewrite described_of_event.
  change (Emitted.model_name (Emitted.of_event event)) with (model_name event).
  change (Emitted.event_type (Emitted.of_event event)) with (event_type event).
  change (Sends.get_webhook_for_event ?self (Emitted.of_event event))
    with (Slack.get_webhook_for_event self event).
  by destruct (from_option _ _ _).
Qed.

(** On an event without description [send_event] raises before it makes
    a request, and the statement that restores the list is not reached:
    the notifier still holds the list object, with the type of the event
    in it. *)
Lemma send_priority_raises (r : Run) (event : Emitted.t) :
  allocated r →
  Emitted.description event = None →
  Sends.mentions_emitted lower config event = true →
  ∃ r', Sends.send_priority lower config post r event
        = Sends.Raises Py.TypeError r'
        ∧ mention_list r'
          = with_type (mention_list r) (Emitted.event_type event)
        ∧ Slack.outbox (world r') = Slack.outbox (world r)
        ∧ sent r' = sent r.
Proof.
  intros [l0 Hl0] Hnone Hmention.
  unfold Sends.send_priority, Sends.send_event, Sends._build_message,
    Emitted.described.
  unfold Sends.mentions_emitted in Hmention. rewrite Hmention, Hnone. simpl.
  eexists. split; [reflexivity|].
  unfold mention_list, with_type, Slack.deref. simpl.
  set (l := Slack.mention_channel_for (notifier r)) in *.
  set (l' := fresh (dom (Slack.heap (world r)))).
  assert (l ≠ l') as Hne.
  { intros Heq. apply (is_fresh (dom (Slack.heap (world r)))).
    fold l'. rewrite <- Heq. apply elem_of_dom. by eexists. }
  rewrite lookup_insert_ne by done. rewrite Hl0. simpl.
  case_bool_decide; simpl.
  - rewrite lookup_insert_ne by done. by rewrite Hl0.
  - rewrite lookup_insert_eq. unfold Slack.deref. simpl.
    by rewrite lookup_insert_ne, Hl0.
Qed.
End Router.

End SendsFacts.

Module GitHubApiFacts.
Import Base.

(** On the answers that [GitHubWatcher] reads, the two readings of the
    repository check agree. *)
Lemma _check_repo_exists_of_response lower fromisoformat api self state :
  GitHubApi._check_repo_exists lower fromisoformat api
    (λ url, GitHubApi.of_response (GitHubWatcher.get_repo api url)) self state
  = GitHubApi.of_result
      <$> GitHubWatcher._check_repo_exists lower fromisoformat api self state.
Proof.
  unfold GitHubApi._check_repo_exists, GitHubWatcher._check_repo_exists.
  destruct (GitHubWatcher.truthy _); [done|].
  destruct (GitHubWatcher.get_repo api _) as [|code repo_data]; [done|].
  simpl. case_decide; [|done].
  destruct (GitHubWatcher.repo_created_at repo_data) as [created|]; [|done].
  simpl. destruct (fromisoformat _) as [timestamp|]; [|done]. simpl.
  unfold GitHubApi.get_description. simpl.
  by destruct (GitHubWatcher.repo_description repo_data).
Qed.

(** The repository of the priority model is discovered: its description
    is [null], and so is that of the event. *)
Example repository_without_description_is_discovered :
  GitHubApi._check_repo_exists Py.ascii_lower Samples.isoformat Samples.github
    (λ _, GitHubWatcher.Http 200 Samples.undescribed) Samples.z_image_repo ∅
  = Some (Some Samples.discovery,
          {[ "repo_known" := VBool true;
             "repo_created_at" := VStr "2023-12-01T00:00:00Z" ]})
  ∧ Emitted.described Samples.discovery = None.
Proof. split; [|done]. vm_compute. reflexivity. Qed.
End GitHubApiFacts.

Module FailureExamples.
Import Base WatcherService Spec FailureNotions.

(** C7, on the code.  The repository of a priority model that asks for a
    mention is discovered, and it has no description: the API gives
    [null], and the event is built with the description [None].
    [run_once] marks the event and sends it first.  [send_event] raises
    [TypeError] while it builds the message, after the type of the event
    was appended to the list of the notifier and before the statement that
    puts the copy back; nothing catches the exception, and the notifier
    keeps the list with the added type, one element longer than before
    the send. *)
Theorem raising_send_leaves_the_override :
  ∃ event state r',
    GitHubApi._check_repo_exists Py.ascii_lower Samples.isoformat
      Samples.github (λ _, GitHubWatcher.Http 200 Samples.undescribed)
      Samples.z_image_repo ∅ = Some (Some event, state)
    ∧ Emitted.description event = None
    ∧ Sends.mentions_emitted Py.ascii_lower Examples.config event = true
    ∧ Sends.send_priority_part Py.ascii_lower Examples.config Samples.accept
        [event] Examples.run = Sends.Raises Py.TypeError r'
    ∧ mention_list Examples.run = ["new_release"; "new_model"]
    ∧ mention_list r' = ["new_release"; "new_model"; "release_launched"]
    ∧ length (mention_list r') ≠ length (mention_list Examples.run).
Proof.
  eexists Samples.discovery, _, _. split_and!.
  - vm_compute. reflexivity.
  - reflexivity.
  - by vm_compute.
  - vm_compute. reflexivity.
  - by vm_compute.
  - by vm_compute.
  - by vm_compute.
Qed.

End FailureExamples.

Module MoreExamples.
Import Base WatcherService Spec FailureNotions RouterNotions.

(** After that, an event of the same type of a model that asks for
    nothing is sent with the mention. *)
Example override_outlives_the_raise :
  ∀ r', Sends.send_priority Py.ascii_lower Examples.config Samples.accept
          Examples.run Samples.discovery = Sends.Raises Py.TypeError r' →
  let later := Examples.event "github" "release_launched" "Flux" LAUNCHED in
  Slack.text (Slack._build_message (notifier Examples.run) (world Examples.run)
                later)
  = ":octocat: Model Launched: Flux"
  ∧ Slack.text (Slack._build_message (notifier r') (world r') later)
    = "<!channel> :octocat: Model Launched: Flux".
Proof. intros r' Hr'. vm_compute in Hr'. injection Hr' as <-. by vm_compute. Qed.

(** C4 fails as it is worded, in both watchers.  Two boards are watched;
    the request for the first one raises, the second one answers: the
    call still returns the events of the second board and a state that
    differs from the prior one.  And the newest release of a repository
    has no date: the exception that reading it raises leaves
    [check_updates] of the GitHub watcher. *)
Lemma a_failure_neither_empties_the_call_nor_stays_inside :
  let fetch := λ url, LeaderboardApi.of_response (Examples.first_board_down url) in
  let prior :=
    LeaderboardApi.of_state
      (Examples.snapshot_of Examples.before_climb "image-editing") in
  (unanswered (fetch (Leaderboard.API_BASE +:+ "/text-to-image")) = true
   ∧ ∃ events state,
       LeaderboardApi.check_updates Examples.two_boards fetch
         "2024-01-02T00:00:00" (Some prior) = inr (events, state)
       ∧ events ≠ []
       ∧ state ≠ prior)
  ∧ GitHubWatcher.check_updates Py.ascii_lower Samples.isoformat
      "2024-01-02T00:00:00" Samples.undated Samples.flux (Some Samples.seen)
    = None.
Proof.
  intros fetch prior. split_and!.
  - by vm_compute.
  - destruct (LeaderboardApiFacts.check_updates_returns Examples.two_boards
                fetch "2024-01-02T00:00:00" (Some prior)) as [[events state] Hr].
    exists events, state. split; [exact Hr|].
    assert (map event_type events
            = ["leaderboard_rank_change"; "leaderboard_rank_change";
               "leaderboard_rank_change"; "leaderboard_top3_change"]
            ∧ LeaderboardApi.top3
                <$> state !! Leaderboard.state_key_of "image-editing"
              = Some ["A"; "M"; "B"]) as [Hevents Hstate].
    { vm_compute in Hr. injection Hr as <- <-. by vm_compute. }
    split.
    + intros ->. discriminate Hevents.
    + intros ->. vm_compute in Hstate. discriminate Hstate.
  - by vm_compute.
Qed.

(** A score that is [null] ends the differ at the model that has it,
    once its rank has changed.  The event about the new model was built
    before: it is returned, and since the snapshot is not saved it is
    returned again by the next call. *)
Example null_score_ends_the_differ_early :
  let fetch := λ _, LeaderboardApi.Http 200 (inr Samples.unscored_climb) in
  let prior :=
    LeaderboardApi.of_state
      (Examples.snapshot_of Examples.before_climb "text-to-image") in
  (LeaderboardApi.try_block Examples.one_board fetch "2024-01-02T00:00:00"
     "text-to-image" "/text-to-image" prior).2 = inl Py.TypeError
  ∧ ∃ events,
      LeaderboardApi.check_updates Examples.one_board fetch
        "2024-01-02T00:00:00" (Some prior) = inr (events, prior)
      ∧ map (λ e, (event_type e, model_name e)) events
        = [("leaderboard_new_entry", "N")].
Proof.
  intros fetch prior. split; [by vm_compute|].
  eexists. split; [vm_compute; reflexivity|by vm_compute].
Qed.

(** The difference of two scores is printed as a float. *)
Example rank_change_delta_is_rounded :
  description (Leaderboard.rank_change_event "2024-01-02T00:00:00"
                 "text-to-image" "M" 5 2 0 9007199254740993)
  = "Rank: #5 → #2 (+-3) | ELO: 0 → 9007199254740993 (+9007199254740992)".
Proof. by vm_compute. Qed.

Lemma failures_stay_where_they_occur_witness :
  LeaderboardApi.check_updates Examples.one_board
    (λ _, LeaderboardApi.Raises Py.RequestException) "2024-01-02T00:00:00"
    (Some (LeaderboardApi.of_state
             (Examples.snapshot_of Examples.before_climb "text-to-image")))
  = inr ([], LeaderboardApi.of_state
               (Examples.snapshot_of Examples.before_climb "text-to-image"))
  ∧ GitHubWatcher.check_updates Py.ascii_lower Samples.isoformat
      "2024-01-02T00:00:00"
      {| GitHubWatcher.get_commits := λ _ _, GitHubWatcher.RequestException;
         GitHubWatcher.get_releases := λ _ _, GitHubWatcher.Http 503 [];
         GitHubWatcher.get_repo := λ _, GitHubWatcher.RequestException |}
      Samples.flux (Some Samples.seen)
    = Some ([], Samples.seen)
  ∧ check_one ([], ∅) (Examples.broken "C") = ([], ∅).
Proof.
  destruct FailureFacts.failures_stay_where_they_occur
    as (Hboard & Hgithub & Hall).
  split_and!.
  - apply (Hboard Examples.one_board
             (λ _, LeaderboardApi.Raises Py.RequestException)).
    repeat constructor.
  - apply (Hgithub Py.ascii_lower Samples.isoformat "2024-01-02T00:00:00"
             _ Samples.flux ∅ (Some Samples.seen)).
    by split_and!.
  - by apply Hall.
Defined.

Lemma routed_events_are_partitioned_witness :
  let watcher := leaderboard_watcher Examples.one_board
                   (Examples.always Examples.after_climb)
                   "2024-01-02T00:00:00" in
  let store : gmap string (gmap string Leaderboard.Snapshot) :=
    {[ "leaderboard:AI Image Generation"
         := Examples.snapshot_of Examples.before_climb "text-to-image" ]} in
  let events := (run_once Py.ascii_lower Examples.config Samples.accept
                   [watcher] store Examples.notifier Examples.world).1.1 in
  let b := partition_events Py.ascii_lower Examples.config events in
  all_buckets b ≡ₚ events
  ∧ length events = 4%nat
  ∧ map length [priority_events b; announcements b; launches b;
                leaderboard_events b; other_events b]
    = [0; 0; 0; 4; 0]%nat.
Proof.
  intros watcher store events b.
  destruct (RouterFacts.routed_events_are_partitioned Py.ascii_lower
              Examples.config Samples.accept [watcher] store Examples.notifier
              Examples.world) as (Hperm & _ & _).
  - constructor; [|constructor].
    apply WatcherSources.leaderboard_watcher_unstaged.
  - split_and!; [exact Hperm | by vm_compute | by vm_compute].
Defined.

End MoreExamples.
